(** * Verification of the Redis database plugin (redis.go)

    A shallow embedding of [src/redis.go]: the credential lifecycle
    operations [NewUser], [UpdateUser], [DeleteUser] with their helpers
    [newUser], [changeUserPassword], [removeEmpty] and [computeTimeout].

    Layout:
    - [GoStrings], [GoJSON], [GoTime], [Credsutil]: the library functions
      redis.go calls (Go's strings, encoding/json and time packages, and
      Vault's credsutil), written out as executable functions;
    - [RedisServer]: the ACL commands of a Redis node, the environment the
      plugin talks to;
    - [Producer]: the connection producer the plugin embeds;
    - [Plugin]: redis.go itself, function by function;
    - [Scenario], [Conditions], [Inputs]: concrete stores and requests,
      and the conditions the statements are made under;
    - the theorems: one section for each property of the specification,
      then further properties of the code.

    Go strings are byte strings; they are modelled as [string] (a list of
    8-bit [ascii]).  Go errors are modelled by their message text. *)

From Stdlib Require Import ZArith List String Ascii Lia Bool DecimalString.
From stdpp Require Import base option list gmap strings.
Import ListNotations.

Open Scope string_scope.
Open Scope list_scope.
Open Scope Z_scope.

(** ** Results of Go calls

    A Go function of this program returns normally, with a nil error
    ([Ok]) or with an error ([Err], the error's message), or it panics
    ([Panic]). *)

Inductive outcome (A : Type) :=
| Ok (a : A)
| Err (e : string)
| Panic (msg : string).
Arguments Ok {A} a.
Arguments Err {A} e.
Arguments Panic {A} msg.

Definition isOk {A} (r : outcome A) : bool :=
  match r with Ok _ => true | _ => false end.

Definition isErr {A} (r : outcome A) : bool :=
  match r with Err _ => true | _ => false end.

(** ** Go's [strings] package *)

Module GoStrings.

Definition byte_of (c : ascii) : N := N_of_ascii c.




(** The byte sequences (UTF-8) of the runes for which [unicode.IsSpace]
    holds: the six ASCII blanks, U+0085, U+00A0, U+1680, U+2000..U+200A,
    U+2028, U+2029, U+202F, U+205F, U+3000. *)
Definition bytes (l : list N) : string :=
  string_of_list_ascii (map ascii_of_N l).

Definition spaceRunes : list string :=
  map bytes
    [ [9]; [10]; [11]; [12]; [13]; [32];
      [194; 133]; [194; 160]; [225; 154; 128];
      [226; 128; 128]; [226; 128; 129]; [226; 128; 130]; [226; 128; 131];
      [226; 128; 132]; [226; 128; 133]; [226; 128; 134]; [226; 128; 135];
      [226; 128; 136]; [226; 128; 137]; [226; 128; 138];
      [226; 128; 168]; [226; 128; 169]; [226; 128; 175];
      [226; 129; 159]; [227; 128; 128] ]%N.

(** [stripPrefix p s] is [Some rest] when [s = p ++ rest]. *)
Fixpoint stripPrefix (p s : string) : option string :=
  match p, s with
  | EmptyString, _ => Some s
  | String a p', String b s' => if Ascii.eqb a b then stripPrefix p' s' else None
  | String _ _, EmptyString => None
  end.

(** One leading space rune removed, if there is one. *)
Fixpoint stripSpace (runes : list string) (s : string) : option string :=
  match runes with
  | [] => None
  | r :: runes' =>
      match stripPrefix r s with
      | Some rest => Some rest
      | None => stripSpace runes' s
      end
  end.

(** [strings.TrimLeftFunc(s, unicode.IsSpace)].  Every space rune is at
    least one byte long, so [String.length s] rounds are enough. *)
Fixpoint trimLeftN (n : nat) (runes : list string) (s : string) : string :=
  match n with
  | O => s
  | S n' =>
      match stripSpace runes s with
      | Some rest => trimLeftN n' runes rest
      | None => s
      end
  end.

Definition TrimLeftSpace (s : string) : string :=
  trimLeftN (String.length s) spaceRunes s.

Fixpoint rev_string (acc s : string) : string :=
  match s with
  | EmptyString => acc
  | String c s' => rev_string (String c acc) s'
  end.

Definition reverse_string (s : string) : string := rev_string "" s.

(** [strings.TrimRightFunc(s, unicode.IsSpace)]: the same on the
    reversed string, against the reversed runes. *)
Definition TrimRightSpace (s : string) : string :=
  let r := reverse_string s in
  reverse_string (trimLeftN (String.length r) (map reverse_string spaceRunes) r).

(** [strings.TrimSpace]: leading, then trailing white space removed. *)
Definition TrimSpace (s : string) : string :=
  TrimRightSpace (TrimLeftSpace s).

(** The six ASCII blanks, and the strings made of them. *)
Definition asciiSpace (c : ascii) : bool :=
  let n := byte_of c in
  ((n =? 9) || (n =? 10) || (n =? 11) || (n =? 12) || (n =? 13) || (n =? 32))%N.

Fixpoint isBlank (s : string) : bool :=
  match s with
  | EmptyString => true
  | String c s' => asciiSpace c && isBlank s'
  end.

(** [strings.ToUpper] on ASCII text, where Go maps byte by byte
    ('a'..'z' to 'A'..'Z').  Text with a byte of 128 or more takes Go's
    Unicode path, which this development does not cover: the statements
    on the bytes of the result and on their number assume ASCII input.
    (On either path the result is empty only if the text is, and has
    no lower-case ASCII letter.) *)
Definition upperByte (c : ascii) : ascii :=
  let n := byte_of c in
  if ((97 <=? n) && (n <=? 122))%N then ascii_of_N (n - 32) else c.

Fixpoint ToUpper (s : string) : string :=
  match s with
  | EmptyString => EmptyString
  | String c s' => String (upperByte c) (ToUpper s')
  end.

(** [strings.ToLower], likewise. *)
Definition lowerByte (c : ascii) : ascii :=
  let n := byte_of c in
  if ((65 <=? n) && (n <=? 90))%N then ascii_of_N (n + 32) else c.

Fixpoint ToLower (s : string) : string :=
  match s with
  | EmptyString => EmptyString
  | String c s' => String (lowerByte c) (ToLower s')
  end.



(** [strings.Contains]. *)
Fixpoint Contains (s sub : string) : bool :=
  match stripPrefix sub s with
  | Some _ => true
  | None =>
      match s with
      | EmptyString => false
      | String _ s' => Contains s' sub
      end
  end.

(** [fmt.Sprint] of an integer: its decimal digits, with a sign when
    negative. *)
Definition Sprint (n : Z) : string :=
  DecimalString.NilZero.string_of_int (Z.to_int n).

(** [strings.Join]. *)
Fixpoint Join (elems : list string) (sep : string) : string :=
  match elems with
  | [] => ""
  | [e] => e
  | e :: rest => e +:+ sep +:+ Join rest sep
  end.

End GoStrings.

(** ** Go's [encoding/json]: [json.Unmarshal] into a [[]string] *)

Module GoJSON.

Import GoStrings.

(** *** The scanner (scanner.go): a state machine stepped byte by byte *)

Inductive parseState := parseObjectKey | parseObjectValue | parseArrayValue.

Inductive stepState :=
| stateBeginValueOrEmpty | stateBeginValue | stateBeginStringOrEmpty
| stateBeginString | stateEndValue | stateEndTop
| stateInString | stateInStringEsc
| stateInStringEscU | stateInStringEscU1 | stateInStringEscU12
| stateInStringEscU123
| stateNeg | state1 | state0 | stateDot | stateDot0
| stateE | stateESign | stateE0
| stateT | stateTr | stateTru
| stateF | stateFa | stateFal | stateFals
| stateN | stateNu | stateNul
| stateError.

Record scanner := mkScanner {
  step : stepState;
  parseStack : list parseState;   (* innermost first *)
  endTop : bool;
  err : option string
}.

Definition maxNestingDepth : N := 10000%N.

Definition reset : scanner :=
  mkScanner stateBeginValue [] false None.

Definition setStep (s : scanner) (st : stepState) : scanner :=
  mkScanner st (parseStack s) (endTop s) (err s).

(** [s.error]: the scanner stops, and the first error is the one
    [checkValid] returns.  The message keeps the context Go reports
    and leaves out the offending byte. *)
Definition error (s : scanner) (context : string) : scanner :=
  mkScanner stateError (parseStack s) (endTop s)
    (match err s with
     | Some e => Some e
     | None => Some ("invalid character " +:+ context)
     end).

Definition isSpace (c : ascii) : bool :=
  let n := byte_of c in
  ((n =? 32) || (n =? 9) || (n =? 13) || (n =? 10))%N.

Definition isDigit (c : ascii) : bool :=
  let n := byte_of c in ((48 <=? n) && (n <=? 57))%N.

Definition isDigit19 (c : ascii) : bool :=
  let n := byte_of c in ((49 <=? n) && (n <=? 57))%N.

Definition isHex (c : ascii) : bool :=
  let n := byte_of c in
  (((48 <=? n) && (n <=? 57)) || ((97 <=? n) && (n <=? 102))
   || ((65 <=? n) && (n <=? 70)))%N.

(** The double quote, byte 34. *)
Definition dquote : ascii := ascii_of_N 34.

Definition isByte (c : ascii) (x : string) : bool :=
  match x with
  | String a EmptyString => Ascii.eqb c a
  | _ => false
  end.

Definition isQuote (c : ascii) : bool := Ascii.eqb c dquote.

Definition pushParseState (s : scanner) (ps : parseState) (next : stepState)
  : scanner :=
  let s' := mkScanner next (ps :: parseStack s) (endTop s) (err s) in
  if (N.of_nat (length (parseStack s')) <=? maxNestingDepth)%N then s'
  else error s' "exceeded max depth".

Definition popParseState (s : scanner) : scanner :=
  match parseStack s with
  | [] => s
  | [_] => mkScanner stateEndTop [] true (err s)
  | _ :: rest => mkScanner stateEndValue rest (endTop s) (err s)
  end.

Definition replaceTop (s : scanner) (ps : parseState) : scanner :=
  match parseStack s with
  | [] => s
  | _ :: rest => mkScanner (step s) (ps :: rest) (endTop s) (err s)
  end.

Definition doEndTop (s : scanner) (c : ascii) : scanner :=
  if isSpace c then s else error s "after top-level value".

Definition doEndValue (s : scanner) (c : ascii) : scanner :=
  match parseStack s with
  | [] => doEndTop (mkScanner stateEndTop [] true (err s)) c
  | ps :: _ =>
      if isSpace c then setStep s stateEndValue
      else
        match ps with
        | parseObjectKey =>
            if isByte c ":" then setStep (replaceTop s parseObjectValue) stateBeginValue
            else error s "after object key"
        | parseObjectValue =>
            if isByte c "," then setStep (replaceTop s parseObjectKey) stateBeginString
            else if isByte c "}" then popParseState s
            else error s "after object key:value pair"
        | parseArrayValue =>
            if isByte c "," then setStep s stateBeginValue
            else if isByte c "]" then popParseState s
            else error s "after array element"
        end
  end.

Definition doBeginValue (s : scanner) (c : ascii) : scanner :=
  if isSpace c then s
  else if isByte c "{" then pushParseState s parseObjectKey stateBeginStringOrEmpty
  else if isByte c "[" then pushParseState s parseArrayValue stateBeginValueOrEmpty
  else if isQuote c then setStep s stateInString
  else if isByte c "-" then setStep s stateNeg
  else if isByte c "0" then setStep s state0
  else if isByte c "t" then setStep s stateT
  else if isByte c "f" then setStep s stateF
  else if isByte c "n" then setStep s stateN
  else if isDigit19 c then setStep s state1
  else error s "looking for beginning of value".

Definition doBeginString (s : scanner) (c : ascii) : scanner :=
  if isSpace c then s
  else if isQuote c then setStep s stateInString
  else error s "looking for beginning of object key string".

Definition do0 (s : scanner) (c : ascii) : scanner :=
  if isByte c "." then setStep s stateDot
  else if isByte c "e" || isByte c "E" then setStep s stateE
  else doEndValue s c.

Definition doESign (s : scanner) (c : ascii) : scanner :=
  if isDigit c then setStep s stateE0
  else error s "in exponent of numeric literal".

Definition expect (s : scanner) (c : ascii) (x : string) (next : stepState)
  (context : string) : scanner :=
  if isByte c x then setStep s next else error s context.

(** One call of [s.step(s, c)]. *)
Definition stepByte (s : scanner) (c : ascii) : scanner :=
  match step s with
  | stateBeginValueOrEmpty =>
      if isSpace c then s
      else if isByte c "]" then doEndValue s c
      else doBeginValue s c
  | stateBeginValue => doBeginValue s c
  | stateBeginStringOrEmpty =>
      if isSpace c then s
      else if isByte c "}" then doEndValue (replaceTop s parseObjectValue) c
      else doBeginString s c
  | stateBeginString => doBeginString s c
  | stateEndValue => doEndValue s c
  | stateEndTop => doEndTop s c
  | stateInString =>
      if isQuote c then setStep s stateEndValue
      else if isByte c "\" then setStep s stateInStringEsc
      else if (byte_of c <? 32)%N then error s "in string literal"
      else s
  | stateInStringEsc =>
      if isByte c "b" || isByte c "f" || isByte c "n" || isByte c "r" || isByte c "t"
         || isByte c "\" || isByte c "/" || isQuote c
      then setStep s stateInString
      else if isByte c "u" then setStep s stateInStringEscU
      else error s "in string escape code"
  | stateInStringEscU =>
      if isHex c then setStep s stateInStringEscU1
      else error s "in \u hexadecimal character escape"
  | stateInStringEscU1 =>
      if isHex c then setStep s stateInStringEscU12
      else error s "in \u hexadecimal character escape"
  | stateInStringEscU12 =>
      if isHex c then setStep s stateInStringEscU123
      else error s "in \u hexadecimal character escape"
  | stateInStringEscU123 =>
      if isHex c then setStep s stateInString
      else error s "in \u hexadecimal character escape"
  | stateNeg =>
      if isByte c "0" then setStep s state0
      else if isDigit19 c then setStep s state1
      else error s "in numeric literal"
  | state1 => if isDigit c then s else do0 s c
  | state0 => do0 s c
  | stateDot =>
      if isDigit c then setStep s stateDot0
      else error s "after decimal point in numeric literal"
  | stateDot0 =>
      if isDigit c then s
      else if isByte c "e" || isByte c "E" then setStep s stateE
      else doEndValue s c
  | stateE =>
      if isByte c "+" || isByte c "-" then setStep s stateESign else doESign s c
  | stateESign => doESign s c
  | stateE0 => if isDigit c then s else doEndValue s c
  | stateT => expect s c "r" stateTr "in literal true (expecting 'r')"
  | stateTr => expect s c "u" stateTru "in literal true (expecting 'u')"
  | stateTru => expect s c "e" stateEndValue "in literal true (expecting 'e')"
  | stateF => expect s c "a" stateFa "in literal false (expecting 'a')"
  | stateFa => expect s c "l" stateFal "in literal false (expecting 'l')"
  | stateFal => expect s c "s" stateFals "in literal false (expecting 's')"
  | stateFals => expect s c "e" stateEndValue "in literal false (expecting 'e')"
  | stateN => expect s c "u" stateNu "in literal null (expecting 'u')"
  | stateNu => expect s c "l" stateNul "in literal null (expecting 'l')"
  | stateNul => expect s c "l" stateEndValue "in literal null (expecting 'l')"
  | stateError => s
  end.

Fixpoint scanBytes (s : scanner) (data : string) : scanner :=
  match data with
  | EmptyString => s
  | String c rest => scanBytes (stepByte s c) rest
  end.

(** [s.eof()]: a pending top-level number is closed by a blank. *)
Definition eof (s : scanner) : scanner :=
  match err s with
  | Some _ => s
  | None =>
      if endTop s then s
      else
        let s' := stepByte s " "%char in
        if endTop s' then s'
        else match err s' with
             | Some _ => s'
             | None => mkScanner stateError (parseStack s') (endTop s')
                         (Some "unexpected end of JSON input")
             end
  end.

(** [checkValid]: [None] when [data] is one well-formed JSON value. *)
Definition checkValid (data : string) : option string :=
  err (eof (scanBytes reset data)).

Definition Valid (data : string) : bool :=
  match checkValid data with None => true | Some _ => false end.

(** *** String literals (decode.go, [unquote]) *)

Definition hexVal (c : ascii) : N :=
  let n := byte_of c in
  if ((48 <=? n) && (n <=? 57))%N then (n - 48)%N
  else if ((97 <=? n) && (n <=? 102))%N then (n - 87)%N
  else (n - 55)%N.

(** [getu4] on the four digits after a backslash and [u]. *)
Definition getu4 (h1 h2 h3 h4 : ascii) : N :=
  (((hexVal h1 * 16 + hexVal h2) * 16 + hexVal h3) * 16 + hexVal h4)%N.

Definition ReplacementChar : N := 65533%N.   (* U+FFFD *)

Definition isSurrogate (r : N) : bool := ((55296 <=? r) && (r <? 57344))%N.

(** [utf16.DecodeRune]. *)
Definition decodeSurrogates (r1 r2 : N) : N :=
  if ((55296 <=? r1) && (r1 <? 56320) && (56320 <=? r2) && (r2 <? 57344))%N
  then ((r1 - 55296) * 1024 + (r2 - 56320) + 65536)%N
  else ReplacementChar.

(** [utf8.EncodeRune]. *)
Definition EncodeRune (r : N) : string :=
  if (r <? 128)%N then bytes [r]
  else if (r <? 2048)%N then bytes [192 + r / 64; 128 + r mod 64]%N
  else if isSurrogate r || (1114111 <? r)%N then bytes [239; 191; 189]%N
  else if (r <? 65536)%N then
    bytes [224 + r / 4096; 128 + (r / 64) mod 64; 128 + r mod 64]%N
  else
    bytes [240 + r / 262144; 128 + (r / 4096) mod 64;
           128 + (r / 64) mod 64; 128 + r mod 64]%N.

Definition escapeByte (c : ascii) : ascii :=
  if isByte c "b" then ascii_of_N 8
  else if isByte c "f" then ascii_of_N 12
  else if isByte c "n" then ascii_of_N 10
  else if isByte c "r" then ascii_of_N 13
  else if isByte c "t" then ascii_of_N 9
  else c.                            (* the quote, the backslash, the slash *)

(** [unquote] on the text between the quotes of a literal the scanner
    accepted.  Bytes outside escapes are copied; Go also replaces bytes
    that are not valid UTF-8 by U+FFFD, which is left out here. *)
Fixpoint unquote (s : string) : string :=
  match s with
  | EmptyString => EmptyString
  | String c rest =>
      if isByte c "\" then
        match rest with
        | EmptyString => EmptyString
        | String e rest1 =>
            if isByte e "u" then
              match rest1 with
              | String h1 (String h2 (String h3 (String h4 rest2))) =>
                  let rr := getu4 h1 h2 h3 h4 in
                  if isSurrogate rr then
                    match rest2 with
                    | String b (String u (String g1 (String g2
                        (String g3 (String g4 rest3))))) =>
                        let dec := decodeSurrogates rr (getu4 g1 g2 g3 g4) in
                        if isByte b "\" && isByte u "u"
                           && negb (dec =? ReplacementChar)%N
                        then EncodeRune dec +:+ unquote rest3
                        else EncodeRune ReplacementChar +:+ unquote rest2
                    | _ => EncodeRune ReplacementChar +:+ unquote rest2
                    end
                  else EncodeRune rr +:+ unquote rest2
              | _ => EmptyString
              end
            else String (escapeByte e) (unquote rest1)
        end
      else String c (unquote rest)
  end.

(** *** Decoding into a [[]string] (decode.go)

    [d.value] on a slice of strings: [null] leaves the slice nil, an
    array stores its elements, a string element is unquoted, a [null]
    element is left empty, and a value of any other type records an
    [UnmarshalTypeError], which [Unmarshal] returns once the input has
    been read.  The decoder runs after [checkValid], on well-formed
    input only. *)

Inductive decodeState :=
| dTop                                  (* before the top-level value *)
| dTopNull                              (* the top-level value is null *)
| dElem                                 (* an element or the closing bracket is next *)
| dString (raw : string) (esc : bool)   (* in a string element; raw text, reversed *)
| dNullElem                             (* in a null element *)
| dAfter                                (* after an element *)
| dEnd                                  (* after the closing bracket *)
| dMismatch (value gotype : string).    (* UnmarshalTypeError *)

Definition typeOf (c : ascii) : string :=
  if isByte c "{" then "object"
  else if isByte c "[" then "array"
  else if isQuote c then "string"
  else if isByte c "t" || isByte c "f" then "bool"
  else "number".

Definition afterElem (c : ascii) : decodeState :=
  if isByte c "," then dElem else if isByte c "]" then dEnd else dAfter.

Definition decodeByte (st : decodeState * list string) (c : ascii)
  : decodeState * list string :=
  let (d, toks) := st in
  match d with
  | dTop =>
      if isSpace c then (dTop, toks)
      else if isByte c "[" then (dElem, toks)
      else if isByte c "n" then (dTopNull, toks)
      else (dMismatch (typeOf c) "[]string", toks)
  | dElem =>
      if isSpace c then (dElem, toks)
      else if isByte c "]" then (dEnd, toks)
      else if isQuote c then (dString EmptyString false, toks)
      else if isByte c "n" then (dNullElem, EmptyString :: toks)
      else (dMismatch (typeOf c) "string", toks)
  | dString raw true => (dString (String c raw) false, toks)
  | dString raw false =>
      if isQuote c then (dAfter, unquote (reverse_string raw) :: toks)
      else (dString (String c raw) (isByte c "\"), toks)
  | dNullElem => (if isByte c "u" || isByte c "l" then dNullElem else afterElem c, toks)
  | dAfter => (afterElem c, toks)
  | dTopNull | dEnd | dMismatch _ _ => st
  end.

Fixpoint decodeBytes (st : decodeState * list string) (data : string)
  : decodeState * list string :=
  match data with
  | EmptyString => st
  | String c rest => decodeBytes (decodeByte st c) rest
  end.

(** [json.Unmarshal(data, &args)] for [var args []string]. *)
Definition Unmarshal (data : string) : outcome (list string) :=
  match checkValid data with
  | Some e => Err e
  | None =>
      match decodeBytes (dTop, []) data with
      | (dEnd, toks) => Ok (rev toks)
      | (dTopNull, _) => Ok []
      | (dMismatch v t, _) =>
          Err ("json: cannot unmarshal " +:+ v +:+ " into Go value of type " +:+ t)
      | _ => Err "unexpected end of JSON input"
      end
  end.

End GoJSON.

(** ** Go's [time] and [context] packages *)

Module GoTime.

(** [time.Duration]: a signed 64-bit count of nanoseconds. *)
Definition Duration := Z.

Definition Nanosecond : Duration := 1.
Definition Microsecond : Duration := 1000 * Nanosecond.
Definition Millisecond : Duration := 1000 * Microsecond.
Definition Second : Duration := 1000 * Millisecond.

Definition minDuration : Duration := - 2 ^ 63.
Definition maxDuration : Duration := 2 ^ 63 - 1.

(** An instant ([time.Time]), in nanoseconds since the epoch. *)
Definition Time := Z.

(** [t.Sub(u)]: the difference, or the nearest [Duration] when it does
    not fit. *)
Definition Sub (t u : Time) : Duration :=
  let d := t - u in
  if d <? minDuration then minDuration
  else if maxDuration <? d then maxDuration
  else d.

(** [time.Until(t)], shorthand for [t.Sub(time.Now())]; the clock
    reading [now] is an input. *)
Definition Until (now t : Time) : Duration := Sub t now.

(** [context.Context], as far as redis.go reads it: [ctx.Deadline()]
    returns the deadline and [ok = true], or [ok = false]. *)
Record Context := mkContext {
  Deadline : option Time
}.

End GoTime.

(** ** Vault's [credsutil] (sdk/database/helper/credsutil/usernames.go) *)

Module Credsutil.

Import GoStrings.

Inductive CaseOp := KeepCase | Uppercase | Lowercase.

Record usernameBuilder := mkBuilder {
  displayName : string;
  roleName : string;
  separator : string;
  maxLen : Z;
  caseOperation : CaseOp
}.

Definition UsernameOpt := usernameBuilder -> usernameBuilder.

(** [trunc(str, l)]: [str[:l]] when [0 < l <= len(str)], [str] when
    [l = 0] or [l > len(str)], the empty string when [l < 0]. *)
Definition trunc (str : string) (l : Z) : string :=
  if 0 <? l then
    if Z.of_nat (String.length str) <? l then str
    else substring 0 (Z.to_nat l) str
  else if l =? 0 then str
  else EmptyString.

Definition DisplayName (dispName : string) (maxLength : Z) : UsernameOpt :=
  fun b => mkBuilder (trunc dispName maxLength) (roleName b) (separator b)
                     (maxLen b) (caseOperation b).

Definition RoleName (role : string) (maxLength : Z) : UsernameOpt :=
  fun b => mkBuilder (displayName b) (trunc role maxLength) (separator b)
                     (maxLen b) (caseOperation b).

Definition nonEmpty (s : string) : bool :=
  match s with EmptyString => false | _ => true end.

(** [joinNonEmpty(sep, vals...)]: the non-empty values, joined. *)
Definition joinNonEmpty (sep : string) (vals : list string) : string :=
  match sep, vals with
  | EmptyString, _ => Join vals sep
  | _, [] => EmptyString
  | _, [v] => v
  | _, _ => Join (filter (fun v => nonEmpty v = true) vals) sep
  end.

(** [ub.makeUsername()].  Its two readings of the environment are
    inputs: [userUUID], what [RandomAlphaNumeric(20, false)] returned,
    and [now], [time.Now().Unix()]. *)
Definition makeUsername (ub : usernameBuilder) (userUUID : outcome string)
  (now : Z) : outcome string :=
  match userUUID with
  | Err e => Err e
  | Panic m => Panic m
  | Ok uuid =>
      let username :=
        joinNonEmpty (separator ub)
          ["v"; displayName ub; roleName ub; uuid; Sprint now] in
      let username := trunc username (maxLen ub) in
      Ok (match caseOperation ub with
          | Lowercase => ToLower username
          | Uppercase => ToUpper username
          | KeepCase => username
          end)
  end.

(** [GenerateUsername(opts...)]. *)
Definition GenerateUsername (opts : list UsernameOpt)
  (userUUID : outcome string) (now : Z) : outcome string :=
  let b := mkBuilder EmptyString EmptyString "_" 100 KeepCase in
  makeUsername (fold_left (fun b opt => opt b) opts b) userUUID now.

End Credsutil.

(** ** The data store: Redis nodes and their ACL commands

    The environment of the plugin.  A node keeps an ACL table; the four
    commands the plugin sends are [ACL SETUSER] (create, or reset the
    password), [ACL GETUSER] and [ACL DELUSER]. *)

Module RedisServer.

Import GoStrings.

Record aclUser := mkUser {
  enabled : bool;
  passwords : list string;
  rules : list string
}.

(** What a command comes back with. *)
Inductive reply :=
| ReplyError (e : string)        (* an error reply of the server: resp2.Error *)
| TransportError (e : string)    (* the command did not get an answer *)
| ReplyNil                       (* the nil reply *)
| ReplyStatus (s : string)       (* a status such as OK *)
| ReplyInt (n : Z)
| ReplyArray (items : list string).

(** How a command fails on a node: the server answers with an error
    (a rule it rejects, a command it denies), or no answer comes back
    (a lost link, a closed pool). *)
Inductive failure :=
| ErrorReply (e : string)
| NoReply (e : string).

Definition failureReply (f : failure) : reply :=
  match f with
  | ErrorReply e => ReplyError e
  | NoReply e => TransportError e
  end.

(** A node: its ACL table, the commands it fails ([fault args] is how
    [args] fails on it, if it does), and the commands it was sent,
    oldest first. *)
Record node := mkNode {
  users : gmap string aclUser;
  fault : list string -> option failure;
  received : list (list string)
}.

Definition newUserEntry : aclUser := mkUser false [] [].

(** One modifier of [ACL SETUSER]. *)
Definition applyRule (u : aclUser) (op : string) : aclUser :=
  if String.eqb op "ON" || String.eqb op "on" then
    mkUser true (passwords u) (rules u)
  else if String.eqb op "OFF" || String.eqb op "off" then
    mkUser false (passwords u) (rules u)
  else if String.eqb op "RESETPASS" || String.eqb op "resetpass" then
    mkUser (enabled u) [] (rules u)
  else
    match op with
    | String ">" pw => mkUser (enabled u) (passwords u ++ [pw]) (rules u)
    | _ => mkUser (enabled u) (passwords u) (rules u ++ [op])
    end.

Definition setuser (tbl : gmap string aclUser) (name : string)
  (ops : list string) : gmap string aclUser :=
  let u := match tbl !! name with Some u => u | None => newUserEntry end in
  <[name := fold_left applyRule ops u]> tbl.

Definition describe (u : aclUser) : list string :=
  ["flags"; if enabled u then "on" else "off"] ++ ["passwords"] ++ passwords u
  ++ ["rules"] ++ rules u.

(** The answer of a node that does not fail the command, and its table
    afterwards. *)
Definition answer (tbl : gmap string aclUser) (args : list string)
  : gmap string aclUser * reply :=
  match args with
  | "ACL" :: "SETUSER" :: name :: ops => (setuser tbl name ops, ReplyStatus "OK")
  | ["ACL"; "GETUSER"; name] =>
      (tbl, match tbl !! name with
            | Some u => ReplyArray (describe u)
            | None => ReplyNil
            end)
  | ["ACL"; "DELUSER"; name] =>
      match tbl !! name with
      | Some _ => (delete name tbl, ReplyInt 1)
      | None => (tbl, ReplyInt 0)
      end
  | _ => (tbl, ReplyError "ERR unknown command")
  end.

(** A command sent to a node. *)
Definition exec (n : node) (args : list string) : node * reply :=
  let log := received n ++ [args] in
  match fault n args with
  | Some f => (mkNode (users n) (fault n) log, failureReply f)
  | None =>
      let (tbl, r) := answer (users n) args in
      (mkNode tbl (fault n) log, r)
  end.

(** The error of [client.Do], if any. *)
Definition replyError (r : reply) : option string :=
  match r with
  | ReplyError e | TransportError e => Some e
  | _ => None
  end.

(** [errors.As(err, &redisErr)]: the error is an error reply. *)
Definition asRedisError (r : reply) : option string :=
  match r with
  | ReplyError e => Some e
  | _ => None
  end.

(** The reply as [radix.Cmd(&response, ...)] leaves it in a [string]
    receiver; an error leaves the receiver as it was.  (The commands
    received this way, [ACL SETUSER] and [ACL DELUSER], are answered by
    a status or an integer.) *)
Definition rcvString (response : string) (r : reply) : string :=
  match r with
  | ReplyStatus s => s
  | ReplyInt n => Sprint n
  | ReplyArray items => Join items " "
  | ReplyNil => EmptyString
  | ReplyError _ | TransportError _ => response
  end.

(** [radix.MaybeNil]: the [Nil] flag is set by a nil reply and is not
    cleared by a later one. *)
Definition rcvMaybeNil (mnNil : bool) (r : reply) : bool :=
  match r with
  | ReplyNil => true
  | _ => mnNil
  end.

(** A member of a cluster: the node at an address, and what
    [Cluster.Client(addr)] returns for it, a client or nil
    ([clientNil]) and an error or nil ([clientErr]).  (radix returns a
    nil client exactly when it returns an error.) *)
Record member := mkMember {
  mnode : node;
  clientNil : bool;
  clientErr : option string
}.

(** [radix.Client], of one of the two types redis.go switches on: a
    [radix.Pool] on one node, or a [radix.Cluster] on the nodes of its
    topology, keyed by address. *)
Inductive client :=
| Pool (n : node)
| Cluster (topo : gmap string member).

(** [Cluster.Client(node)], the client of one member and the error. *)
Definition Client (topo : gmap string member) (addr : string)
  : option node * option string :=
  match topo !! addr with
  | Some m => (if clientNil m then None else Some (mnode m), clientErr m)
  | None => (None, Some "unknown address")
  end.

(** The member after it was sent [args], and the reply it gave. *)
Definition sent (args : list string) (m : member) : member :=
  mkMember (fst (exec (mnode m) args)) (clientNil m) (clientErr m).

Definition replyTo (args : list string) (m : member) : reply :=
  snd (exec (mnode m) args).

(** The node at [addr] after a command. *)
Definition setNode (topo : gmap string member) (addr : string) (n : node)
  : gmap string member :=
  match topo !! addr with
  | Some m => <[addr := mkMember n (clientNil m) (clientErr m)]> topo
  | None => topo
  end.

End RedisServer.

(** ** The connection producer *)

Module Producer.

(** Modelled from the spec: the connection producer
    ([redisDBConnectionProducer], connection_producer.go) is not among
    the sources.  The spec (4.1): [Connection] "returns a cached handle
    if one exists and is presumed healthy; otherwise establishes a new
    one [...] and caches it"; [Close] "releases the cached handle and
    clears it so that the next [Connection] call re-establishes
    cleanly.  Must be safe to call even if no handle exists", and may
    fail.  What establishing and closing a connection answer are inputs
    ([dialError], [closeError]); [closeCalls] counts the calls of
    [close]. *)
Record state := mkState {
  cached : bool;
  dialError : option string;
  closeError : option string;
  closeCalls : nat
}.

(** Modelled from the spec: [c.Connection(ctx)]. *)
Definition Connection (p : state) : state * outcome unit :=
  if cached p then (p, Ok tt)
  else
    match dialError p with
    | Some e => (p, Err e)
    | None => (mkState true (dialError p) (closeError p) (closeCalls p), Ok tt)
    end.

(** Modelled from the spec: [c.close()]. *)
Definition close (p : state) : state * option string :=
  let p' := mkState false (dialError p) (closeError p) (S (closeCalls p)) in
  if cached p then (p', closeError p) else (p', None).

End Producer.

(** ** The request types of Vault's [dbplugin] (v5) read by redis.go *)

Module Dbplugin.

Record UsernameMetadata := mkUsernameMetadata {
  DisplayName : string;
  RoleName : string
}.

Record Statements := mkStatements {
  Commands : list string
}.

Record ChangePassword := mkChangePassword {
  NewPassword : string
}.

Module NewUserRequest.
Record t := mk {
  UsernameConfig : UsernameMetadata;
  Statements : Dbplugin.Statements;
  Password : string
}.
End NewUserRequest.

Module UpdateUserRequest.
Record t := mk {
  Username : string;
  Password : option ChangePassword;     (* a pointer: nil or the change *)
  Expiration : option Z                 (* a pointer: nil or the new expiry *)
}.
End UpdateUserRequest.

Module DeleteUserRequest.
Record t := mk {
  Username : string
}.
End DeleteUserRequest.

End Dbplugin.

(** ** redis.go *)

Module Plugin.

Import GoStrings GoJSON GoTime RedisServer Dbplugin.

Definition q : string := String dquote EmptyString.

Definition redisTypeName : string := "redis".
(** The constant is the text [["~*", "+@read"]], quotes included. *)
Definition defaultRedisUserRule : string :=
  "[" +:+ q +:+ "~*" +:+ q +:+ ", " +:+ q +:+ "+@read" +:+ q +:+ "]".
Definition defaultTimeout : Duration := 20000 * Millisecond.
Definition maxKeyLength : Z := 64.

(** The state the operations run in: the connection producer embedded
    in the receiver [c], the data store its client handle reaches,
    standard output ([fmt.Printf]) and the error lines of the logger
    (message and error).  The mutex of [c] is not represented: each
    operation is run on its own, from [Lock] to [Unlock]. *)
Record world := mkWorld {
  producer : Producer.state;
  store : client;
  stdout : list string;
  errorLog : list (string * string)
}.

Definition setProducer (w : world) (p : Producer.state) : world :=
  mkWorld p (store w) (stdout w) (errorLog w).

Definition setStore (w : world) (db : client) : world :=
  mkWorld (producer w) db (stdout w) (errorLog w).

Definition printf (w : world) (line : string) : world :=
  mkWorld (producer w) (store w) (stdout w ++ [line]) (errorLog w).

Definition logError (w : world) (msg err : string) : world :=
  mkWorld (producer w) (store w) (stdout w) (errorLog w ++ [(msg, err)]).

Definition nl : string := String (ascii_of_N 10) EmptyString.

(** [for node := range nodes { body }]: the body runs on the addresses
    in the order Go enumerates the map, [order]; a [return] in the body
    ends the loop. *)
Fixpoint forRange {St : Type} (body : string -> St -> St * outcome unit)
  (order : list string) (st : St) : St * outcome unit :=
  match order with
  | [] => (st, Ok tt)
  | node :: rest =>
      match body node st with
      | (st', Ok _) => forRange body rest st'
      | (st', r) => (st', r)
      end
  end.

Definition nilDereference : string :=
  "runtime error: invalid memory address or nil pointer dereference".

(** The two statements that open the body of every cluster loop,
    [cl, err := Cluster.Client(node)] and [err = cl.Do(radix.Cmd(...))]:
    the error of the first is overwritten by the second, and the call
    on a nil client panics. *)
Definition nodeDo (topo : gmap string member) (node : string)
  (args : list string) : outcome (gmap string member * reply) :=
  let '(cl, err) := Client topo node in
  match cl with
  | None => Panic nilDereference
  | Some n =>
      let (n', r) := exec n args in
      Ok (setNode topo node n', r)
  end.

(** The body of a cluster loop: the two statements above, then the
    statements [rest], which read the reply and the loop's variables
    [vars] (the receiver of the reply, standard output). *)
Definition onNode {V : Type} (args : list string)
  (rest : string -> V -> reply -> V * outcome unit)
  (node : string) (st : gmap string member * V)
  : (gmap string member * V) * outcome unit :=
  let (topo, vars) := st in
  match nodeDo topo node args with
  | Panic m => (st, Panic m)
  | Err e => (st, Err e)
  | Ok (topo, r) =>
      let (vars, res) := rest node vars r in
      ((topo, vars), res)
  end.

(** [removeEmpty] *)
Fixpoint removeEmptyFrom (newStrs strs : list string) : list string :=
  match strs with
  | [] => newStrs
  | str :: rest =>
      let str := TrimSpace str in
      if String.eqb str EmptyString then removeEmptyFrom newStrs rest
      else removeEmptyFrom (newStrs ++ [str]) rest
  end.

Definition removeEmpty (strs : list string) : list string :=
  removeEmptyFrom [] strs.

(** [computeTimeout]; [now] is the clock read by [time.Until]. *)
Definition computeTimeout (now : Time) (ctx : Context) : Duration :=
  match Deadline ctx with
  | Some deadline => Until now deadline
  | None => defaultTimeout
  end.

(** [getConnection] *)
Definition getConnection (ctx : Context) (w : world) : world * outcome client :=
  let (p, r) := Producer.Connection (producer w) in
  match r with
  | Ok _ => (setProducer w p, Ok (store w))
  | Err err => (setProducer w p, Err err)
  | Panic m => (setProducer w p, Panic m)
  end.

(** The deferred function of [DeleteUser] and [changeUserPassword]. *)
Definition deferredClose (w : world) : world :=
  let (p, err) := Producer.close (producer w) in
  let w := setProducer w p in
  match err with
  | Some err => logError w "defer close failed" err
  | None => w
  end.

(** [Type] *)
Definition Type_ : outcome string := Ok redisTypeName.

(** *** [newUser] *)

(** The body of the cluster loop of [newUser], after the command: on
    [response] and standard output. *)
Definition newUserNode (node : string) (vars : string * list string)
  (r : reply) : (string * list string) * outcome unit :=
  let (response, out) := vars in
  let response := rcvString response r in
  let out := out ++ ["Response in cluster newUser: " +:+ response +:+ nl] in
  match replyError r with
  | Some err => ((response, out), Err err)
  | None => ((response, out), Ok tt)
  end.

(** The first half of [newUser] (up to the [switch]): the arguments
    of the [ACL] command. *)
Definition newUserArgs (username : string) (req : NewUserRequest.t)
  : outcome (list string) :=
  let statements := removeEmpty (Commands (NewUserRequest.Statements req)) in
  let statements :=
    if (length statements =? 0)%nat then statements ++ [defaultRedisUserRule]
    else statements in
  let aclargs := ["SETUSER"; username; "ON"; ">" +:+ NewUserRequest.Password req] in
  match statements with
  | [] => Panic "runtime error: index out of range [0] with length 0"
  | statements0 :: _ =>
      match Unmarshal statements0 with
      | Panic m => Panic m
      | Err err =>
          Err ("error unmarshalling REDIS rules in the creation statement JSON: "
               +:+ err)
      | Ok args => Ok (aclargs ++ args)
      end
  end.

Definition newUser (order : list string) (ctx : Context) (username : string)
  (req : NewUserRequest.t) (w : world) : world * outcome unit :=
  match newUserArgs username req with
  | Panic m => (w, Panic m)
  | Err err => (w, Err err)
  | Ok aclargs =>
      match store w with
      | Pool n =>
          let (n', r) := exec n ("ACL" :: aclargs) in
          let response := rcvString EmptyString r in
          let w := printf (setStore w (Pool n'))
                     ("Response in newUser: " +:+ response +:+ nl) in
          match replyError r with
          | Some err => (w, Err err)
          | None => (w, Ok tt)
          end
      | Cluster topo =>
          let '((topo, (_, out)), r) :=
            forRange (onNode ("ACL" :: aclargs) newUserNode) order
                     (topo, (EmptyString, stdout w)) in
          (mkWorld (producer w) (Cluster topo) out (errorLog w), r)
      end
  end.

(** *** [NewUser]

    [userUUID] and [now] are what [credsutil.GenerateUsername] reads
    from the random source and the clock. *)
Definition NewUser (userUUID : outcome string) (now : Z) (order : list string)
  (ctx : Context) (req : NewUserRequest.t) (w : world) : world * outcome string :=
  match Credsutil.GenerateUsername
          [Credsutil.DisplayName (DisplayName (NewUserRequest.UsernameConfig req)) maxKeyLength;
           Credsutil.RoleName (RoleName (NewUserRequest.UsernameConfig req)) maxKeyLength]
          userUUID now with
  | Panic m => (w, Panic m)
  | Err err => (w, Err ("failed to generate username: " +:+ err))
  | Ok username =>
      let username := ToUpper username in
      match getConnection ctx w with
      | (w, Panic m) => (w, Panic m)
      | (w, Err err) => (w, Err ("failed to get connection: " +:+ err))
      | (w, Ok db) =>
          match newUser order ctx username req w with
          | (w, Panic m) => (w, Panic m)
          | (w, Err err) => (w, Err err)
          | (w, Ok _) => (w, Ok username)
          end
      end
  end.

(** *** [DeleteUser] *)

(** The body of the cluster loop of [DeleteUser], after the command:
    on [response]. *)
Definition deleteUserNode (node : string) (response : string) (r : reply)
  : string * outcome unit :=
  let response := rcvString response r in
  match replyError r with
  | Some err =>
      (response,
       Err ("response from cluster node " +:+ node +:+ " for DeleteUser: "
            +:+ response +:+ ", error: " +:+ err))
  | None => (response, Ok tt)
  end.

(** The [switch db.(type)] of [DeleteUser]. *)
Definition deleteUser (order : list string) (username : string) (w : world)
  : world * outcome unit :=
  match store w with
  | Pool n =>
      let (n', r) := exec n ["ACL"; "DELUSER"; username] in
      let response := rcvString EmptyString r in
      let w := setStore w (Pool n') in
      match replyError r with
      | Some err =>
          (w, Err ("response from pool DeleteUser: " +:+ response
                   +:+ ", error: " +:+ err))
      | None => (w, Ok tt)
      end
  | Cluster topo =>
      let '((topo, _), r) :=
        forRange (onNode ["ACL"; "DELUSER"; username] deleteUserNode) order
                 (topo, EmptyString) in
      (setStore w (Cluster topo), r)
  end.

Definition DeleteUser (order : list string) (ctx : Context)
  (req : DeleteUserRequest.t) (w : world) : world * outcome unit :=
  match getConnection ctx w with
  | (w, Panic m) => (w, Panic m)
  | (w, Err err) => (w, Err ("failed to make connection: " +:+ err))
  | (w, Ok db) =>
      let (w, r) := deleteUser order (DeleteUserRequest.Username req) w in
      (deferredClose w, r)
  end.

(** *** [changeUserPassword] *)

Definition printRedisError (out : list string) (r : reply) : list string :=
  match asRedisError r with
  | Some e => out ++ ["redis error returned: " +:+ e]
  | None => out
  end.

(** The body of the first cluster loop (the lookup), after the
    command: on the [Nil] flag of [mn] and standard output.  The last
    [Errorf] passes [node] before [username]. *)
Definition getUserNode (username : string) (node : string)
  (vars : bool * list string) (r : reply)
  : (bool * list string) * outcome unit :=
  let (mnNil, out) := vars in
  let mnNil := rcvMaybeNil mnNil r in
  let out := printRedisError out r in
  match replyError r with
  | Some err =>
      ((mnNil, out),
       Err ("reset of passwords for user " +:+ username
            +:+ " failed in changeUserPassword on cluster member "
            +:+ node +:+ ": " +:+ err))
  | None =>
      if mnNil then
        ((mnNil, out),
         Err ("changeUserPassword for user " +:+ node
              +:+ " failed on cluster member " +:+ username
              +:+ ", user not found!"))
      else ((mnNil, out), Ok tt)
  end.

(** The first [switch db.(type)]: the user must exist. *)
Definition getUser (order : list string) (username : string) (w : world)
  : world * outcome unit :=
  match store w with
  | Pool n =>
      let (n', r) := exec n ["ACL"; "GETUSER"; username] in
      let mnNil := rcvMaybeNil false r in
      let w := mkWorld (producer w) (Pool n') (printRedisError (stdout w) r)
                       (errorLog w) in
      match replyError r with
      | Some err =>
          (w, Err ("reset of passwords for user " +:+ username
                   +:+ " failed in changeUserPassword: " +:+ err))
      | None =>
          if mnNil then
            (w, Err ("changeUserPassword for user " +:+ username
                     +:+ " failed, user not found!"))
          else (w, Ok tt)
      end
  | Cluster topo =>
      let '((topo, (_, out)), r) :=
        forRange (onNode ["ACL"; "GETUSER"; username] (getUserNode username))
                 order (topo, (false, stdout w)) in
      (mkWorld (producer w) (Cluster topo) out (errorLog w), r)
  end.

Definition resetArgs (username password : string) : list string :=
  ["ACL"; "SETUSER"; username; "RESETPASS"; ">" +:+ password].

(** The body of the second cluster loop (the reset), after the
    command: on [sresponse] and standard output. *)
Definition resetPassNode (username : string) (node : string)
  (vars : string * list string) (r : reply)
  : (string * list string) * outcome unit :=
  let (sresponse, out) := vars in
  let sresponse := rcvString sresponse r in
  let out := out ++ ["Response in changeUserPassword2: " +:+ sresponse +:+ nl] in
  match replyError r with
  | Some err =>
      ((sresponse, out),
       Err ("cluster reset of password for user " +:+ username
            +:+ " on node " +:+ node +:+ " failed, REDIS response "
            +:+ sresponse +:+ ", error, " +:+ err))
  | None => ((sresponse, out), Ok tt)
  end.

(** The second [switch db.(type)]: the password is reset. *)
Definition resetPass (order : list string) (username password : string)
  (w : world) : world * outcome unit :=
  match store w with
  | Pool n =>
      let (n', r) := exec n (resetArgs username password) in
      let sresponse := rcvString EmptyString r in
      let w := printf (setStore w (Pool n'))
                 ("Response in changeUserPassword2: " +:+ sresponse +:+ nl) in
      match replyError r with
      | Some err =>
          (w, Err ("pool reset of password for user " +:+ username
                   +:+ " failed, REDIS response " +:+ sresponse
                   +:+ ", error, " +:+ err))
      | None => (w, Ok tt)
      end
  | Cluster topo =>
      let '((topo, (_, out)), r) :=
        forRange (onNode (resetArgs username password) (resetPassNode username))
                 order (topo, (EmptyString, stdout w)) in
      (mkWorld (producer w) (Cluster topo) out (errorLog w), r)
  end.

(** The two switches of [changeUserPassword], the lookup and then the
    reset; [order1] and [order2] are the orders in which their loops
    enumerate the topology. *)
Definition rotate (order1 order2 : list string) (username password : string)
  (w : world) : world * outcome unit :=
  match getUser order1 username w with
  | (w, Ok _) => resetPass order2 username password w
  | (w, r) => (w, r)
  end.

(** [changeUserPassword] *)
Definition changeUserPassword (order1 order2 : list string) (ctx : Context)
  (username password : string) (w : world) : world * outcome unit :=
  match getConnection ctx w with
  | (w, Panic m) => (w, Panic m)
  | (w, Err err) => (w, Err err)
  | (w, Ok db) =>
      let (w, r) := rotate order1 order2 username password w in
      (deferredClose w, r)
  end.

(** *** [UpdateUser] *)
Definition UpdateUser (order1 order2 : list string) (ctx : Context)
  (req : UpdateUserRequest.t) (w : world) : world * outcome unit :=
  match UpdateUserRequest.Password req with
  | Some change =>
      changeUserPassword order1 order2 ctx (UpdateUserRequest.Username req)
        (NewPassword change) w
  | None => (w, Ok tt)
  end.

End Plugin.

(** ** Concrete stores and requests, used in the examples below *)

Module Scenario.

Import GoStrings GoTime RedisServer Dbplugin Plugin.


(** A node with an empty ACL table that answers every command. *)
Definition emptyNode : node := mkNode ∅ (fun _ => None) [].

(** A node that answers [ACL SETUSER] with an error reply. *)
Definition rejectsSetuser (args : list string) : option failure :=
  match args with
  | "ACL" :: "SETUSER" :: _ => Some (ErrorReply "ERR syntax")
  | _ => None
  end.

(** A node that answers [ACL DELUSER] with an error reply. *)
Definition rejectsDeluser (args : list string) : option failure :=
  match args with
  | "ACL" :: "DELUSER" :: _ => Some (ErrorReply "ERR denied")
  | _ => None
  end.

Definition alice : aclUser := mkUser true ["old"] ["~*"; "+@read"].

(** A node that holds the user ALICE. *)
Definition nodeWithAlice (f : list string -> option failure) : node :=
  mkNode {[ "ALICE" := alice ]} f [].

Definition noFault : list string -> option failure := fun _ => None.

(** A producer with no handle yet, that can establish one. *)
Definition idle : Producer.state := Producer.mkState false None None 0.

(** A producer with a cached handle whose [Close] fails. *)
Definition stuck : Producer.state :=
  Producer.mkState true None (Some "close: broken pipe") 0.

Definition noDeadline : Context := mkContext None.

Definition onPool (n : node) : world := mkWorld idle (Pool n) [] [].

Definition onCluster (topo : gmap string member) : world :=
  mkWorld idle (Cluster topo) [] [].

Definition reachable (n : node) : member := mkMember n false None.

(** The addresses of three members, in the order of the examples. *)
Definition addrA : string := "10.0.0.1:6379".
Definition addrB : string := "10.0.0.2:6379".
Definition addrC : string := "10.0.0.3:6379".

Definition order3 : list string := [addrA; addrB; addrC].

Definition cluster3 (na nb nc : node) : gmap string member :=
  <[addrA := reachable na]>
    (<[addrB := reachable nb]> (<[addrC := reachable nc]> ∅)).

(** Three members with the same ACL table and the faults given. *)
Definition threeNodes (fa fb fc : list string -> option failure)
  (tbl : gmap string aclUser) : gmap string member :=
  cluster3 (mkNode tbl fa []) (mkNode tbl fb []) (mkNode tbl fc []).

Definition aliceTable : gmap string aclUser := {[ "ALICE" := alice ]}.

(** ALICE is known to the first two members and not to the third. *)
Definition aliceOnTwo : gmap string member :=
  cluster3 (nodeWithAlice noFault) (nodeWithAlice noFault) emptyNode.

Definition rotateAlice : UpdateUserRequest.t :=
  UpdateUserRequest.mk "ALICE" (Some (mkChangePassword "new")) None.

Definition uuid : string := "abcdefghijKLMNOPQRST".

Definition unixNow : Z := 1612345678.

Definition request (dn rn : string) (cmds : list string) (pw : string)
  : NewUserRequest.t :=
  NewUserRequest.mk (mkUsernameMetadata dn rn) (mkStatements cmds) pw.


End Scenario.

(** ** The conditions the theorems are stated with *)

Module Conditions.

Import RedisServer Plugin.

(** [getConnection] obtains a handle: one is cached, or a connection
    can be established. *)
Definition connects (w : world) : Prop :=
  Producer.cached (producer w) = true \/ Producer.dialError (producer w) = None.

(** The member gives a client and answers [args] without an error. *)
Definition answers (args : list string) (m : member) : Prop :=
  clientNil m = false /\ replyError (replyTo args m) = None.

(** The member gives a client and the command [args] fails on it with
    the error [e]. *)
Definition failsWith (args : list string) (m : member) (e : string) : Prop :=
  clientNil m = false /\ replyError (replyTo args m) = Some e.

(** [username] is the name [NewUser] generates from the request and
    the readings [userUUID] and [now]. *)
Definition generates (userUUID : outcome string) (now : Z)
  (req : Dbplugin.NewUserRequest.t) (username : string) : Prop :=
  exists name,
    Credsutil.GenerateUsername
      [Credsutil.DisplayName
         (Dbplugin.DisplayName (Dbplugin.NewUserRequest.UsernameConfig req))
         maxKeyLength;
       Credsutil.RoleName
         (Dbplugin.RoleName (Dbplugin.NewUserRequest.UsernameConfig req))
         maxKeyLength]
      userUUID now = Ok name
    /\ username = GoStrings.ToUpper name.

(** The command that creates [username] with the default rule. *)
Definition defaultCreate (username password : string) : list string :=
  ["ACL"; "SETUSER"; username; "ON"; ">" +:+ password; "~*"; "+@read"].

(** What the deferred function adds to the log: the failure of
    [close], if it fails. *)
Definition closeFailure (w : world) : list (string * string) :=
  match Producer.closeError (producer w) with
  | Some e => [("defer close failed", e)]
  | None => []
  end.

(** [topo'] is [topo] after [args] was sent to the members at the
    addresses [visited], once each, and nothing to the others. *)
Definition sentTo (args : list string) (visited : list string)
  (topo topo' : gmap string member) : Prop :=
  forall a, topo' !! a
            = if decide (a ∈ visited) then sent args <$> topo !! a else topo !! a.

(** [order] enumerates the addresses of [topo], each once. *)
Definition enumerates (order : list string) (topo : gmap string member) : Prop :=
  NoDup order /\ forall a, a ∈ order <-> is_Some (topo !! a).

(** The lookup of [username] is answered by the member, and finds the
    user or not. *)
Definition lookupCmd (username : string) : list string :=
  ["ACL"; "GETUSER"; username].

Definition finds (username : string) (m : member) : Prop :=
  answers (lookupCmd username) m /\ replyTo (lookupCmd username) m <> ReplyNil.

Definition misses (username : string) (m : member) : Prop :=
  clientNil m = false /\ replyTo (lookupCmd username) m = ReplyNil.

Definition isNil (r : reply) : bool :=
  match r with ReplyNil => true | _ => false end.

(** The errors [changeUserPassword] returns when the lookup finds no
    user, on a single node and on the member [node] of a cluster (where
    the two names come in the order the code passes them). *)
Definition userNotFound (username : string) : string :=
  "changeUserPassword for user " +:+ username +:+ " failed, user not found!".

Definition userNotFoundOn (node username : string) : string :=
  "changeUserPassword for user " +:+ node +:+ " failed on cluster member "
  +:+ username +:+ ", user not found!".

(** Every member of [topo'] is a member of [topo] with the same ACL
    table, to which nothing but lookups of [username] was sent. *)
Definition onlyLookedUp (username : string) (topo topo' : gmap string member)
  : Prop :=
  forall a m', topo' !! a = Some m' ->
    exists m, topo !! a = Some m
              /\ users (mnode m') = users (mnode m)
              /\ (received (mnode m') = received (mnode m)
                  \/ received (mnode m')
                     = received (mnode m) ++ [lookupCmd username]).

(** The state with the errors of [Cluster.Client] erased. *)
Definition forgetErr (m : member) : member :=
  mkMember (mnode m) (clientNil m) None.

Definition forgetErrors (w : world) : world :=
  mkWorld (producer w)
    (match store w with
     | Pool n => Pool n
     | Cluster topo => Cluster (forgetErr <$> topo)
     end)
    (stdout w) (errorLog w).

End Conditions.

(** ** Rule statements and topologies, as the further properties take
    them *)

Module Inputs.

Import GoStrings GoJSON RedisServer Plugin.

(** Every address enumerated is the address of a member that gives a
    client (on a single node there is nothing to enumerate). *)
Definition hasClients (order : list string) (w : world) : Prop :=
  match store w with
  | Pool _ => True
  | Cluster topo =>
      forall a, a ∈ order -> exists m, topo !! a = Some m /\ clientNil m = false
  end.

(** A byte that stands for itself in a JSON string literal and in Go's
    decoding of it: printable ASCII, neither the quote nor the
    backslash. *)
Definition plainByte (c : ascii) : bool :=
  let n := byte_of c in
  ((32 <=? n) && (n <? 128) && negb (n =? 34) && negb (n =? 92))%N.

Fixpoint plainText (s : string) : bool :=
  match s with
  | EmptyString => true
  | String c s' => plainByte c && plainText s'
  end.

(** The JSON text of a list of rules, written as the default rule is:
    the rules quoted, separated by a comma and a blank, in brackets. *)
Definition jsonString (s : string) : string := q +:+ s +:+ q.

Definition jsonArray (rules : list string) : string :=
  "[" +:+ Join (map jsonString rules) ", " +:+ "]".

(** A JSON array of string literals in any spelling.  JSON allows
    white space (blank, tab, line feed, carriage return) before and
    after each element and between the brackets of an empty array:
    [gap] is the text between the brackets of an empty array, and each
    element comes with the white space before and after its literal. *)
Fixpoint jsonBlank (s : string) : bool :=
  match s with
  | EmptyString => true
  | String c s' => isSpace c && jsonBlank s'
  end.

Record element := mkElement {
  before : string;
  rule : string;
  after : string
}.

Definition elementText (e : element) : string :=
  before e +:+ jsonString (rule e) +:+ after e.

Definition wellFormed (e : element) : Prop :=
  jsonBlank (before e) = true /\ plainText (rule e) = true
  /\ jsonBlank (after e) = true.

Definition jsonArrayText (gap : string) (elems : list element) : string :=
  "[" +:+ match elems with
           | [] => gap
           | _ => Join (map elementText elems) ","
           end +:+ "]".

(** The command [newUser] builds for [username], [password] and the
    rules of the statement. *)
Definition createCmd (username password : string) (rules : list string)
  : list string :=
  ["ACL"; "SETUSER"; username; "ON"; ">" +:+ password] ++ rules.

Definition deleteCmd (username : string) : list string :=
  ["ACL"; "DELUSER"; username].

(** The text of the error a failure gives [client.Do]. *)
Definition failureText (f : failure) : string :=
  match f with ErrorReply e | NoReply e => e end.

(** What [errors.As(err, &redisErr)] makes [changeUserPassword] print
    for a failure: a line for an error reply, nothing otherwise. *)
Definition redisErrorLine (f : failure) : list string :=
  match f with
  | ErrorReply e => ["redis error returned: " +:+ e]
  | NoReply _ => []
  end.

End Inputs.

(** * Theorems *)

(** ** Byte strings *)

Section StringFacts.

Import GoStrings.

Lemma length_append (s t : string) :
  String.length (s +:+ t) = (String.length s + String.length t)%nat.
Proof. induction s as [|c s IH]; simpl; [reflexivity | now rewrite IH]. Qed.












End StringFacts.

(** ** Generated usernames *)

Section Usernames.

Import GoStrings Credsutil.




(** The builder [GenerateUsername] runs with, for the two options
    [NewUser] passes. *)
Lemma builder_of_NewUser (dn rn : string) (n : Z) :
  fold_left (fun b (opt : UsernameOpt) => opt b) [DisplayName dn n; RoleName rn n]
    (mkBuilder EmptyString EmptyString "_" 100 KeepCase)
  = mkBuilder (trunc dn n) (trunc rn n) "_" 100 KeepCase.
Proof. reflexivity. Qed.



(** What [GenerateUsername] returns to [NewUser]. *)
Lemma GenerateUsername_NewUser (dn rn uuid : string) (now : Z) :
  GenerateUsername [DisplayName dn 64; RoleName rn 64] (Ok uuid) now
  = Ok (trunc (joinNonEmpty "_" ["v"; trunc dn 64; trunc rn 64; uuid; Sprint now]) 100).
Proof. reflexivity. Qed.

End Usernames.

(** ** C1: the username [NewUser] returns *)

Section C1.

Import GoStrings GoTime RedisServer Dbplugin Plugin.








End C1.

(** ** C9: the operation timeout *)

Section C9.

Import GoTime Plugin.

Lemma Sub_exact (t u : Time) :
  minDuration <= t - u <= maxDuration -> Sub t u = t - u.
Proof.
  intros [Hlo Hhi]. unfold Sub.
  destruct (Z.ltb_spec (t - u) minDuration); [lia|].
  destruct (Z.ltb_spec maxDuration (t - u)); [lia|reflexivity].
Qed.

(** C9: with a deadline, [computeTimeout] is [time.Until] of it, which
    is the time from the clock reading [now] to the deadline whenever
    that fits a [Duration]; with no deadline it is the default of 20
    seconds (20000 milliseconds, 2 * 10^10 nanoseconds). *)
Theorem computeTimeout_deadline_or_default (now : Time) (ctx : Context) :
  (forall deadline, Deadline ctx = Some deadline ->
     computeTimeout now ctx = Until now deadline) /\
  (forall deadline, Deadline ctx = Some deadline ->
     minDuration <= deadline - now <= maxDuration ->
     computeTimeout now ctx = deadline - now) /\
  (Deadline ctx = None ->
     computeTimeout now ctx = 20 * Second /\
     computeTimeout now ctx = 20000000000).
Proof.
  unfold computeTimeout. split; [|split].
  - now intros deadline ->.
  - intros deadline -> Hfit. now apply Sub_exact.
  - intros ->. split; reflexivity.
Qed.

(** A deadline 5 seconds after the clock reading, and no deadline. *)
Lemma computeTimeout_deadline_or_default_witness :
  computeTimeout 1000 (mkContext (Some (1000 + 5 * Second))) = 5 * Second /\
  computeTimeout 1000 (mkContext None) = 20 * Second.
Proof.
  split.
  - replace (5 * Second) with (1000 + 5 * Second - 1000) at 2 by reflexivity.
    apply (computeTimeout_deadline_or_default 1000
             (mkContext (Some (1000 + 5 * Second)))).
    + reflexivity.
    + vm_compute. split; discriminate.
  - apply (computeTimeout_deadline_or_default 1000 (mkContext None)).
    reflexivity.
Defined.

End C9.

(** ** C8: an update that changes no password *)

Section C8.

Import GoTime Dbplugin Plugin.

(** C8: [UpdateUser] on a request with no password change returns no
    error and leaves everything as it was: the connection producer (the
    cached handle), the store with the commands its nodes received,
    standard output and the log. *)
Theorem UpdateUser_without_password_noop order1 order2 ctx req w :
  UpdateUserRequest.Password req = None ->
  UpdateUser order1 order2 ctx req w = (w, Ok tt).
Proof. intros Hnil. unfold UpdateUser. now rewrite Hnil. Qed.

(** A request that only moves the expiry, against a cluster. *)
Lemma UpdateUser_without_password_noop_witness :
  UpdateUser Scenario.order3 Scenario.order3 Scenario.noDeadline
    (UpdateUserRequest.mk "ALICE" None (Some 1700000000))
    (Scenario.onCluster
       (Scenario.threeNodes Scenario.noFault Scenario.noFault Scenario.noFault ∅))
  = (Scenario.onCluster
       (Scenario.threeNodes Scenario.noFault Scenario.noFault Scenario.noFault ∅),
     Ok tt).
Proof.
  apply (UpdateUser_without_password_noop Scenario.order3 Scenario.order3
           Scenario.noDeadline (UpdateUserRequest.mk "ALICE" None (Some 1700000000))).
  reflexivity.
Defined.

End C8.

(** ** Cluster loops *)

Section FanOut.

Import RedisServer Plugin Conditions.

Context {V : Type}.
Variable args : list string.
Variable rest : string -> V -> reply -> V * outcome unit.

Lemma nodeDo_client topo a m :
  topo !! a = Some m -> clientNil m = false ->
  nodeDo topo a args = Ok (<[a := sent args m]> topo, replyTo args m).
Proof.
  intros Hm Hc. unfold nodeDo, Client, setNode, sent, replyTo.
  rewrite Hm, Hc. now destruct (exec (mnode m) args).
Qed.

Lemma nodeDo_nil topo a :
  (topo !! a = None \/ exists m, topo !! a = Some m /\ clientNil m = true) ->
  nodeDo topo a args = Panic nilDereference.
Proof.
  unfold nodeDo, Client. intros [->|(m & -> & ->)]; reflexivity.
Qed.

Lemma onNode_client topo v a m :
  topo !! a = Some m -> clientNil m = false ->
  onNode args rest a (topo, v)
  = ((<[a := sent args m]> topo, fst (rest a v (replyTo args m))),
     snd (rest a v (replyTo args m))).
Proof.
  intros Hm Hc. unfold onNode. rewrite (nodeDo_client _ _ _ Hm Hc).
  now destruct (rest a v (replyTo args m)).
Qed.

Lemma onNode_nil topo v a :
  (topo !! a = None \/ exists m, topo !! a = Some m /\ clientNil m = true) ->
  onNode args rest a (topo, v) = ((topo, v), Panic nilDereference).
Proof. intros H. unfold onNode. now rewrite (nodeDo_nil _ _ H). Qed.

Lemma forRange_cons {St} (body : string -> St -> St * outcome unit) a l st :
  forRange body (a :: l) st
  = match body a st with
    | (st', Ok _) => forRange body l st'
    | (st', r) => (st', r)
    end.
Proof. reflexivity. Qed.

(** A loop over [l1 ++ l2] is the loop over [l1], then over [l2] if
    the first did not return. *)
Lemma forRange_app {St} (body : string -> St -> St * outcome unit) l1 l2 st :
  forRange body (l1 ++ l2) st
  = match forRange body l1 st with
    | (st', Ok _) => forRange body l2 st'
    | (st', r) => (st', r)
    end.
Proof.
  revert st; induction l1 as [|a l1 IH]; intros st; simpl; [reflexivity|].
  destruct (body a st) as [st' [[]|e|m]]; auto.
Qed.

(** The loop returns at the first node whose body does. *)
Lemma forRange_stops {St} (body : string -> St -> St * outcome unit)
  pre k post st st1 st2 r :
  forRange body pre st = (st1, Ok tt) ->
  body k st1 = (st2, r) -> isOk r = false ->
  forRange body (pre ++ k :: post) st = (st2, r).
Proof.
  intros Hpre Hk Hr. rewrite forRange_app, Hpre, forRange_cons, Hk.
  destruct r; [discriminate| |]; reflexivity.
Qed.

(** The statements after the command let the loop go on when the reply
    is one of [accept], given [Inv] of the loop's variables. *)
Variable accept : reply -> Prop.
Variable Inv : V -> Prop.
Hypothesis rest_accept :
  forall a v r, Inv v -> accept r ->
    snd (rest a v r) = Ok tt /\ Inv (fst (rest a v r)).

(** The loop over nodes that all give a client and an accepted reply
    reaches its end, having sent the command to each. *)
Lemma forRange_accepted pre : forall topo v,
  NoDup pre -> Inv v ->
  (forall a, a ∈ pre ->
     exists m, topo !! a = Some m /\ clientNil m = false /\ accept (replyTo args m)) ->
  exists topo' v',
    forRange (onNode args rest) pre (topo, v) = ((topo', v'), Ok tt)
    /\ Inv v' /\ sentTo args pre topo topo'.
Proof.
  induction pre as [|a pre IH]; intros topo v Hnd Hv Hall.
  - exists topo, v. split; [reflexivity|split; [exact Hv|]]. intros b.
    destruct (decide (b ∈ [])) as [Hb|_]; [now apply elem_of_nil in Hb|reflexivity].
  - apply NoDup_cons in Hnd as [Ha Hnd].
    assert (Ha' : a ∈ a :: pre) by (apply elem_of_cons; now left).
    destruct (Hall a Ha') as (m & Hm & Hc & Hacc).
    destruct (rest_accept a v _ Hv Hacc) as [Hok Hv'].
    destruct (IH (<[a := sent args m]> topo) (fst (rest a v (replyTo args m))) Hnd Hv')
      as (topo' & v' & Hrun & Hv'' & Hsent).
    { intros b Hb. assert (Hb0 : b ∈ a :: pre) by (apply elem_of_cons; now right).
      destruct (Hall b Hb0) as (mb & Hmb & Hb').
      exists mb. split; [|exact Hb'].
      rewrite lookup_insert_ne; [exact Hmb|]. intros ->. contradiction. }
    exists topo', v'. split; [|split; [exact Hv''|]].
    + rewrite forRange_cons, (onNode_client _ _ _ _ Hm Hc), Hok. exact Hrun.
    + intros b. rewrite (Hsent b).
      destruct (decide (b = a)) as [->|Hne].
      * destruct (decide (a ∈ pre)) as [|_]; [contradiction|].
        destruct (decide (a ∈ a :: pre)) as [_|Hn]; [|exfalso; apply Hn; left].
        now rewrite lookup_insert_eq, Hm.
      * rewrite lookup_insert_ne by congruence.
        destruct (decide (b ∈ pre)) as [Hb|Hb];
          destruct (decide (b ∈ a :: pre)) as [Hb'|Hb']; try reflexivity.
        -- exfalso. apply Hb'. now right.
        -- apply elem_of_cons in Hb' as [->|]; contradiction.
Qed.

Lemma sentTo_snoc pre k topo topo' mk :
  k ∉ pre -> topo !! k = Some mk -> sentTo args pre topo topo' ->
  topo' !! k = Some mk /\
  sentTo args (pre ++ [k]) topo (<[k := sent args mk]> topo').
Proof.
  intros Hk Hmk Hsent. split.
  - rewrite (Hsent k). now destruct (decide (k ∈ pre)).
  - intros b. destruct (decide (b = k)) as [->|Hne].
    + rewrite lookup_insert_eq, Hmk.
      destruct (decide (k ∈ pre ++ [k])) as [_|Hn]; [reflexivity|].
      exfalso. apply Hn, elem_of_app. right. now apply list_elem_of_singleton.
    + rewrite lookup_insert_ne by congruence. rewrite (Hsent b).
      destruct (decide (b ∈ pre)) as [Hb|Hb];
        destruct (decide (b ∈ pre ++ [k])) as [Hb'|Hb']; try reflexivity.
      * exfalso. apply Hb', elem_of_app. now left.
      * apply elem_of_app in Hb' as [|Hb'%list_elem_of_singleton]; contradiction.
Qed.

(** The loop stops at [k], the first node whose reply makes the body
    return: the nodes before it and [k] were sent the command, the
    others nothing, and the loop returns what the body returned at
    [k]. *)
Lemma forRange_stops_at pre k post topo v mk :
  NoDup (pre ++ k :: post) -> Inv v ->
  (forall a, a ∈ pre ->
     exists m, topo !! a = Some m /\ clientNil m = false /\ accept (replyTo args m)) ->
  topo !! k = Some mk -> clientNil mk = false ->
  (forall v0, Inv v0 -> isOk (snd (rest k v0 (replyTo args mk))) = false) ->
  exists topo' v0,
    forRange (onNode args rest) (pre ++ k :: post) (topo, v)
    = ((topo', fst (rest k v0 (replyTo args mk))),
       snd (rest k v0 (replyTo args mk)))
    /\ Inv v0 /\ sentTo args (pre ++ [k]) topo topo'.
Proof.
  intros Hnd Hv Hall Hmk Hck Hret.
  apply NoDup_app in Hnd as (Hpre & Hdisj & Hkpost).
  assert (Hk : k ∉ pre).
  { intros Hin. apply (Hdisj k Hin), elem_of_cons. now left. }
  destruct (forRange_accepted pre topo v Hpre Hv Hall)
    as (topo1 & v0 & Hrun & Hv0 & Hsent).
  destruct (sentTo_snoc pre k topo topo1 mk Hk Hmk Hsent) as [Hmk1 Hsent'].
  exists (<[k := sent args mk]> topo1), v0. split; [|split; assumption].
  apply (forRange_stops _ _ _ _ _ _ _ _ Hrun).
  - apply (onNode_client _ _ _ _ Hmk1 Hck).
  - now apply Hret.
Qed.

(** The loop panics at [k], the first node with no client. *)
Lemma forRange_panics_at pre k post topo v :
  NoDup pre -> Inv v ->
  (forall a, a ∈ pre ->
     exists m, topo !! a = Some m /\ clientNil m = false /\ accept (replyTo args m)) ->
  k ∉ pre ->
  (topo !! k = None \/ exists m, topo !! k = Some m /\ clientNil m = true) ->
  exists topo' v0,
    forRange (onNode args rest) (pre ++ k :: post) (topo, v)
    = ((topo', v0), Panic nilDereference)
    /\ sentTo args pre topo topo'.
Proof.
  intros Hpre Hv Hall Hk Hnil.
  destruct (forRange_accepted pre topo v Hpre Hv Hall)
    as (topo1 & v0 & Hrun & Hv0 & Hsent).
  exists topo1, v0. split; [|assumption].
  apply (forRange_stops _ _ _ _ _ _ _ _ Hrun); [|reflexivity].
  apply onNode_nil. rewrite (Hsent k).
  destruct (decide (k ∈ pre)); [contradiction|exact Hnil].
Qed.

End FanOut.

(** ** The connection around an operation *)

Section Connection.

Import GoTime RedisServer Dbplugin Plugin Conditions.

(** With a handle to be had, [getConnection] returns the client of the
    store and leaves a cached handle. *)
Lemma getConnection_connects ctx w :
  connects w ->
  exists p,
    getConnection ctx w = (setProducer w p, Ok (store w))
    /\ Producer.cached p = true
    /\ Producer.closeError p = Producer.closeError (producer w)
    /\ Producer.closeCalls p = Producer.closeCalls (producer w).
Proof.
  unfold connects, getConnection, Producer.Connection.
  destruct w as [[c d ce n] s o l]; simpl.
  intros [->| ->].
  - now exists (Producer.mkState true d ce n).
  - destruct c; now exists (Producer.mkState true None ce n).
Qed.

(** What a dial answers is not changed by an operation. *)
Lemma getConnection_dialError ctx w :
  Producer.dialError (producer (fst (getConnection ctx w)))
  = Producer.dialError (producer w).
Proof.
  unfold getConnection, Producer.Connection.
  destruct w as [[[] d ce n] s o l]; simpl; [reflexivity|].
  destruct d; reflexivity.
Qed.

(** With no handle to be had, [getConnection] returns the error of the
    dial and changes nothing. *)
Lemma getConnection_fails ctx w e :
  Producer.cached (producer w) = false ->
  Producer.dialError (producer w) = Some e ->
  getConnection ctx w = (w, Err e).
Proof.
  unfold getConnection, Producer.Connection. intros -> ->.
  now destruct w as [[] ? ? ?].
Qed.

(** The switches read and write the store and standard output only. *)
Lemma deleteUser_frame order u p s o l p' l' :
  deleteUser order u (mkWorld p' s o l')
  = (mkWorld p' (store (fst (deleteUser order u (mkWorld p s o l))))
       (stdout (fst (deleteUser order u (mkWorld p s o l)))) l',
     snd (deleteUser order u (mkWorld p s o l))).
Proof.
  unfold deleteUser; simpl. destruct s as [n|topo].
  - destruct (exec n _) as [n' r]. now destruct (replyError r).
  - now destruct (forRange _ order _) as [[topo' v] r].
Qed.

Lemma getUser_frame order u p s o l p' l' :
  getUser order u (mkWorld p' s o l')
  = (mkWorld p' (store (fst (getUser order u (mkWorld p s o l))))
       (stdout (fst (getUser order u (mkWorld p s o l)))) l',
     snd (getUser order u (mkWorld p s o l))).
Proof.
  unfold getUser; simpl. destruct s as [n|topo].
  - destruct (exec n _) as [n' r].
    destruct (replyError r); [reflexivity|]. now destruct (rcvMaybeNil false r).
  - now destruct (forRange _ order _) as [[topo' [v out]] r].
Qed.

Lemma resetPass_frame order u pw p s o l p' l' :
  resetPass order u pw (mkWorld p' s o l')
  = (mkWorld p' (store (fst (resetPass order u pw (mkWorld p s o l))))
       (stdout (fst (resetPass order u pw (mkWorld p s o l)))) l',
     snd (resetPass order u pw (mkWorld p s o l))).
Proof.
  unfold resetPass; simpl. destruct s as [n|topo].
  - destruct (exec n _) as [n' r]. now destruct (replyError r).
  - now destruct (forRange _ order _) as [[topo' [v out]] r].
Qed.

Lemma rotate_frame o1 o2 u pw p s o l p' l' :
  rotate o1 o2 u pw (mkWorld p' s o l')
  = (mkWorld p' (store (fst (rotate o1 o2 u pw (mkWorld p s o l))))
       (stdout (fst (rotate o1 o2 u pw (mkWorld p s o l)))) l',
     snd (rotate o1 o2 u pw (mkWorld p s o l))).
Proof.
  unfold rotate. rewrite (getUser_frame o1 u p s o l p' l').
  destruct (getUser o1 u (mkWorld p s o l)) as [[p1 s1 out1 l1] [[]|e|m]];
    simpl; try reflexivity.
  apply resetPass_frame.
Qed.

(** The deferred function: one call of [close], on the cached handle;
    its error goes to the log. *)
Lemma deferredClose_cached p s o l :
  Producer.cached p = true ->
  deferredClose (mkWorld p s o l)
  = mkWorld (Producer.mkState false (Producer.dialError p) (Producer.closeError p)
               (S (Producer.closeCalls p)))
      s o
      (l ++ match Producer.closeError p with
            | Some e => [("defer close failed", e)]
            | None => []
            end).
Proof.
  intros Hc. unfold deferredClose, Producer.close; simpl. rewrite Hc.
  destruct (Producer.closeError p); simpl; [reflexivity|].
  now rewrite app_nil_r.
Qed.

End Connection.

(** ** C7: the deferred close *)

Section C7.

Import GoTime RedisServer Dbplugin Plugin Conditions.

Lemma DeleteUser_connected order ctx req w :
  connects w ->
  exists p,
    Producer.cached p = true
    /\ Producer.closeError p = Producer.closeError (producer w)
    /\ Producer.closeCalls p = Producer.closeCalls (producer w)
    /\ DeleteUser order ctx req w
       = (deferredClose
            (mkWorld p
               (store (fst (deleteUser order (DeleteUserRequest.Username req) w)))
               (stdout (fst (deleteUser order (DeleteUserRequest.Username req) w)))
               (errorLog w)),
          snd (deleteUser order (DeleteUserRequest.Username req) w)).
Proof.
  intros Hc. destruct (getConnection_connects ctx w Hc) as (p & Hg & Hp & Hce & Hn).
  exists p. repeat (split; [assumption|]).
  unfold DeleteUser. rewrite Hg. destruct w as [p0 s o l].
  unfold setProducer; cbn [producer store stdout errorLog].
  now rewrite (deleteUser_frame order _ p0 s o l p l).
Qed.

Lemma changeUserPassword_connected o1 o2 ctx u pw w :
  connects w ->
  exists p,
    Producer.cached p = true
    /\ Producer.closeError p = Producer.closeError (producer w)
    /\ Producer.closeCalls p = Producer.closeCalls (producer w)
    /\ changeUserPassword o1 o2 ctx u pw w
       = (deferredClose
            (mkWorld p
               (store (fst (rotate o1 o2 u pw w)))
               (stdout (fst (rotate o1 o2 u pw w)))
               (errorLog w)),
          snd (rotate o1 o2 u pw w)).
Proof.
  intros Hc. destruct (getConnection_connects ctx w Hc) as (p & Hg & Hp & Hce & Hn).
  exists p. repeat (split; [assumption|]).
  unfold changeUserPassword. rewrite Hg. destruct w as [p0 s o l].
  unfold setProducer; cbn [producer store stdout errorLog].
  now rewrite (rotate_frame o1 o2 u pw p0 s o l p l).
Qed.

(** C7: when [DeleteUser], or [UpdateUser] with a new password, has
    obtained a client handle, the deferred function calls [close] once
    before the call returns, whatever the ACL commands did (the result
    is that of the switches alone: success, an error or a panic), and
    the cached handle is gone; an error of [close] is added to the log
    and is not in the result. *)
Theorem handle_closed_whatever_the_outcome ctx w :
  connects w ->
  (forall order req,
     Producer.closeCalls (producer (fst (DeleteUser order ctx req w)))
     = S (Producer.closeCalls (producer w))
     /\ Producer.cached (producer (fst (DeleteUser order ctx req w))) = false
     /\ errorLog (fst (DeleteUser order ctx req w)) = errorLog w ++ closeFailure w
     /\ snd (DeleteUser order ctx req w)
        = snd (deleteUser order (DeleteUserRequest.Username req) w))
  /\
  (forall order1 order2 req change,
     UpdateUserRequest.Password req = Some change ->
     Producer.closeCalls (producer (fst (UpdateUser order1 order2 ctx req w)))
     = S (Producer.closeCalls (producer w))
     /\ Producer.cached (producer (fst (UpdateUser order1 order2 ctx req w))) = false
     /\ errorLog (fst (UpdateUser order1 order2 ctx req w))
        = errorLog w ++ closeFailure w
     /\ snd (UpdateUser order1 order2 ctx req w)
        = snd (rotate order1 order2 (UpdateUserRequest.Username req)
                 (NewPassword change) w)).
Proof.
  intros Hc. split.
  - intros order req.
    destruct (DeleteUser_connected order ctx req w Hc) as (p & Hp & Hce & Hn & ->).
    rewrite (deferredClose_cached _ _ _ _ Hp). unfold closeFailure; simpl.
    now rewrite Hce, Hn.
  - intros o1 o2 req change Hpw. unfold UpdateUser. rewrite Hpw.
    destruct (changeUserPassword_connected o1 o2 ctx
                (UpdateUserRequest.Username req) (NewPassword change) w Hc)
      as (p & Hp & Hce & Hn & ->).
    rewrite (deferredClose_cached _ _ _ _ Hp). unfold closeFailure; simpl.
    now rewrite Hce, Hn.
Qed.

End C7.

(** C7 at work: the node rejects [ACL DELUSER] and [close] fails; the
    caller gets the error of the command, the log the error of
    [close]. *)
Lemma handle_closed_whatever_the_outcome_witness :
  Producer.closeCalls
    (Plugin.producer
       (fst (Plugin.DeleteUser [] Scenario.noDeadline
               (Dbplugin.DeleteUserRequest.mk "ALICE")
               (Plugin.mkWorld Scenario.stuck
                  (RedisServer.Pool (Scenario.nodeWithAlice Scenario.rejectsDeluser))
                  [] [])))) = 1%nat
  /\ Plugin.errorLog
       (fst (Plugin.DeleteUser [] Scenario.noDeadline
               (Dbplugin.DeleteUserRequest.mk "ALICE")
               (Plugin.mkWorld Scenario.stuck
                  (RedisServer.Pool (Scenario.nodeWithAlice Scenario.rejectsDeluser))
                  [] [])))
     = [("defer close failed", "close: broken pipe")]
  /\ snd (Plugin.DeleteUser [] Scenario.noDeadline
            (Dbplugin.DeleteUserRequest.mk "ALICE")
            (Plugin.mkWorld Scenario.stuck
               (RedisServer.Pool (Scenario.nodeWithAlice Scenario.rejectsDeluser))
               [] []))
     = Err "response from pool DeleteUser: , error: ERR denied".
Proof.
  destruct (handle_closed_whatever_the_outcome Scenario.noDeadline
              (Plugin.mkWorld Scenario.stuck
                 (RedisServer.Pool (Scenario.nodeWithAlice Scenario.rejectsDeluser))
                 [] []) (or_introl eq_refl)) as [HD _].
  destruct (HD [] (Dbplugin.DeleteUserRequest.mk "ALICE")) as (H1 & _ & H3 & H4).
  split; [exact H1|]. split; [exact H3|]. rewrite H4. reflexivity.
Defined.

(** ** [NewUser] and the rule statements *)

Section NewUserFacts.

Import GoStrings GoJSON GoTime RedisServer Dbplugin Plugin Conditions.

Lemma exec_received n args :
  received (fst (exec n args)) = received n ++ [args].
Proof.
  unfold exec. destruct (fault n args); [reflexivity|].
  now destruct (answer (users n) args).
Qed.

Lemma exec_fault n args : fault (fst (exec n args)) = fault n.
Proof.
  unfold exec. destruct (fault n args); [reflexivity|].
  now destruct (answer (users n) args).
Qed.

Lemma getConnection_frame ctx w :
  store (fst (getConnection ctx w)) = store w
  /\ stdout (fst (getConnection ctx w)) = stdout w
  /\ errorLog (fst (getConnection ctx w)) = errorLog w.
Proof.
  unfold getConnection.
  now destruct (Producer.Connection (producer w)) as [p [[]|e|m]].
Qed.

Lemma newUser_frame order ctx u req p s o l p' l' :
  newUser order ctx u req (mkWorld p' s o l')
  = (mkWorld p' (store (fst (newUser order ctx u req (mkWorld p s o l))))
       (stdout (fst (newUser order ctx u req (mkWorld p s o l)))) l',
     snd (newUser order ctx u req (mkWorld p s o l))).
Proof.
  unfold newUser. destruct (newUserArgs u req) as [aclargs|e|m]; try reflexivity.
  cbn [store stdout errorLog producer]. destruct s as [n|topo].
  - destruct (exec n _) as [n' r]. now destruct (replyError r).
  - now destruct (forRange _ order _) as [[topo' [v out]] r].
Qed.

(** [removeEmpty] keeps, trimmed, the strings that are not blank. *)
Lemma removeEmptyFrom_app acc strs :
  removeEmptyFrom acc strs = acc ++ removeEmptyFrom [] strs.
Proof.
  revert acc; induction strs as [|s strs IH]; intros acc; simpl.
  - now rewrite app_nil_r.
  - destruct (String.eqb (TrimSpace s) EmptyString); [apply IH|].
    rewrite (IH (acc ++ [TrimSpace s])), (IH [TrimSpace s]).
    now rewrite <- app_assoc.
Qed.

Lemma removeEmpty_cons s strs :
  removeEmpty (s :: strs)
  = if String.eqb (TrimSpace s) EmptyString then removeEmpty strs
    else TrimSpace s :: removeEmpty strs.
Proof.
  unfold removeEmpty; simpl.
  destruct (String.eqb (TrimSpace s) EmptyString); [reflexivity|].
  now rewrite removeEmptyFrom_app.
Qed.

Lemma removeEmpty_blank strs :
  Forall (fun s => TrimSpace s = EmptyString) strs -> removeEmpty strs = [].
Proof.
  induction 1 as [|s strs Hs _ IH]; [reflexivity|].
  now rewrite removeEmpty_cons, Hs.
Qed.

(** The default rule decodes to its two tokens. *)
Lemma Unmarshal_defaultRedisUserRule :
  Unmarshal defaultRedisUserRule = Ok ["~*"; "+@read"].
Proof. vm_compute. reflexivity. Qed.

(** With no statement left, the command is built from the default
    rule. *)
Lemma newUserArgs_default username req :
  Forall (fun s => TrimSpace s = EmptyString)
    (Commands (NewUserRequest.Statements req)) ->
  newUserArgs username req
  = Ok ["SETUSER"; username; "ON"; ">" +:+ NewUserRequest.Password req;
        "~*"; "+@read"].
Proof.
  intros Hblank. unfold newUserArgs.
  rewrite (removeEmpty_blank _ Hblank).
  cbn [length Nat.eqb app]. now rewrite Unmarshal_defaultRedisUserRule.
Qed.

(** A statement the scanner refuses makes [Unmarshal] fail. *)
Lemma Unmarshal_invalid data :
  Valid data = false -> exists e, checkValid data = Some e /\ Unmarshal data = Err e.
Proof.
  unfold Valid, Unmarshal. destruct (checkValid data) as [e|]; [|discriminate].
  intros _. now exists e.
Qed.

Lemma newUserArgs_invalid username req statement others :
  removeEmpty (Commands (NewUserRequest.Statements req)) = statement :: others ->
  Valid statement = false ->
  exists e,
    checkValid statement = Some e /\
    newUserArgs username req
    = Err ("error unmarshalling REDIS rules in the creation statement JSON: " +:+ e).
Proof.
  intros Hfirst (e & He & Hu)%Unmarshal_invalid.
  exists e. split; [exact He|].
  unfold newUserArgs. rewrite Hfirst. cbn [length Nat.eqb]. now rewrite Hu.
Qed.

(** [NewUser], once the username is generated and the handle obtained,
    is [newUser] on that username. *)
Lemma NewUser_generated userUUID now order ctx req w username :
  generates userUUID now req username -> connects w ->
  store (fst (NewUser userUUID now order ctx req w))
  = store (fst (newUser order ctx username req w))
  /\ stdout (fst (NewUser userUUID now order ctx req w))
     = stdout (fst (newUser order ctx username req w))
  /\ snd (NewUser userUUID now order ctx req w)
     = match snd (newUser order ctx username req w) with
       | Ok _ => Ok username
       | Err e => Err e
       | Panic m => Panic m
       end.
Proof.
  intros (name & Hgen & ->) Hc. unfold NewUser. rewrite Hgen.
  destruct (getConnection_connects ctx w Hc) as (p & -> & _).
  destruct w as [p0 s o l]. unfold setProducer; cbn [producer store stdout errorLog].
  rewrite (newUser_frame order ctx _ req p0 s o l p l).
  now destruct (snd (newUser order ctx _ req _)) as [[]|e|m].
Qed.

End NewUserFacts.

(** ** C4: a rule statement that is not JSON *)

Section C4.

Import GoStrings GoJSON GoTime RedisServer Dbplugin Plugin Conditions.

Lemma newUser_invalid order ctx username req w statement others :
  removeEmpty (Commands (NewUserRequest.Statements req)) = statement :: others ->
  Valid statement = false ->
  exists e,
    checkValid statement = Some e /\
    newUser order ctx username req w
    = (w, Err ("error unmarshalling REDIS rules in the creation statement JSON: "
               +:+ e)).
Proof.
  intros Hfirst Hinv.
  destruct (newUserArgs_invalid username req _ _ Hfirst Hinv) as (e & He & Hargs).
  exists e. split; [exact He|]. unfold newUser. now rewrite Hargs.
Qed.

(** C4: when the first non-empty statement of a [NewUser] request
    (trimmed, as [removeEmpty] leaves it) is not valid JSON, [NewUser]
    does not succeed and sends no command: the store, with the commands
    its nodes have received, and standard output are as before.  When
    the username was generated and the handle obtained, the error is
    the error of the decoder, wrapped as a rule error. *)
Theorem NewUser_malformed_rule userUUID now order ctx req w statement others :
  removeEmpty (Commands (NewUserRequest.Statements req)) = statement :: others ->
  Valid statement = false ->
  isOk (snd (NewUser userUUID now order ctx req w)) = false
  /\ store (fst (NewUser userUUID now order ctx req w)) = store w
  /\ stdout (fst (NewUser userUUID now order ctx req w)) = stdout w
  /\ (forall username,
        generates userUUID now req username -> connects w ->
        exists e,
          checkValid statement = Some e /\
          snd (NewUser userUUID now order ctx req w)
          = Err ("error unmarshalling REDIS rules in the creation statement JSON: "
                 +:+ e)).
Proof.
  intros Hfirst Hinv.
  assert (Hrun : forall username w1,
             exists e, checkValid statement = Some e /\
               newUser order ctx username req w1
               = (w1, Err ("error unmarshalling REDIS rules in the creation statement JSON: "
                           +:+ e)))
    by (intros; now apply (newUser_invalid _ _ _ _ _ _ _ Hfirst Hinv)).
  repeat split.
  - unfold NewUser. destruct (Credsutil.GenerateUsername _ _ _) as [name|e|m];
      try reflexivity.
    destruct (getConnection ctx w) as [w1 [db|e|m]]; try reflexivity.
    now destruct (Hrun (ToUpper name) w1) as (e & _ & ->).
  - unfold NewUser. destruct (Credsutil.GenerateUsername _ _ _) as [name|e|m];
      try reflexivity.
    pose proof (getConnection_frame ctx w) as (Hs & _).
    destruct (getConnection ctx w) as [w1 [db|e|m]]; try exact Hs.
    now destruct (Hrun (ToUpper name) w1) as (e & _ & ->).
  - unfold NewUser. destruct (Credsutil.GenerateUsername _ _ _) as [name|e|m];
      try reflexivity.
    pose proof (getConnection_frame ctx w) as (_ & Ho & _).
    destruct (getConnection ctx w) as [w1 [db|e|m]]; try exact Ho.
    now destruct (Hrun (ToUpper name) w1) as (e & _ & ->).
  - intros username Hgen Hc.
    destruct (NewUser_generated _ _ order ctx _ _ _ Hgen Hc) as (_ & _ & ->).
    destruct (Hrun username w) as (e & He & ->). now exists e.
Qed.

(** A request whose only statement is a rule that is not quoted, on a
    single node. *)
Lemma NewUser_malformed_rule_witness :
  snd (NewUser (Ok Scenario.uuid) Scenario.unixNow [] Scenario.noDeadline
         (Scenario.request "token" "my-role" ["  "; " +@admin "] "pw")
         (Scenario.onPool Scenario.emptyNode))
  = Err ("error unmarshalling REDIS rules in the creation statement JSON: "
         +:+ "invalid character looking for beginning of value")
  /\ store (fst (NewUser (Ok Scenario.uuid) Scenario.unixNow [] Scenario.noDeadline
                   (Scenario.request "token" "my-role" ["  "; " +@admin "] "pw")
                   (Scenario.onPool Scenario.emptyNode)))
     = Pool Scenario.emptyNode.
Proof.
  destruct (NewUser_malformed_rule (Ok Scenario.uuid) Scenario.unixNow []
              Scenario.noDeadline
              (Scenario.request "token" "my-role" ["  "; " +@admin "] "pw")
              (Scenario.onPool Scenario.emptyNode) "+@admin" [])
    as (_ & Hstore & _ & Herr).
  - vm_compute. reflexivity.
  - vm_compute. reflexivity.
  - split; [|exact Hstore].
    destruct (Herr "V_TOKEN_MY-ROLE_ABCDEFGHIJKLMNOPQRST_1612345678")
      as (e & He & ->).
    + eexists. split; [vm_compute; reflexivity|vm_compute; reflexivity].
    + right. reflexivity.
    + vm_compute in He. now inversion He.
Defined.

End C4.

(** ** C6: the default rule *)

Section C6.

Import GoStrings GoJSON GoTime RedisServer Dbplugin Plugin Conditions.

Lemma newUserNode_accept a v r :
  True -> replyError r = None -> snd (newUserNode a v r) = Ok tt /\ True.
Proof. intros _ Hr. unfold newUserNode. destruct v. now rewrite Hr. Qed.

Lemma newUser_Pool order ctx username req w n aclargs :
  newUserArgs username req = Ok aclargs -> store w = Pool n ->
  store (fst (newUser order ctx username req w))
  = Pool (fst (exec n ("ACL" :: aclargs)))
  /\ snd (newUser order ctx username req w)
     = match replyError (snd (exec n ("ACL" :: aclargs))) with
       | Some e => Err e
       | None => Ok tt
       end.
Proof.
  intros Hargs Hs. unfold newUser. rewrite Hargs, Hs.
  destruct (exec n _) as [n' r]; cbn [fst snd].
  destruct (replyError r); simpl; auto.
Qed.

Lemma newUser_Cluster_all order ctx username req w topo aclargs :
  newUserArgs username req = Ok aclargs -> store w = Cluster topo ->
  NoDup order ->
  (forall a, a ∈ order ->
     exists m, topo !! a = Some m /\ answers ("ACL" :: aclargs) m) ->
  exists topo',
    store (fst (newUser order ctx username req w)) = Cluster topo'
    /\ sentTo ("ACL" :: aclargs) order topo topo'
    /\ snd (newUser order ctx username req w) = Ok tt.
Proof.
  intros Hargs Hs Hnd Hall. unfold newUser. rewrite Hargs, Hs.
  destruct (forRange_accepted ("ACL" :: aclargs) newUserNode
              (fun r => replyError r = None) (fun _ => True) newUserNode_accept
              order topo (EmptyString, stdout w) Hnd I)
    as (topo' & [resp out] & -> & _ & Hsent).
  { intros a Ha. destruct (Hall a Ha) as (m & Hm & Hc & Hr). now exists m. }
  now exists topo'.
Qed.

(** C6: when every statement of the request is empty or blank (or
    there is none), the command [NewUser] sends is
    [ACL SETUSER <username> ON ><password> ~* +@read].  On a single
    node that command is what the node receives, and the call fails
    only if the node fails the command; on a cluster whose members
    answer it, every member enumerated receives it and the call
    succeeds. *)
Theorem NewUser_default_rule userUUID now ctx req w username :
  Forall (fun s => TrimSpace s = EmptyString)
    (Commands (NewUserRequest.Statements req)) ->
  generates userUUID now req username -> connects w ->
  newUserArgs username req
  = Ok (tail (defaultCreate username (NewUserRequest.Password req)))
  /\
  (forall order n, store w = Pool n ->
     store (fst (NewUser userUUID now order ctx req w))
     = Pool (fst (exec n (defaultCreate username (NewUserRequest.Password req))))
     /\ received (fst (exec n (defaultCreate username (NewUserRequest.Password req))))
        = received n ++ [defaultCreate username (NewUserRequest.Password req)]
     /\ snd (NewUser userUUID now order ctx req w)
        = match replyError
                  (snd (exec n (defaultCreate username (NewUserRequest.Password req))))
          with
          | Some e => Err e
          | None => Ok username
          end)
  /\
  (forall order topo, store w = Cluster topo -> NoDup order ->
     (forall a, a ∈ order ->
        exists m, topo !! a = Some m
                  /\ answers (defaultCreate username (NewUserRequest.Password req)) m) ->
     exists topo',
       store (fst (NewUser userUUID now order ctx req w)) = Cluster topo'
       /\ sentTo (defaultCreate username (NewUserRequest.Password req)) order topo topo'
       /\ snd (NewUser userUUID now order ctx req w) = Ok username).
Proof.
  intros Hblank Hgen Hc.
  pose proof (newUserArgs_default username req Hblank) as Hargs.
  split; [exact Hargs|]. split.
  - intros order n Hs.
    destruct (NewUser_generated _ _ order ctx _ _ _ Hgen Hc) as (-> & _ & ->).
    destruct (newUser_Pool order ctx _ _ _ _ _ Hargs Hs) as [-> ->].
    split; [reflexivity|]. split; [apply exec_received|].
    unfold defaultCreate. now destruct (replyError _).
  - intros order topo Hs Hnd Hall.
    destruct (NewUser_generated _ _ order ctx _ _ _ Hgen Hc) as (-> & _ & ->).
    destruct (newUser_Cluster_all order ctx _ _ _ _ _ Hargs Hs Hnd Hall)
      as (topo' & Hst & Hsent & ->).
    now exists topo'.
Qed.

(** Two blank statements, on a single node: the node receives the
    command with the default rule and the user it creates may read all
    keys. *)
Lemma NewUser_default_rule_witness :
  snd (NewUser (Ok Scenario.uuid) Scenario.unixNow [] Scenario.noDeadline
         (Scenario.request "token" "my-role" ["  "; ""] "pw")
         (Scenario.onPool Scenario.emptyNode))
  = Ok "V_TOKEN_MY-ROLE_ABCDEFGHIJKLMNOPQRST_1612345678"
  /\ received
       (fst (exec Scenario.emptyNode
               (defaultCreate "V_TOKEN_MY-ROLE_ABCDEFGHIJKLMNOPQRST_1612345678" "pw")))
     = [["ACL"; "SETUSER"; "V_TOKEN_MY-ROLE_ABCDEFGHIJKLMNOPQRST_1612345678";
         "ON"; ">pw"; "~*"; "+@read"]].
Proof.
  destruct (NewUser_default_rule (Ok Scenario.uuid) Scenario.unixNow
              Scenario.noDeadline
              (Scenario.request "token" "my-role" ["  "; ""] "pw")
              (Scenario.onPool Scenario.emptyNode)
              "V_TOKEN_MY-ROLE_ABCDEFGHIJKLMNOPQRST_1612345678")
    as (_ & Hpool & _).
  - repeat constructor.
  - eexists. split; vm_compute; reflexivity.
  - right. reflexivity.
  - destruct (Hpool [] Scenario.emptyNode eq_refl) as (_ & Hrecv & Hres).
    split; [rewrite Hres; reflexivity|exact Hrecv].
Defined.

End C6.

(** ** The store *)

Section StoreFacts.

Import RedisServer Plugin Conditions.

(** The reply of a node, and its table afterwards, depend on its table
    and on the commands it fails, not on the commands it received. *)
Lemma exec_reply n1 n2 args :
  users n1 = users n2 -> fault n1 = fault n2 ->
  snd (exec n1 args) = snd (exec n2 args)
  /\ users (fst (exec n1 args)) = users (fst (exec n2 args)).
Proof.
  intros Hu Hf. unfold exec. rewrite Hu, Hf.
  destruct (fault n2 args); [now split|].
  now destruct (answer (users n2) args).
Qed.

(** A lookup leaves the table as it is. *)
Lemma exec_lookup_users n username :
  users (fst (exec n (lookupCmd username))) = users n.
Proof.
  unfold exec. destruct (fault n _); [reflexivity|]. reflexivity.
Qed.

(** A node that does not fail the lookup answers nil exactly when it
    has no such user. *)
Lemma exec_lookup_reply n username :
  fault n (lookupCmd username) = None ->
  snd (exec n (lookupCmd username))
  = match users n !! username with
    | Some u => ReplyArray (describe u)
    | None => ReplyNil
    end.
Proof. intros Hf. unfold exec. now rewrite Hf. Qed.

(** A command that is answered without an error is not one the node
    fails. *)
Lemma answered_no_fault n args :
  replyError (snd (exec n args)) = None -> fault n args = None.
Proof.
  unfold exec. destruct (fault n args) as [[e|e]|]; [discriminate..|reflexivity].
Qed.

(** A member misses the user when it answers the lookup and its ACL
    table has no such user; it finds the user when the table has it. *)
Lemma misses_iff username m :
  misses username m
  <-> clientNil m = false
      /\ fault (mnode m) (lookupCmd username) = None
      /\ users (mnode m) !! username = None.
Proof.
  unfold misses, replyTo. split.
  - intros [Hc Hr]. split; [exact Hc|].
    assert (Hf : fault (mnode m) (lookupCmd username) = None)
      by (apply answered_no_fault; now rewrite Hr).
    split; [exact Hf|]. rewrite (exec_lookup_reply _ _ Hf) in Hr.
    now destruct (users (mnode m) !! username).
  - intros (Hc & Hf & Hu). split; [exact Hc|].
    now rewrite (exec_lookup_reply _ _ Hf), Hu.
Qed.

Lemma finds_iff username m :
  finds username m
  <-> clientNil m = false
      /\ fault (mnode m) (lookupCmd username) = None
      /\ is_Some (users (mnode m) !! username).
Proof.
  unfold finds, answers, replyTo. split.
  - intros [[Hc Hr] Hn]. split; [exact Hc|].
    pose proof (answered_no_fault _ _ Hr) as Hf. split; [exact Hf|].
    rewrite (exec_lookup_reply _ _ Hf) in Hn.
    destruct (users (mnode m) !! username); [eauto|contradiction].
  - intros (Hc & Hf & [u Hu]). rewrite (exec_lookup_reply _ _ Hf), Hu.
    repeat split; [exact Hc|discriminate].
Qed.

(** The reset, on a member that answers it, leaves the user with the
    new password and no other. *)
Lemma sent_reset_password username password m :
  answers (resetArgs username password) m ->
  exists u,
    users (mnode (sent (resetArgs username password) m)) !! username = Some u
    /\ passwords u = [password].
Proof.
  intros [_ Hr]. unfold replyTo in Hr. apply answered_no_fault in Hr.
  unfold sent, exec, resetArgs in *; cbn [mnode]. rewrite Hr. cbn [answer fst users].
  unfold setuser. rewrite lookup_insert_eq. eexists. split; [reflexivity|].
  now destruct (users (mnode m) !! username).
Qed.

Lemma sent_lookup_reply username args m :
  replyTo args (sent (lookupCmd username) m) = replyTo args m.
Proof.
  unfold replyTo, sent; cbn [mnode].
  apply exec_reply; [apply exec_lookup_users|apply exec_fault].
Qed.

Lemma sent_clientNil args m : clientNil (sent args m) = clientNil m.
Proof. reflexivity. Qed.

Lemma sent_received args m :
  received (mnode (sent args m)) = received (mnode m) ++ [args].
Proof. apply exec_received. Qed.

Lemma sent_lookup_users username m :
  users (mnode (sent (lookupCmd username) m)) = users (mnode m).
Proof. apply exec_lookup_users. Qed.

(** After lookups on [visited], a member answers a command as it would
    have before. *)
Lemma sentTo_lookup_answers username visited topo topo1 args a m :
  sentTo (lookupCmd username) visited topo topo1 ->
  topo !! a = Some m ->
  exists m1, topo1 !! a = Some m1
             /\ clientNil m1 = clientNil m
             /\ replyTo args m1 = replyTo args m.
Proof.
  intros Hsent Hm. rewrite (Hsent a), Hm.
  destruct (decide (a ∈ visited)); simpl.
  - exists (sent (lookupCmd username) m). split; [reflexivity|].
    split; [reflexivity|apply sent_lookup_reply].
  - now exists m.
Qed.

Lemma sentTo_onlyLookedUp username visited topo topo1 :
  sentTo (lookupCmd username) visited topo topo1 ->
  onlyLookedUp username topo topo1.
Proof.
  intros Hsent a m' Hm'. rewrite (Hsent a) in Hm'.
  destruct (decide (a ∈ visited)).
  - destruct (topo !! a) as [m|] eqn:Hm; [|discriminate].
    injection Hm' as <-. exists m. split; [reflexivity|].
    split; [apply sent_lookup_users|right; apply sent_received].
  - exists m'. split; [exact Hm'|]. split; [reflexivity|now left].
Qed.

End StoreFacts.

(** ** The bodies of the four cluster loops *)

Section LoopBodies.

Import RedisServer Plugin Conditions.

Lemma deleteUserNode_accept a (v : string) r :
  True -> replyError r = None -> snd (deleteUserNode a v r) = Ok tt /\ True.
Proof. intros _ Hr. unfold deleteUserNode. now rewrite Hr. Qed.

Lemma resetPassNode_accept username a v r :
  True -> replyError r = None ->
  snd (resetPassNode username a v r) = Ok tt /\ True.
Proof. intros _ Hr. unfold resetPassNode. destruct v. now rewrite Hr. Qed.

(** The lookup loop goes on after a reply that is neither an error nor
    nil, as long as the [Nil] flag is clear, and leaves it clear. *)
Lemma getUserNode_accept username a (v : bool * list string) r :
  fst v = false -> (replyError r = None /\ r <> ReplyNil) ->
  snd (getUserNode username a v r) = Ok tt
  /\ fst (fst (getUserNode username a v r)) = false.
Proof.
  destruct v as [mnNil out]; simpl. intros -> [Hr Hnil].
  unfold getUserNode. rewrite Hr.
  now destruct r.
Qed.

Lemma newUserNode_fail a v r e :
  replyError r = Some e -> snd (newUserNode a v r) = Err e.
Proof. intros Hr. unfold newUserNode. destruct v. now rewrite Hr. Qed.

Lemma deleteUserNode_fail a v r e :
  replyError r = Some e ->
  snd (deleteUserNode a v r)
  = Err ("response from cluster node " +:+ a +:+ " for DeleteUser: "
         +:+ rcvString v r +:+ ", error: " +:+ e).
Proof. intros Hr. unfold deleteUserNode. now rewrite Hr. Qed.

Lemma resetPassNode_fail username a v r e :
  replyError r = Some e ->
  snd (resetPassNode username a v r)
  = Err ("cluster reset of password for user " +:+ username +:+ " on node "
         +:+ a +:+ " failed, REDIS response " +:+ rcvString (fst v) r
         +:+ ", error, " +:+ e).
Proof. intros Hr. unfold resetPassNode. destruct v. now rewrite Hr. Qed.

Lemma getUserNode_fail username a v r e :
  replyError r = Some e ->
  snd (getUserNode username a v r)
  = Err ("reset of passwords for user " +:+ username
         +:+ " failed in changeUserPassword on cluster member "
         +:+ a +:+ ": " +:+ e).
Proof. intros Hr. unfold getUserNode. destruct v. now rewrite Hr. Qed.

Lemma getUserNode_nil username a v :
  snd (getUserNode username a v ReplyNil) = Err (userNotFoundOn a username).
Proof. unfold getUserNode. now destruct v. Qed.

End LoopBodies.

(** ** The switches on a cluster *)

Section ClusterPhases.

Import RedisServer Plugin Conditions.

Lemma finds_accept username m :
  finds username m ->
  clientNil m = false
  /\ (replyError (replyTo (lookupCmd username) m) = None
      /\ replyTo (lookupCmd username) m <> ReplyNil).
Proof. intros [[Hc Hr] Hn]. auto. Qed.

(** The lookup loop, when every node enumerated has the user. *)
Lemma getUser_Cluster_all order username w topo :
  store w = Cluster topo -> NoDup order ->
  (forall a, a ∈ order -> exists m, topo !! a = Some m /\ finds username m) ->
  exists topo1 out1,
    getUser order username w
    = (mkWorld (producer w) (Cluster topo1) out1 (errorLog w), Ok tt)
    /\ sentTo (lookupCmd username) order topo topo1.
Proof.
  intros Hs Hnd Hall. unfold getUser. rewrite Hs.
  destruct (forRange_accepted (lookupCmd username) (getUserNode username)
              (fun r => replyError r = None /\ r <> ReplyNil)
              (fun v => fst v = false) (getUserNode_accept username)
              order topo (false, stdout w) Hnd eq_refl)
    as (topo1 & [mn out1] & Hrun & _ & Hsent).
  { intros a Ha. destruct (Hall a Ha) as (m & Hm & Hf%finds_accept).
    exists m. tauto. }
  exists topo1, out1. unfold lookupCmd in Hrun. now rewrite Hrun.
Qed.

(** The lookup loop, when the first node without the user is [k]. *)
Lemma getUser_Cluster_missing pre k post username w topo mk :
  store w = Cluster topo -> NoDup (pre ++ k :: post) ->
  (forall a, a ∈ pre -> exists m, topo !! a = Some m /\ finds username m) ->
  topo !! k = Some mk -> misses username mk ->
  exists topo1 out1,
    getUser (pre ++ k :: post) username w
    = (mkWorld (producer w) (Cluster topo1) out1 (errorLog w),
       Err (userNotFoundOn k username))
    /\ sentTo (lookupCmd username) (pre ++ [k]) topo topo1.
Proof.
  intros Hs Hnd Hall Hmk [Hck Hnil]. unfold getUser. rewrite Hs.
  destruct (forRange_stops_at (lookupCmd username) (getUserNode username)
              (fun r => replyError r = None /\ r <> ReplyNil)
              (fun v => fst v = false) (getUserNode_accept username)
              pre k post topo (false, stdout w) mk Hnd eq_refl)
    as (topo1 & v0 & Hrun & _ & Hsent); try assumption.
  { intros a Ha. destruct (Hall a Ha) as (m & Hm & Hf%finds_accept).
    exists m. tauto. }
  { intros v0 _. now rewrite Hnil, getUserNode_nil. }
  rewrite Hnil, getUserNode_nil in Hrun. unfold lookupCmd in Hrun.
  rewrite Hrun. destruct (fst (getUserNode username k v0 ReplyNil)) as [mn out1].
  now exists topo1, out1.
Qed.

(** The lookup loop, when it fails on [k]. *)
Lemma getUser_Cluster_fails pre k post username w topo mk e :
  store w = Cluster topo -> NoDup (pre ++ k :: post) ->
  (forall a, a ∈ pre -> exists m, topo !! a = Some m /\ finds username m) ->
  topo !! k = Some mk -> failsWith (lookupCmd username) mk e ->
  exists topo1 out1,
    getUser (pre ++ k :: post) username w
    = (mkWorld (producer w) (Cluster topo1) out1 (errorLog w),
       Err ("reset of passwords for user " +:+ username
            +:+ " failed in changeUserPassword on cluster member "
            +:+ k +:+ ": " +:+ e))
    /\ sentTo (lookupCmd username) (pre ++ [k]) topo topo1.
Proof.
  intros Hs Hnd Hall Hmk [Hck Hfail]. unfold getUser. rewrite Hs.
  destruct (forRange_stops_at (lookupCmd username) (getUserNode username)
              (fun r => replyError r = None /\ r <> ReplyNil)
              (fun v => fst v = false) (getUserNode_accept username)
              pre k post topo (false, stdout w) mk Hnd eq_refl)
    as (topo1 & v0 & Hrun & _ & Hsent); try assumption.
  { intros a Ha. destruct (Hall a Ha) as (m & Hm & Hf%finds_accept).
    exists m. tauto. }
  { intros v0 _. now rewrite (getUserNode_fail _ _ _ _ _ Hfail). }
  rewrite (getUserNode_fail _ _ _ _ _ Hfail) in Hrun. unfold lookupCmd in Hrun.
  rewrite Hrun. destruct (fst (getUserNode username k v0 _)) as [mn out1].
  now exists topo1, out1.
Qed.

(** The reset loop, when every node enumerated answers. *)
Lemma resetPass_Cluster_all order username password w topo :
  store w = Cluster topo -> NoDup order ->
  (forall a, a ∈ order ->
     exists m, topo !! a = Some m /\ answers (resetArgs username password) m) ->
  exists topo' out',
    resetPass order username password w
    = (mkWorld (producer w) (Cluster topo') out' (errorLog w), Ok tt)
    /\ sentTo (resetArgs username password) order topo topo'.
Proof.
  intros Hs Hnd Hall. unfold resetPass. rewrite Hs.
  destruct (forRange_accepted (resetArgs username password)
              (resetPassNode username) (fun r => replyError r = None)
              (fun _ => True) (resetPassNode_accept username)
              order topo (EmptyString, stdout w) Hnd I)
    as (topo' & [resp out'] & Hrun & _ & Hsent).
  { intros a Ha. destruct (Hall a Ha) as (m & Hm & Hc & Hr). now exists m. }
  exists topo', out'. now rewrite Hrun.
Qed.

(** The reset loop, when it fails on [k]. *)
Lemma resetPass_Cluster_fails pre k post username password w topo mk e :
  store w = Cluster topo -> NoDup (pre ++ k :: post) ->
  (forall a, a ∈ pre ->
     exists m, topo !! a = Some m /\ answers (resetArgs username password) m) ->
  topo !! k = Some mk -> failsWith (resetArgs username password) mk e ->
  exists topo' out' response,
    resetPass (pre ++ k :: post) username password w
    = (mkWorld (producer w) (Cluster topo') out' (errorLog w),
       Err ("cluster reset of password for user " +:+ username +:+ " on node "
            +:+ k +:+ " failed, REDIS response " +:+ response
            +:+ ", error, " +:+ e))
    /\ sentTo (resetArgs username password) (pre ++ [k]) topo topo'.
Proof.
  intros Hs Hnd Hall Hmk [Hck Hfail]. unfold resetPass. rewrite Hs.
  destruct (forRange_stops_at (resetArgs username password)
              (resetPassNode username) (fun r => replyError r = None)
              (fun _ => True) (resetPassNode_accept username)
              pre k post topo (EmptyString, stdout w) mk Hnd I)
    as (topo' & v0 & Hrun & _ & Hsent); try assumption.
  { intros v0 _. now rewrite (resetPassNode_fail _ _ _ _ _ Hfail). }
  rewrite (resetPassNode_fail _ _ _ _ _ Hfail) in Hrun.
  rewrite Hrun. destruct (fst (resetPassNode username k v0 _)) as [resp out'].
  now exists topo', out', (rcvString (fst v0) (replyTo (resetArgs username password) mk)).
Qed.

(** The loop of [DeleteUser], when it fails on [k]. *)
Lemma deleteUser_Cluster_fails pre k post username w topo mk e :
  store w = Cluster topo -> NoDup (pre ++ k :: post) ->
  (forall a, a ∈ pre ->
     exists m, topo !! a = Some m /\ answers ["ACL"; "DELUSER"; username] m) ->
  topo !! k = Some mk -> failsWith ["ACL"; "DELUSER"; username] mk e ->
  exists topo' response,
    deleteUser (pre ++ k :: post) username w
    = (setStore w (Cluster topo'),
       Err ("response from cluster node " +:+ k +:+ " for DeleteUser: "
            +:+ response +:+ ", error: " +:+ e))
    /\ sentTo ["ACL"; "DELUSER"; username] (pre ++ [k]) topo topo'.
Proof.
  intros Hs Hnd Hall Hmk [Hck Hfail]. unfold deleteUser. rewrite Hs.
  destruct (forRange_stops_at ["ACL"; "DELUSER"; username] deleteUserNode
              (fun r => replyError r = None) (fun _ => True) deleteUserNode_accept
              pre k post topo EmptyString mk Hnd I)
    as (topo' & v0 & Hrun & _ & Hsent); try assumption.
  { intros v0 _. now rewrite (deleteUserNode_fail _ _ _ _ Hfail). }
  rewrite (deleteUserNode_fail _ _ _ _ Hfail) in Hrun. rewrite Hrun.
  now exists topo', (rcvString v0 (replyTo ["ACL"; "DELUSER"; username] mk)).
Qed.

(** The loop of [newUser], when it fails on [k]. *)
Lemma newUser_Cluster_fails pre k post ctx username req w topo aclargs mk e :
  newUserArgs username req = Ok aclargs ->
  store w = Cluster topo -> NoDup (pre ++ k :: post) ->
  (forall a, a ∈ pre ->
     exists m, topo !! a = Some m /\ answers ("ACL" :: aclargs) m) ->
  topo !! k = Some mk -> failsWith ("ACL" :: aclargs) mk e ->
  exists topo',
    store (fst (newUser (pre ++ k :: post) ctx username req w)) = Cluster topo'
    /\ snd (newUser (pre ++ k :: post) ctx username req w) = Err e
    /\ sentTo ("ACL" :: aclargs) (pre ++ [k]) topo topo'.
Proof.
  intros Hargs Hs Hnd Hall Hmk [Hck Hfail]. unfold newUser. rewrite Hargs, Hs.
  destruct (forRange_stops_at ("ACL" :: aclargs) newUserNode
              (fun r => replyError r = None) (fun _ => True) newUserNode_accept
              pre k post topo (EmptyString, stdout w) mk Hnd I)
    as (topo' & v0 & Hrun & _ & Hsent); try assumption.
  { intros v0 _. now rewrite (newUserNode_fail _ _ _ _ Hfail). }
  rewrite (newUserNode_fail _ _ _ _ Hfail) in Hrun. rewrite Hrun.
  destruct (fst (newUserNode k v0 _)) as [resp out']. now exists topo'.
Qed.

End ClusterPhases.

(** ** C3: rotating the password of a user the store does not have *)

Section C3.

Import GoTime RedisServer Dbplugin Plugin Conditions.

Lemma deferredClose_frame w :
  store (deferredClose w) = store w /\ stdout (deferredClose w) = stdout w.
Proof.
  unfold deferredClose. destruct (Producer.close (producer w)) as [p [e|]];
    now split.
Qed.

(** [UpdateUser] with a new password, once the handle is obtained, is
    the two switches. *)
Lemma UpdateUser_rotate o1 o2 ctx req change w :
  UpdateUserRequest.Password req = Some change -> connects w ->
  store (fst (UpdateUser o1 o2 ctx req w))
  = store (fst (rotate o1 o2 (UpdateUserRequest.Username req) (NewPassword change) w))
  /\ snd (UpdateUser o1 o2 ctx req w)
     = snd (rotate o1 o2 (UpdateUserRequest.Username req) (NewPassword change) w).
Proof.
  intros Hpw Hc. unfold UpdateUser. rewrite Hpw.
  destruct (changeUserPassword_connected o1 o2 ctx (UpdateUserRequest.Username req)
              (NewPassword change) w Hc) as (p & _ & _ & _ & ->).
  cbn [fst snd]. split; [|reflexivity].
  now rewrite (proj1 (deferredClose_frame _)).
Qed.

(** The lookup on a single node that has no such user. *)
Lemma getUser_Pool_missing order username w n :
  store w = Pool n ->
  fault n (lookupCmd username) = None -> users n !! username = None ->
  getUser order username w
  = (mkWorld (producer w) (Pool (fst (exec n (lookupCmd username))))
       (stdout w) (errorLog w),
     Err (userNotFound username)).
Proof.
  intros Hs Hf Hu. unfold getUser. rewrite Hs.
  pose proof (exec_lookup_reply n username Hf) as Hr. rewrite Hu in Hr.
  unfold lookupCmd in *. destruct (exec n _) as [n' r]. simpl in Hr. now subst r.
Qed.

(** C3: when the store has no user of that name, [UpdateUser] with a
    new password fails with the user-not-found error and sends no
    reset: on a single node, the node receives the lookup and nothing
    else and its ACL table is as before; on a cluster where no member
    has the user, the error names the first member enumerated, and
    every member has its ACL table as before and has received at most
    the lookup.  (The handle is obtained and the lookups are
    answered.) *)
Theorem UpdateUser_absent_user order1 order2 ctx req change w :
  UpdateUserRequest.Password req = Some change -> connects w ->
  (forall n, store w = Pool n ->
     fault n (lookupCmd (UpdateUserRequest.Username req)) = None ->
     users n !! UpdateUserRequest.Username req = None ->
     snd (UpdateUser order1 order2 ctx req w)
     = Err (userNotFound (UpdateUserRequest.Username req))
     /\ exists n',
          store (fst (UpdateUser order1 order2 ctx req w)) = Pool n'
          /\ users n' = users n
          /\ received n'
             = received n ++ [lookupCmd (UpdateUserRequest.Username req)])
  /\
  (forall topo k others, store w = Cluster topo ->
     order1 = k :: others -> NoDup order1 -> is_Some (topo !! k) ->
     (forall a m, topo !! a = Some m ->
        clientNil m = false
        /\ fault (mnode m) (lookupCmd (UpdateUserRequest.Username req)) = None
        /\ users (mnode m) !! UpdateUserRequest.Username req = None) ->
     snd (UpdateUser order1 order2 ctx req w)
     = Err (userNotFoundOn k (UpdateUserRequest.Username req))
     /\ exists topo',
          store (fst (UpdateUser order1 order2 ctx req w)) = Cluster topo'
          /\ onlyLookedUp (UpdateUserRequest.Username req) topo topo').
Proof.
  intros Hpw Hc.
  destruct (UpdateUser_rotate order1 order2 ctx req change w Hpw Hc) as [-> ->].
  split.
  - intros n Hs Hf Hu. unfold rotate.
    rewrite (getUser_Pool_missing order1 _ w n Hs Hf Hu). cbn [fst snd store].
    split; [reflexivity|]. eexists. split; [reflexivity|].
    split; [apply exec_lookup_users|apply exec_received].
  - intros topo k others Hs -> Hnd [mk Hmk] Hall.
    destruct (Hall k mk Hmk) as (Hck & Hf & Hu).
    assert (Hmiss : misses (UpdateUserRequest.Username req) mk).
    { split; [exact Hck|]. unfold replyTo.
      now rewrite (exec_lookup_reply _ _ Hf), Hu. }
    destruct (getUser_Cluster_missing [] k others
                (UpdateUserRequest.Username req) w topo mk Hs Hnd)
      as (topo1 & out1 & Hrun & Hsent); try assumption.
    { intros a Ha. now apply elem_of_nil in Ha. }
    unfold rotate. cbn [app] in Hrun. rewrite Hrun. cbn [fst snd store].
    split; [reflexivity|]. exists topo1. split; [reflexivity|].
    now apply (sentTo_onlyLookedUp _ ([] ++ [k])).
Qed.

(** A single node holding ALICE only, asked to rotate BOB. *)
Lemma UpdateUser_absent_user_witness :
  snd (UpdateUser [] [] Scenario.noDeadline
         (UpdateUserRequest.mk "BOB" (Some (mkChangePassword "new")) None)
         (Scenario.onPool (Scenario.nodeWithAlice Scenario.noFault)))
  = Err "changeUserPassword for user BOB failed, user not found!".
Proof.
  destruct (UpdateUser_absent_user [] [] Scenario.noDeadline
              (UpdateUserRequest.mk "BOB" (Some (mkChangePassword "new")) None)
              (mkChangePassword "new")
              (Scenario.onPool (Scenario.nodeWithAlice Scenario.noFault))
              eq_refl (or_intror eq_refl)) as [Hpool _].
  destruct (Hpool (Scenario.nodeWithAlice Scenario.noFault) eq_refl eq_refl)
    as [Hres _].
  - vm_compute. reflexivity.
  - exact Hres.
Defined.

End C3.

(** ** C2: rotating a password on a cluster *)

Section C2.

Import GoTime RedisServer Dbplugin Plugin Conditions.

(** The first element of a list with a property. *)
Lemma split_first (f : string -> bool) (l : list string) :
  (exists a, a ∈ l /\ f a = true) ->
  exists pre k post,
    l = pre ++ k :: post /\ f k = true /\ forall a, a ∈ pre -> f a = false.
Proof.
  induction l as [|x l IH]; intros (a & Ha & Hfa).
  - now apply elem_of_nil in Ha.
  - destruct (f x) eqn:Hx.
    + exists [], x, l. repeat split; [exact Hx|].
      intros b Hb. now apply elem_of_nil in Hb.
    + destruct IH as (pre & k & post & -> & Hk & Hpre).
      { apply elem_of_cons in Ha as [->|Ha]; [congruence|eauto]. }
      exists (x :: pre), k, post. repeat split; [exact Hk|].
      intros b [->|Hb]%elem_of_cons; auto.
Qed.

(** When the lookups all find the user, the switches go on to the
    reset, on the topology the lookups left. *)
Lemma rotate_Cluster_found o1 o2 username password w topo :
  store w = Cluster topo -> NoDup o1 ->
  (forall a, a ∈ o1 -> exists m, topo !! a = Some m /\ finds username m) ->
  exists topo1 out1,
    rotate o1 o2 username password w
    = resetPass o2 username password
        (mkWorld (producer w) (Cluster topo1) out1 (errorLog w))
    /\ sentTo (lookupCmd username) o1 topo topo1.
Proof.
  intros Hs Hnd Hall.
  destruct (getUser_Cluster_all o1 username w topo Hs Hnd Hall)
    as (topo1 & out1 & Hrun & Hsent).
  exists topo1, out1. split; [|exact Hsent]. unfold rotate. now rewrite Hrun.
Qed.

(** A member that answered a command before the lookups answers it
    after them. *)
Lemma answers_after_lookups username visited topo topo1 args (l : list string) :
  sentTo (lookupCmd username) visited topo topo1 ->
  (forall a, a ∈ l -> exists m, topo !! a = Some m /\ answers args m) ->
  forall a, a ∈ l -> exists m1, topo1 !! a = Some m1 /\ answers args m1.
Proof.
  intros Hsent Hall a Ha. destruct (Hall a Ha) as (m & Hm & Hc & Hr).
  destruct (sentTo_lookup_answers username visited topo topo1 args a m Hsent Hm)
    as (m1 & Hm1 & Hc1 & Hr1).
  exists m1. split; [exact Hm1|]. split; congruence.
Qed.

(** The reset that fails on [k], after lookups that all found the
    user. *)
Lemma rotation_reset_fails order1 ctx req change w topo pre k post mk e :
  UpdateUserRequest.Password req = Some change -> connects w ->
  store w = Cluster topo ->
  NoDup order1 ->
  (forall a, a ∈ order1 ->
     exists m, topo !! a = Some m /\ finds (UpdateUserRequest.Username req) m) ->
  NoDup (pre ++ k :: post) ->
  (forall a, a ∈ pre ->
     exists m, topo !! a = Some m
               /\ answers (resetArgs (UpdateUserRequest.Username req)
                             (NewPassword change)) m) ->
  topo !! k = Some mk ->
  failsWith (resetArgs (UpdateUserRequest.Username req) (NewPassword change)) mk e ->
  exists response topo1 topo',
    snd (UpdateUser order1 (pre ++ k :: post) ctx req w)
    = Err ("cluster reset of password for user "
           +:+ UpdateUserRequest.Username req +:+ " on node " +:+ k
           +:+ " failed, REDIS response " +:+ response +:+ ", error, " +:+ e)
    /\ store (fst (UpdateUser order1 (pre ++ k :: post) ctx req w)) = Cluster topo'
    /\ sentTo (lookupCmd (UpdateUserRequest.Username req)) order1 topo topo1
    /\ sentTo (resetArgs (UpdateUserRequest.Username req) (NewPassword change))
         (pre ++ [k]) topo1 topo'.
Proof.
  intros Hpw Hc Hs Hnd1 Hfind Hnd2 Hans Hmk Hfail.
  destruct (UpdateUser_rotate order1 (pre ++ k :: post) ctx req change w Hpw Hc)
    as [-> ->].
  set (u := UpdateUserRequest.Username req) in *.
  set (pw := NewPassword change) in *.
  destruct (rotate_Cluster_found order1 (pre ++ k :: post) u pw w topo
              Hs Hnd1 Hfind) as (topo1 & out1 & -> & Hsent1).
  destruct (sentTo_lookup_answers u order1 topo topo1 (resetArgs u pw) k mk
              Hsent1 Hmk) as (mk1 & Hmk1 & Hck1 & Hr1).
  destruct (resetPass_Cluster_fails pre k post u pw
              (mkWorld (producer w) (Cluster topo1) out1 (errorLog w))
              topo1 mk1 e eq_refl Hnd2)
    as (topo' & out' & response & -> & Hsent2); try assumption.
  { now apply (answers_after_lookups u order1 topo topo1 _ pre Hsent1). }
  { destruct Hfail as [Hck Hr]. split; congruence. }
  now exists response, topo1, topo'.
Qed.

(** C2: [UpdateUser] with a new password on a cluster whose handle is
    obtained.
    - The lookup and the reset are each sent node by node: when every
      member enumerated has the user and answers the reset, the call
      succeeds, the lookup has gone to each member of the first
      enumeration and then the reset to each member of the second.
    - When the ACL table of some member lacks the user (and the
      members answer the lookup), the call fails with the
      user-not-found error of a member that lacks it; no reset has been
      sent: every member has its ACL table as before.
    - When the reset fails on member [k], the members enumerated before
      [k] stay as the reset left them: nothing is sent after the
      failure. *)
Theorem UpdateUser_cluster_rotation order1 order2 ctx req change w topo :
  UpdateUserRequest.Password req = Some change -> connects w ->
  store w = Cluster topo ->
  (NoDup order1 -> NoDup order2 ->
   (forall a, a ∈ order1 ->
      exists m, topo !! a = Some m /\ finds (UpdateUserRequest.Username req) m) ->
   (forall a, a ∈ order2 ->
      exists m, topo !! a = Some m
                /\ answers (resetArgs (UpdateUserRequest.Username req)
                              (NewPassword change)) m) ->
   snd (UpdateUser order1 order2 ctx req w) = Ok tt
   /\ exists topo1 topo',
        store (fst (UpdateUser order1 order2 ctx req w)) = Cluster topo'
        /\ sentTo (lookupCmd (UpdateUserRequest.Username req)) order1 topo topo1
        /\ sentTo (resetArgs (UpdateUserRequest.Username req) (NewPassword change))
             order2 topo1 topo')
  /\
  (enumerates order1 topo ->
   (forall a m, topo !! a = Some m ->
      answers (lookupCmd (UpdateUserRequest.Username req)) m) ->
   (exists a m, topo !! a = Some m
                /\ users (mnode m) !! UpdateUserRequest.Username req = None) ->
   exists k mk,
     topo !! k = Some mk
     /\ users (mnode mk) !! UpdateUserRequest.Username req = None
     /\ snd (UpdateUser order1 order2 ctx req w)
        = Err (userNotFoundOn k (UpdateUserRequest.Username req))
     /\ exists topo',
          store (fst (UpdateUser order1 order2 ctx req w)) = Cluster topo'
          /\ onlyLookedUp (UpdateUserRequest.Username req) topo topo')
  /\
  (forall pre k post mk e,
   NoDup order1 ->
   (forall a, a ∈ order1 ->
      exists m, topo !! a = Some m /\ finds (UpdateUserRequest.Username req) m) ->
   order2 = pre ++ k :: post -> NoDup order2 ->
   (forall a, a ∈ pre ->
      exists m, topo !! a = Some m
                /\ answers (resetArgs (UpdateUserRequest.Username req)
                              (NewPassword change)) m) ->
   topo !! k = Some mk ->
   failsWith (resetArgs (UpdateUserRequest.Username req) (NewPassword change)) mk e ->
   exists response topo1 topo',
     snd (UpdateUser order1 order2 ctx req w)
     = Err ("cluster reset of password for user "
            +:+ UpdateUserRequest.Username req +:+ " on node " +:+ k
            +:+ " failed, REDIS response " +:+ response +:+ ", error, " +:+ e)
     /\ store (fst (UpdateUser order1 order2 ctx req w)) = Cluster topo'
     /\ sentTo (lookupCmd (UpdateUserRequest.Username req)) order1 topo topo1
     /\ sentTo (resetArgs (UpdateUserRequest.Username req) (NewPassword change))
          (pre ++ [k]) topo1 topo').
Proof.
  intros Hpw Hc Hs.
  pose proof (UpdateUser_rotate order1 order2 ctx req change w Hpw Hc) as [Hst Hres].
  set (u := UpdateUserRequest.Username req) in *.
  set (pw := NewPassword change) in *.
  split; [|split].
  - rewrite Hst, Hres. intros Hnd1 Hnd2 Hfind Hans.
    destruct (rotate_Cluster_found order1 order2 u pw w topo Hs Hnd1 Hfind)
      as (topo1 & out1 & -> & Hsent1).
    destruct (resetPass_Cluster_all order2 u pw
                (mkWorld (producer w) (Cluster topo1) out1 (errorLog w))
                topo1 eq_refl Hnd2) as (topo' & out' & -> & Hsent2).
    { now apply (answers_after_lookups u order1 topo topo1 _ order2 Hsent1). }
    split; [reflexivity|]. now exists topo1, topo'.
  - rewrite Hst, Hres. intros [Hnd Hdom] Hans (a & m & Hm & Hnone).
    assert (Hnil : replyTo (lookupCmd u) m = ReplyNil).
    { apply misses_iff. destruct (Hans a m Hm) as [Hca Hra].
      repeat split; [exact Hca| |exact Hnone].
      now apply answered_no_fault. }
    destruct (split_first
                (fun a => match topo !! a with
                          | Some m => isNil (replyTo (lookupCmd u) m)
                          | None => false
                          end) order1) as (pre & k & post & -> & Hk & Hpre).
    { exists a. split; [apply Hdom; eauto|]. now rewrite Hm, Hnil. }
    destruct (topo !! k) as [mk|] eqn:Hmk; [|discriminate].
    assert (Hmiss : misses u mk).
    { split; [exact (proj1 (Hans k mk Hmk))|].
      now destruct (replyTo (lookupCmd u) mk). }
    destruct (getUser_Cluster_missing pre k post u w topo mk Hs Hnd)
      as (topo1 & out1 & Hrun & Hsent); try assumption.
    { intros b Hb. assert (Hb' : b ∈ pre ++ k :: post)
        by (apply elem_of_app; now left).
      apply Hdom in Hb' as [mb Hmb]. exists mb. split; [exact Hmb|].
      split; [exact (Hans b mb Hmb)|]. specialize (Hpre b Hb). rewrite Hmb in Hpre.
      intros Heq. now rewrite Heq in Hpre. }
    exists k, mk. split; [exact Hmk|].
    split; [exact (proj2 (proj2 (proj1 (misses_iff u mk) Hmiss)))|].
    unfold rotate. rewrite Hrun. split; [reflexivity|].
    exists topo1. split; [reflexivity|].
    now apply (sentTo_onlyLookedUp _ (pre ++ [k])).
  - intros pre k post mk e Hnd1 Hfind -> Hnd2 Hans Hmk Hfail.
    now apply (rotation_reset_fails order1 ctx req change w topo pre k post mk e).
Qed.

End C2.

(** The three-member cluster of the examples. *)

Section ScenarioFacts.

Import RedisServer Plugin Conditions.

Lemma order3_NoDup : NoDup Scenario.order3.
Proof.
  unfold Scenario.order3. repeat (apply NoDup_cons; split);
    [| |apply not_elem_of_nil|apply NoDup_nil_2].
  - intros [H|[H|H%elem_of_nil]%elem_of_cons]%elem_of_cons;
      [discriminate H|discriminate H|exact H].
  - intros [H|H%elem_of_nil]%elem_of_cons; [discriminate H|exact H].
Qed.

Lemma order3_enumerates na nb nc :
  enumerates Scenario.order3 (Scenario.cluster3 na nb nc).
Proof.
  split; [exact order3_NoDup|]. intros a.
  unfold Scenario.cluster3, Scenario.order3.
  rewrite !lookup_insert_is_Some', lookup_empty, !elem_of_cons, elem_of_nil.
  split.
  - intros [->|[->|[->|[]]]]; auto.
  - intros [->|[->|[->|H]]]; auto. now destruct H.
Qed.

Lemma order3_members na nb nc (P : member -> Prop) :
  P (Scenario.reachable na) -> P (Scenario.reachable nb) ->
  P (Scenario.reachable nc) ->
  forall a m, Scenario.cluster3 na nb nc !! a = Some m -> P m.
Proof.
  intros Ha Hb Hc a m. unfold Scenario.cluster3.
  rewrite !lookup_insert.
  repeat (case_decide; [now intros [= <-]|]).
  now rewrite lookup_empty.
Qed.

Lemma order3_lookup na nb nc :
  Scenario.cluster3 na nb nc !! Scenario.addrA = Some (Scenario.reachable na)
  /\ Scenario.cluster3 na nb nc !! Scenario.addrB = Some (Scenario.reachable nb)
  /\ Scenario.cluster3 na nb nc !! Scenario.addrC = Some (Scenario.reachable nc).
Proof.
  unfold Scenario.cluster3. rewrite !lookup_insert.
  repeat split; repeat (case_decide; try discriminate); reflexivity.
Qed.

Lemma order3_all na nb nc (P : member -> Prop) (l : list string) :
  P (Scenario.reachable na) -> P (Scenario.reachable nb) ->
  P (Scenario.reachable nc) ->
  (forall a, a ∈ l -> a ∈ Scenario.order3) ->
  forall a, a ∈ l -> exists m, Scenario.cluster3 na nb nc !! a = Some m /\ P m.
Proof.
  intros Ha Hb Hc Hl a Hin. destruct (order3_lookup na nb nc) as (La & Lb & Lc).
  apply Hl in Hin. unfold Scenario.order3 in Hin.
  apply elem_of_cons in Hin as [->|Hin]; [eauto|].
  apply elem_of_cons in Hin as [->|Hin]; [eauto|].
  apply list_elem_of_singleton in Hin as ->. eauto.
Qed.

End ScenarioFacts.

(** C2 at work, on three members.  ALICE is missing on the third
    member only: the rotation fails with the error of that member and
    no member has its ACL table changed.  ALICE is known to all and the
    second member rejects the reset: the rotation fails there, after
    the reset of the first member. *)
Lemma UpdateUser_cluster_rotation_witness :
  (exists k mk,
     Scenario.aliceOnTwo !! k = Some mk
     /\ RedisServer.users (RedisServer.mnode mk) !! "ALICE" = None
     /\ snd (Plugin.UpdateUser Scenario.order3 Scenario.order3 Scenario.noDeadline
               Scenario.rotateAlice (Scenario.onCluster Scenario.aliceOnTwo))
        = Err (Conditions.userNotFoundOn k "ALICE")
     /\ exists topo',
          Plugin.store
            (fst (Plugin.UpdateUser Scenario.order3 Scenario.order3
                    Scenario.noDeadline Scenario.rotateAlice
                    (Scenario.onCluster Scenario.aliceOnTwo)))
          = RedisServer.Cluster topo'
          /\ Conditions.onlyLookedUp "ALICE" Scenario.aliceOnTwo topo')
  /\
  (exists response topo1 topo',
     snd (Plugin.UpdateUser Scenario.order3
            ([Scenario.addrA] ++ Scenario.addrB :: [Scenario.addrC])
            Scenario.noDeadline Scenario.rotateAlice
            (Scenario.onCluster
               (Scenario.threeNodes Scenario.noFault Scenario.rejectsSetuser
                  Scenario.noFault Scenario.aliceTable)))
     = Err ("cluster reset of password for user ALICE on node "
            +:+ Scenario.addrB +:+ " failed, REDIS response " +:+ response
            +:+ ", error, " +:+ "ERR syntax")
     /\ Plugin.store
          (fst (Plugin.UpdateUser Scenario.order3
                  ([Scenario.addrA] ++ Scenario.addrB :: [Scenario.addrC])
                  Scenario.noDeadline Scenario.rotateAlice
                  (Scenario.onCluster
                     (Scenario.threeNodes Scenario.noFault Scenario.rejectsSetuser
                        Scenario.noFault Scenario.aliceTable))))
        = RedisServer.Cluster topo'
     /\ Conditions.sentTo (Conditions.lookupCmd "ALICE") Scenario.order3
          (Scenario.threeNodes Scenario.noFault Scenario.rejectsSetuser
             Scenario.noFault Scenario.aliceTable) topo1
     /\ Conditions.sentTo (Plugin.resetArgs "ALICE" "new")
          ([Scenario.addrA] ++ [Scenario.addrB]) topo1 topo').
Proof.
  split.
  - apply (UpdateUser_cluster_rotation Scenario.order3 Scenario.order3
             Scenario.noDeadline Scenario.rotateAlice
             (Dbplugin.mkChangePassword "new")
             (Scenario.onCluster Scenario.aliceOnTwo) Scenario.aliceOnTwo
             eq_refl (or_intror eq_refl) eq_refl).
    + apply order3_enumerates.
    + apply order3_members; split; vm_compute; reflexivity.
    + exists Scenario.addrC, (Scenario.reachable Scenario.emptyNode).
      split; vm_compute; reflexivity.
  - apply (proj2 (proj2
             (UpdateUser_cluster_rotation Scenario.order3
                ([Scenario.addrA] ++ Scenario.addrB :: [Scenario.addrC])
                Scenario.noDeadline Scenario.rotateAlice
                (Dbplugin.mkChangePassword "new")
                (Scenario.onCluster
                   (Scenario.threeNodes Scenario.noFault Scenario.rejectsSetuser
                      Scenario.noFault Scenario.aliceTable))
                (Scenario.threeNodes Scenario.noFault Scenario.rejectsSetuser
                   Scenario.noFault Scenario.aliceTable)
                eq_refl (or_intror eq_refl) eq_refl))
             [Scenario.addrA] Scenario.addrB [Scenario.addrC]
             (Scenario.reachable
                (RedisServer.mkNode Scenario.aliceTable Scenario.rejectsSetuser []))
             "ERR syntax").
    + exact order3_NoDup.
    + apply order3_all;
        [split; [split; vm_compute; reflexivity | vm_compute; discriminate] ..
        | auto].
    + reflexivity.
    + exact order3_NoDup.
    + intros a ->%list_elem_of_singleton. eexists.
      split; [exact (proj1 (order3_lookup _ _ _))|].
      split; vm_compute; reflexivity.
    + exact (proj1 (proj2 (order3_lookup _ _ _))).
    + split; vm_compute; reflexivity.
Defined.

(** ** C5: a command that fails on one member of a cluster *)

Section C5.

Import GoStrings GoTime RedisServer Dbplugin Plugin Conditions.

(** C5 (as amended): a cluster loop stops at the member [k] on which
    its command fails.  The command has been sent to the members
    enumerated before [k], which stay as it left them, and to [k]; the
    other members, those enumerated after [k] among them, are not sent
    it and for [NewUser], [DeleteUser] and the lookup of [UpdateUser]
    are as they were before the call.  In the reset of [UpdateUser] the
    members after [k] have received the lookup, sent to every member
    before the first reset.  The error returned by [DeleteUser] and
    [UpdateUser] names [k]; [NewUser] fails. *)
Theorem cluster_loop_stops_at_failure ctx w topo pre k post mk :
  connects w -> store w = Cluster topo ->
  NoDup (pre ++ k :: post) -> topo !! k = Some mk ->
  (forall userUUID now req username aclargs e,
     generates userUUID now req username ->
     newUserArgs username req = Ok aclargs ->
     (forall a, a ∈ pre ->
        exists m, topo !! a = Some m /\ answers ("ACL" :: aclargs) m) ->
     failsWith ("ACL" :: aclargs) mk e ->
     isErr (snd (NewUser userUUID now (pre ++ k :: post) ctx req w)) = true
     /\ exists topo',
          store (fst (NewUser userUUID now (pre ++ k :: post) ctx req w))
          = Cluster topo'
          /\ sentTo ("ACL" :: aclargs) (pre ++ [k]) topo topo')
  /\
  (forall req e,
     (forall a, a ∈ pre ->
        exists m, topo !! a = Some m
                  /\ answers ["ACL"; "DELUSER"; DeleteUserRequest.Username req] m) ->
     failsWith ["ACL"; "DELUSER"; DeleteUserRequest.Username req] mk e ->
     exists response topo',
       snd (DeleteUser (pre ++ k :: post) ctx req w)
       = Err ("response from cluster node " +:+ k +:+ " for DeleteUser: "
              +:+ response +:+ ", error: " +:+ e)
       /\ store (fst (DeleteUser (pre ++ k :: post) ctx req w)) = Cluster topo'
       /\ sentTo ["ACL"; "DELUSER"; DeleteUserRequest.Username req]
            (pre ++ [k]) topo topo')
  /\
  (forall order2 req change e,
     UpdateUserRequest.Password req = Some change ->
     (forall a, a ∈ pre ->
        exists m, topo !! a = Some m /\ finds (UpdateUserRequest.Username req) m) ->
     failsWith (lookupCmd (UpdateUserRequest.Username req)) mk e ->
     exists topo',
       snd (UpdateUser (pre ++ k :: post) order2 ctx req w)
       = Err ("reset of passwords for user " +:+ UpdateUserRequest.Username req
              +:+ " failed in changeUserPassword on cluster member "
              +:+ k +:+ ": " +:+ e)
       /\ store (fst (UpdateUser (pre ++ k :: post) order2 ctx req w)) = Cluster topo'
       /\ sentTo (lookupCmd (UpdateUserRequest.Username req)) (pre ++ [k]) topo topo')
  /\
  (forall order1 req change e,
     UpdateUserRequest.Password req = Some change ->
     NoDup order1 ->
     (forall a, a ∈ order1 ->
        exists m, topo !! a = Some m /\ finds (UpdateUserRequest.Username req) m) ->
     (forall a, a ∈ pre ->
        exists m, topo !! a = Some m
                  /\ answers (resetArgs (UpdateUserRequest.Username req)
                                (NewPassword change)) m) ->
     failsWith (resetArgs (UpdateUserRequest.Username req) (NewPassword change)) mk e ->
     exists response topo1 topo',
       snd (UpdateUser order1 (pre ++ k :: post) ctx req w)
       = Err ("cluster reset of password for user "
              +:+ UpdateUserRequest.Username req +:+ " on node " +:+ k
              +:+ " failed, REDIS response " +:+ response +:+ ", error, " +:+ e)
       /\ store (fst (UpdateUser order1 (pre ++ k :: post) ctx req w)) = Cluster topo'
       /\ sentTo (lookupCmd (UpdateUserRequest.Username req)) order1 topo topo1
       /\ sentTo (resetArgs (UpdateUserRequest.Username req) (NewPassword change))
            (pre ++ [k]) topo1 topo').
Proof.
  intros Hc Hs Hnd Hmk. split; [|split; [|split]].
  - intros userUUID now req username aclargs e Hgen Hargs Hans Hfail.
    destruct (NewUser_generated _ _ (pre ++ k :: post) ctx _ _ _ Hgen Hc)
      as (-> & _ & ->).
    destruct (newUser_Cluster_fails pre k post ctx username req w topo aclargs mk e
                Hargs Hs Hnd Hans Hmk Hfail) as (topo' & Hst & -> & Hsent).
    split; [reflexivity|]. now exists topo'.
  - intros req e Hans Hfail.
    destruct (DeleteUser_connected (pre ++ k :: post) ctx req w Hc)
      as (p & _ & _ & _ & ->).
    destruct (deleteUser_Cluster_fails pre k post (DeleteUserRequest.Username req)
                w topo mk e Hs Hnd Hans Hmk Hfail)
      as (topo' & response & -> & Hsent).
    exists response, topo'. cbn [fst snd].
    rewrite (proj1 (deferredClose_frame _)). now repeat split.
  - intros order2 req change e Hpw Hfind Hfail.
    destruct (UpdateUser_rotate (pre ++ k :: post) order2 ctx req change w Hpw Hc)
      as [-> ->].
    destruct (getUser_Cluster_fails pre k post (UpdateUserRequest.Username req)
                w topo mk e Hs Hnd Hfind Hmk Hfail)
      as (topo1 & out1 & Hrun & Hsent).
    exists topo1. unfold rotate. rewrite Hrun. now repeat split.
  - intros order1 req change e Hpw Hnd1 Hfind Hans Hfail.
    now apply (rotation_reset_fails order1 ctx req change w topo pre k post mk e).
Qed.

End C5.

(** C5 at work: [ACL DELUSER] fails on the second of three members. *)
Lemma cluster_loop_stops_at_failure_witness :
  exists response topo',
    snd (Plugin.DeleteUser Scenario.order3 Scenario.noDeadline
           (Dbplugin.DeleteUserRequest.mk "ALICE")
           (Scenario.onCluster
              (Scenario.threeNodes Scenario.noFault Scenario.rejectsDeluser
                 Scenario.noFault Scenario.aliceTable)))
    = Err ("response from cluster node " +:+ Scenario.addrB
           +:+ " for DeleteUser: " +:+ response +:+ ", error: " +:+ "ERR denied")
    /\ Plugin.store
         (fst (Plugin.DeleteUser Scenario.order3 Scenario.noDeadline
                 (Dbplugin.DeleteUserRequest.mk "ALICE")
                 (Scenario.onCluster
                    (Scenario.threeNodes Scenario.noFault Scenario.rejectsDeluser
                       Scenario.noFault Scenario.aliceTable))))
       = RedisServer.Cluster topo'
    /\ Conditions.sentTo ["ACL"; "DELUSER"; "ALICE"]
         ([Scenario.addrA] ++ [Scenario.addrB])
         (Scenario.threeNodes Scenario.noFault Scenario.rejectsDeluser
            Scenario.noFault Scenario.aliceTable) topo'.
Proof.
  destruct (cluster_loop_stops_at_failure Scenario.noDeadline
              (Scenario.onCluster
                 (Scenario.threeNodes Scenario.noFault Scenario.rejectsDeluser
                    Scenario.noFault Scenario.aliceTable))
              (Scenario.threeNodes Scenario.noFault Scenario.rejectsDeluser
                 Scenario.noFault Scenario.aliceTable)
              [Scenario.addrA] Scenario.addrB [Scenario.addrC]
              (Scenario.reachable
                 (RedisServer.mkNode Scenario.aliceTable Scenario.rejectsDeluser [])))
    as (_ & Hdel & _).
  - right. reflexivity.
  - reflexivity.
  - exact order3_NoDup.
  - vm_compute. reflexivity.
  - apply (Hdel (Dbplugin.DeleteUserRequest.mk "ALICE") "ERR denied").
    + intros a ->%list_elem_of_singleton. eexists.
      split; [vm_compute; reflexivity|]. split; vm_compute; reflexivity.
    + split; vm_compute; reflexivity.
Defined.

(** C5 as stated fails, twice.  [NewUser] on three members of which
    the second rejects the command returns the error of the member as
    it is, which does not name the member.  And when the reset of
    [UpdateUser] fails on the second member, the third, enumerated
    after it, has been sent a command: the lookup. *)
Lemma cluster_failure_not_as_stated :
  snd (Plugin.NewUser (Ok Scenario.uuid) Scenario.unixNow Scenario.order3
         Scenario.noDeadline (Scenario.request "token" "my-role" [] "pw")
         (Scenario.onCluster
            (Scenario.threeNodes Scenario.noFault Scenario.rejectsSetuser
               Scenario.noFault ∅)))
  = Err "ERR syntax"
  /\ GoStrings.Contains "ERR syntax" Scenario.addrB = false
  /\ snd (Plugin.UpdateUser Scenario.order3 Scenario.order3 Scenario.noDeadline
            Scenario.rotateAlice
            (Scenario.onCluster
               (Scenario.threeNodes Scenario.noFault Scenario.rejectsSetuser
                  Scenario.noFault Scenario.aliceTable)))
     = Err ("cluster reset of password for user ALICE on node " +:+ Scenario.addrB
            +:+ " failed, REDIS response OK, error, ERR syntax")
  /\ exists topo' third,
       Plugin.store
         (fst (Plugin.UpdateUser Scenario.order3 Scenario.order3
                 Scenario.noDeadline Scenario.rotateAlice
                 (Scenario.onCluster
                    (Scenario.threeNodes Scenario.noFault Scenario.rejectsSetuser
                       Scenario.noFault Scenario.aliceTable))))
       = RedisServer.Cluster topo'
       /\ topo' !! Scenario.addrC = Some third
       /\ RedisServer.received (RedisServer.mnode third)
          = [["ACL"; "GETUSER"; "ALICE"]].
Proof.
  split; [vm_compute; reflexivity|].
  split; [vm_compute; reflexivity|].
  split; [vm_compute; reflexivity|].
  eexists. eexists. split; [vm_compute; reflexivity|].
  split; vm_compute; reflexivity.
Qed.

(** ** C10: the error of [Cluster.Client] *)

Section C10.

Import GoStrings GoTime RedisServer Dbplugin Plugin Conditions.

Lemma nodeDo_forgetErr topo a args :
  nodeDo (forgetErr <$> topo) a args
  = match nodeDo topo a args with
    | Ok (topo', r) => Ok (forgetErr <$> topo', r)
    | Err e => Err e
    | Panic m => Panic m
    end.
Proof.
  unfold nodeDo, Client, setNode. rewrite lookup_fmap.
  destruct (topo !! a) as [m|] eqn:Hm; simpl; [|reflexivity].
  destruct (clientNil m); [reflexivity|].
  destruct (exec (mnode m) args) as [n' r].
  now rewrite fmap_insert.
Qed.

Lemma onNode_forgetErr {V} args (rest : string -> V -> reply -> V * outcome unit)
  a topo v :
  onNode args rest a (forgetErr <$> topo, v)
  = (forgetErr <$> fst (fst (onNode args rest a (topo, v))),
     snd (fst (onNode args rest a (topo, v))),
     snd (onNode args rest a (topo, v))).
Proof.
  unfold onNode. rewrite nodeDo_forgetErr.
  destruct (nodeDo topo a args) as [[topo' r]|e|m]; try reflexivity.
  now destruct (rest a v r).
Qed.

(** A loop on the topology with the errors erased is the loop on the
    topology, with the errors erased afterwards. *)
Lemma forRange_forgetErr {V} args (rest : string -> V -> reply -> V * outcome unit)
  order : forall topo v,
  forRange (onNode args rest) order (forgetErr <$> topo, v)
  = (forgetErr <$> fst (fst (forRange (onNode args rest) order (topo, v))),
     snd (fst (forRange (onNode args rest) order (topo, v))),
     snd (forRange (onNode args rest) order (topo, v))).
Proof.
  induction order as [|a order IH]; intros topo v; [reflexivity|].
  rewrite !forRange_cons, onNode_forgetErr.
  destruct (onNode args rest a (topo, v)) as [[topo' v'] [[]|e|m]];
    cbn [fst snd]; [apply IH|reflexivity|reflexivity].
Qed.

Lemma newUser_forgetErrors order ctx username req w :
  newUser order ctx username req (forgetErrors w)
  = (forgetErrors (fst (newUser order ctx username req w)),
     snd (newUser order ctx username req w)).
Proof.
  unfold newUser. destruct (newUserArgs username req) as [aclargs|e|m];
    try reflexivity.
  destruct w as [p [n|topo] o l]; unfold forgetErrors; cbn [store stdout producer errorLog].
  - destruct (exec n _) as [n' r]. now destruct (replyError r).
  - rewrite forRange_forgetErr.
    now destruct (forRange _ order (topo, _)) as [[topo' [resp out]] r].
Qed.

Lemma deleteUser_forgetErrors order username w :
  deleteUser order username (forgetErrors w)
  = (forgetErrors (fst (deleteUser order username w)),
     snd (deleteUser order username w)).
Proof.
  unfold deleteUser.
  destruct w as [p [n|topo] o l]; unfold forgetErrors; cbn [store stdout producer errorLog].
  - destruct (exec n _) as [n' r]. now destruct (replyError r).
  - rewrite forRange_forgetErr.
    now destruct (forRange _ order (topo, _)) as [[topo' resp] r].
Qed.

Lemma getUser_forgetErrors order username w :
  getUser order username (forgetErrors w)
  = (forgetErrors (fst (getUser order username w)),
     snd (getUser order username w)).
Proof.
  unfold getUser.
  destruct w as [p [n|topo] o l]; unfold forgetErrors; cbn [store stdout producer errorLog].
  - destruct (exec n _) as [n' r]. destruct (replyError r); [reflexivity|].
    now destruct (rcvMaybeNil false r).
  - rewrite forRange_forgetErr.
    now destruct (forRange _ order (topo, _)) as [[topo' [mn out]] r].
Qed.

Lemma resetPass_forgetErrors order username password w :
  resetPass order username password (forgetErrors w)
  = (forgetErrors (fst (resetPass order username password w)),
     snd (resetPass order username password w)).
Proof.
  unfold resetPass.
  destruct w as [p [n|topo] o l]; unfold forgetErrors; cbn [store stdout producer errorLog].
  - destruct (exec n _) as [n' r]. now destruct (replyError r).
  - rewrite forRange_forgetErr.
    now destruct (forRange _ order (topo, _)) as [[topo' [resp out]] r].
Qed.

Lemma rotate_forgetErrors o1 o2 username password w :
  rotate o1 o2 username password (forgetErrors w)
  = (forgetErrors (fst (rotate o1 o2 username password w)),
     snd (rotate o1 o2 username password w)).
Proof.
  unfold rotate. rewrite getUser_forgetErrors.
  destruct (getUser o1 username w) as [w1 [[]|e|m]]; cbn [fst snd];
    [apply resetPass_forgetErrors|reflexivity|reflexivity].
Qed.

Lemma getConnection_forgetErrors ctx w :
  getConnection ctx (forgetErrors w)
  = (forgetErrors (fst (getConnection ctx w)),
     match snd (getConnection ctx w) with
     | Ok db => Ok (store (forgetErrors w))
     | Err e => Err e
     | Panic m => Panic m
     end).
Proof.
  unfold getConnection. cbn [forgetErrors producer].
  now destruct (Producer.Connection (producer w)) as [p [[]|e|m]].
Qed.

Lemma deferredClose_forgetErrors w :
  deferredClose (forgetErrors w) = forgetErrors (deferredClose w).
Proof.
  unfold deferredClose. cbn [forgetErrors producer].
  now destruct (Producer.close (producer w)) as [p [e|]].
Qed.

(** C10: in every cluster loop of [NewUser], [UpdateUser] and
    [DeleteUser] the error returned by [Cluster.Client] is overwritten
    before it is read.  An operation run on the state in which these
    errors are erased (every lookup returning a nil error with the same
    client) returns what it returns on the state itself, and ends in
    the same state, errors erased: the error of the lookup reaches
    neither the caller nor the store. *)
Theorem client_error_discarded w :
  (forall userUUID now order ctx req,
     NewUser userUUID now order ctx req (forgetErrors w)
     = (forgetErrors (fst (NewUser userUUID now order ctx req w)),
        snd (NewUser userUUID now order ctx req w)))
  /\ (forall order1 order2 ctx req,
        UpdateUser order1 order2 ctx req (forgetErrors w)
        = (forgetErrors (fst (UpdateUser order1 order2 ctx req w)),
           snd (UpdateUser order1 order2 ctx req w)))
  /\ (forall order ctx req,
        DeleteUser order ctx req (forgetErrors w)
        = (forgetErrors (fst (DeleteUser order ctx req w)),
           snd (DeleteUser order ctx req w))).
Proof.
  split; [|split].
  - intros userUUID now order ctx req. unfold NewUser.
    destruct (Credsutil.GenerateUsername _ _ _) as [name|e|m]; try reflexivity.
    rewrite getConnection_forgetErrors.
    destruct (getConnection ctx w) as [w1 [db|e|m]]; cbn [fst snd];
      try reflexivity.
    rewrite newUser_forgetErrors.
    now destruct (newUser order ctx (ToUpper name) req w1) as [w2 [[]|e|m]].
  - intros o1 o2 ctx req. unfold UpdateUser.
    destruct (UpdateUserRequest.Password req) as [change|]; [|reflexivity].
    unfold changeUserPassword. rewrite getConnection_forgetErrors.
    destruct (getConnection ctx w) as [w1 [db|e|m]]; cbn [fst snd];
      try reflexivity.
    rewrite rotate_forgetErrors.
    destruct (rotate o1 o2 _ _ w1) as [w2 r]; cbn [fst snd].
    now rewrite deferredClose_forgetErrors.
  - intros order ctx req. unfold DeleteUser.
    rewrite getConnection_forgetErrors.
    destruct (getConnection ctx w) as [w1 [db|e|m]]; cbn [fst snd];
      try reflexivity.
    rewrite deleteUser_forgetErrors.
    destruct (deleteUser order _ w1) as [w2 r]; cbn [fst snd].
    now rewrite deferredClose_forgetErrors.
Qed.

End C10.

(** ** Further properties *)

Section Further.

Import GoStrings GoTime RedisServer Dbplugin Plugin Conditions.

(** X2: [removeEmpty] returns, in order, the trimmed strings that are
    not empty. *)
Theorem removeEmpty_filter strs :
  removeEmpty strs
  = filter (fun s => s <> EmptyString) (map TrimSpace strs).
Proof.
  induction strs as [|s strs IH]; [reflexivity|].
  rewrite removeEmpty_cons, IH. cbn [map]. rewrite filter_cons.
  destruct (String.eqb_spec (TrimSpace s) EmptyString) as [He|Hne];
    destruct (decide (TrimSpace s <> EmptyString)); try reflexivity;
    contradiction.
Qed.

Lemma stripSpace_asciiSpace c s :
  asciiSpace c = true -> stripSpace spaceRunes (String c s) = Some s.
Proof.
  destruct c as [[] [] [] [] [] [] [] []]; intros H;
    try discriminate H; reflexivity.
Qed.

Lemma trimLeftN_blank s : forall n,
  isBlank s = true -> (String.length s <= n)%nat ->
  trimLeftN n spaceRunes s = EmptyString.
Proof.
  induction s as [|c s IH]; intros n Hb Hn.
  - now destruct n.
  - simpl in Hb. apply andb_prop in Hb as [Hc Hs].
    destruct n as [|n]; [simpl in Hn; lia|].
    cbn [trimLeftN]. rewrite (stripSpace_asciiSpace c s Hc).
    apply IH; [exact Hs|simpl in Hn; lia].
Qed.

(** A string of ASCII blanks is trimmed to the empty string, so a
    statement of blanks is one [removeEmpty] drops. *)
Lemma TrimSpace_blank s : isBlank s = true -> TrimSpace s = EmptyString.
Proof.
  intros Hb. unfold TrimSpace, TrimLeftSpace.
  now rewrite (trimLeftN_blank s (String.length s) Hb).
Qed.

Lemma TrimSpace_blank_witness : TrimSpace "   " = EmptyString.
Proof. apply (TrimSpace_blank "   "). reflexivity. Defined.

(** X1: when [Cluster.Client] gives [DeleteUser] a nil client for
    member [k] (with whatever error), the call on the nil client
    panics: the error is not returned.  The deferred [close] runs all
    the same. *)
Theorem DeleteUser_nil_client_panics ctx w topo pre k post req mk :
  connects w -> store w = Cluster topo ->
  NoDup pre -> k ∉ pre ->
  (forall a, a ∈ pre ->
     exists m, topo !! a = Some m
               /\ answers ["ACL"; "DELUSER"; DeleteUserRequest.Username req] m) ->
  topo !! k = Some mk -> clientNil mk = true ->
  snd (DeleteUser (pre ++ k :: post) ctx req w) = Panic nilDereference
  /\ Producer.closeCalls (producer (fst (DeleteUser (pre ++ k :: post) ctx req w)))
     = S (Producer.closeCalls (producer w)).
Proof.
  intros Hc Hs Hnd Hk Hans Hmk Hnil.
  destruct (DeleteUser_connected (pre ++ k :: post) ctx req w Hc)
    as (p & Hp & Hce & Hn & ->).
  cbn [fst snd]. rewrite (deferredClose_cached _ _ _ _ Hp).
  cbn [producer Producer.closeCalls]. split; [|now rewrite Hn].
  unfold deleteUser. rewrite Hs.
  destruct (forRange_panics_at ["ACL"; "DELUSER"; DeleteUserRequest.Username req]
              deleteUserNode (fun r => replyError r = None) (fun _ => True)
              deleteUserNode_accept pre k post topo EmptyString Hnd I)
    as (topo' & v0 & -> & _); try assumption; [|reflexivity].
  right. now exists mk.
Qed.

(** The second of three members has no client. *)
Lemma DeleteUser_nil_client_panics_witness :
  snd (DeleteUser Scenario.order3 Scenario.noDeadline
         (DeleteUserRequest.mk "ALICE")
         (Scenario.onCluster
            (<[Scenario.addrB :=
                 mkMember Scenario.emptyNode true (Some "unknown address")]>
               Scenario.aliceOnTwo)))
  = Panic nilDereference.
Proof.
  apply (DeleteUser_nil_client_panics Scenario.noDeadline
           (Scenario.onCluster
              (<[Scenario.addrB :=
                   mkMember Scenario.emptyNode true (Some "unknown address")]>
                 Scenario.aliceOnTwo))
           (<[Scenario.addrB :=
                mkMember Scenario.emptyNode true (Some "unknown address")]>
              Scenario.aliceOnTwo)
           [Scenario.addrA] Scenario.addrB [Scenario.addrC]
           (DeleteUserRequest.mk "ALICE")
           (mkMember Scenario.emptyNode true (Some "unknown address"))).
  - right. reflexivity.
  - reflexivity.
  - apply NoDup_singleton.
  - intros H%list_elem_of_singleton. discriminate H.
  - intros a ->%list_elem_of_singleton. eexists.
    split; [vm_compute; reflexivity|]. split; vm_compute; reflexivity.
  - vm_compute. reflexivity.
  - reflexivity.
Defined.

Lemma DeleteUser_dialError order ctx req w :
  Producer.dialError (producer (fst (DeleteUser order ctx req w)))
  = Producer.dialError (producer w).
Proof.
  unfold DeleteUser. pose proof (getConnection_dialError ctx w) as Hd.
  destruct (getConnection ctx w) as [[p1 s1 o1 l1] [db|e|m]];
    cbn [fst snd producer] in *; try exact Hd.
  rewrite (deleteUser_frame order _ p1 s1 o1 l1 p1 l1).
  unfold deferredClose, Producer.close. cbn [producer setProducer].
  destruct (Producer.cached p1), (Producer.closeError p1); exact Hd.
Qed.

Lemma exec_deluser_gone n username :
  fault n ["ACL"; "DELUSER"; username] = None ->
  users (fst (exec n ["ACL"; "DELUSER"; username])) !! username = None.
Proof.
  intros Hf. unfold exec. rewrite Hf. cbn [answer].
  destruct (users n !! username) eqn:Hu; cbn [fst users];
    [apply lookup_delete_eq|exact Hu].
Qed.

(** X3: on a single node that answers both commands, deleting a user
    and then rotating its password fails with the user-not-found error
    (connections can be established: the second call dials again after
    the close of the first). *)
Theorem rotate_after_delete order1 order2 order ctx req change w n :
  UpdateUserRequest.Password req = Some change ->
  Producer.dialError (producer w) = None ->
  store w = Pool n ->
  fault n ["ACL"; "DELUSER"; UpdateUserRequest.Username req] = None ->
  fault n (lookupCmd (UpdateUserRequest.Username req)) = None ->
  snd (DeleteUser order ctx (DeleteUserRequest.mk (UpdateUserRequest.Username req)) w)
  = Ok tt
  /\ snd (UpdateUser order1 order2 ctx req
            (fst (DeleteUser order ctx
                    (DeleteUserRequest.mk (UpdateUserRequest.Username req)) w)))
     = Err (userNotFound (UpdateUserRequest.Username req)).
Proof.
  intros Hpw Hdial Hs Hfd Hfl.
  assert (Hc : connects w) by (right; exact Hdial).
  set (u := UpdateUserRequest.Username req) in *.
  pose proof (DeleteUser_dialError order ctx (DeleteUserRequest.mk u) w) as Hd.
  destruct (DeleteUser_connected order ctx (DeleteUserRequest.mk u) w Hc)
    as (p & Hp & Hce & Hn & HD).
  assert (Hdel : deleteUser order u w
                 = (setStore w (Pool (fst (exec n ["ACL"; "DELUSER"; u]))), Ok tt)).
  { unfold deleteUser. rewrite Hs. unfold exec. rewrite Hfd. cbn [answer].
    now destruct (users n !! u). }
  cbn [DeleteUserRequest.Username] in HD. rewrite Hdel in HD. cbn [fst snd] in HD.
  rewrite HD in Hd |- *. cbn [fst snd] in Hd |- *. split; [reflexivity|].
  set (w' := deferredClose _) in *.
  assert (Hs' : store w' = Pool (fst (exec n ["ACL"; "DELUSER"; u]))).
  { subst w'. now rewrite (proj1 (deferredClose_frame _)). }
  assert (Hc' : connects w') by (right; congruence).
  destruct (UpdateUser_rotate order1 order2 ctx req change w' Hpw Hc') as [_ ->].
  unfold rotate. fold u.
  rewrite (getUser_Pool_missing order1 u w' _ Hs'); [reflexivity| |].
  - now rewrite exec_fault.
  - now apply exec_deluser_gone.
Qed.

(** ALICE, on a single node, deleted and then rotated. *)
Lemma rotate_after_delete_witness :
  snd (DeleteUser [] Scenario.noDeadline (DeleteUserRequest.mk "ALICE")
         (Scenario.onPool (Scenario.nodeWithAlice Scenario.noFault)))
  = Ok tt
  /\ snd (UpdateUser [] [] Scenario.noDeadline Scenario.rotateAlice
            (fst (DeleteUser [] Scenario.noDeadline (DeleteUserRequest.mk "ALICE")
                    (Scenario.onPool (Scenario.nodeWithAlice Scenario.noFault)))))
     = Err (userNotFound "ALICE").
Proof.
  apply (rotate_after_delete [] [] [] Scenario.noDeadline Scenario.rotateAlice
           (mkChangePassword "new")
           (Scenario.onPool (Scenario.nodeWithAlice Scenario.noFault))
           (Scenario.nodeWithAlice Scenario.noFault)).
  - reflexivity.
  - reflexivity.
  - reflexivity.
  - reflexivity.
  - reflexivity.
Defined.

(** X4: on a single node that has the user and answers, [UpdateUser]
    with a new password succeeds; the node receives the lookup and then
    the reset, and the user is left with the new password only, enabled
    or not and with the rules it had. *)
Theorem UpdateUser_pool_rotates order1 order2 ctx req change w n entry :
  UpdateUserRequest.Password req = Some change -> connects w ->
  store w = Pool n ->
  fault n (lookupCmd (UpdateUserRequest.Username req)) = None ->
  fault n (resetArgs (UpdateUserRequest.Username req) (NewPassword change)) = None ->
  users n !! UpdateUserRequest.Username req = Some entry ->
  snd (UpdateUser order1 order2 ctx req w) = Ok tt
  /\ exists n',
       store (fst (UpdateUser order1 order2 ctx req w)) = Pool n'
       /\ users n'
          = <[UpdateUserRequest.Username req :=
                mkUser (enabled entry) [NewPassword change] (rules entry)]> (users n)
       /\ received n'
          = received n ++ [lookupCmd (UpdateUserRequest.Username req);
                           resetArgs (UpdateUserRequest.Username req)
                             (NewPassword change)].
Proof.
  intros Hpw Hc Hs Hfl Hfr Hu.
  destruct (UpdateUser_rotate order1 order2 ctx req change w Hpw Hc) as [-> ->].
  set (u := UpdateUserRequest.Username req) in *.
  set (pw := NewPassword change) in *.
  unfold rotate, getUser. rewrite Hs.
  pose proof (exec_lookup_reply n u Hfl) as Hr. rewrite Hu in Hr.
  pose proof (exec_lookup_users n u) as Hu1.
  pose proof (exec_received n (lookupCmd u)) as Hrc1.
  pose proof (exec_fault n (lookupCmd u)) as Hf1.
  unfold lookupCmd in *.
  destruct (exec n ["ACL"; "GETUSER"; u]) as [n1 r]. cbn [fst snd] in *. subst r.
  cbn [replyError rcvMaybeNil]. unfold resetPass. cbn [store].
  pose proof (exec_received n1 (resetArgs u pw)) as Hrc2.
  assert (Hu2 : users (fst (exec n1 (resetArgs u pw)))
                = <[u := mkUser (enabled entry) [pw] (rules entry)]> (users n)).
  { unfold exec. rewrite Hf1, Hfr. unfold resetArgs. cbn [answer fst users].
    unfold setuser. now rewrite Hu1, Hu. }
  assert (Hok : replyError (snd (exec n1 (resetArgs u pw))) = None).
  { unfold exec. rewrite Hf1, Hfr. reflexivity. }
  destruct (exec n1 (resetArgs u pw)) as [n2 r2]. cbn [fst snd] in *.
  rewrite Hok. cbn [fst snd store printf setStore].
  split; [reflexivity|]. exists n2. split; [reflexivity|].
  split; [exact Hu2|]. rewrite Hrc2, Hrc1. now rewrite <- app_assoc.
Qed.

(** ALICE, on a single node, gets the password [new]. *)
Lemma UpdateUser_pool_rotates_witness :
  snd (UpdateUser [] [] Scenario.noDeadline Scenario.rotateAlice
         (Scenario.onPool (Scenario.nodeWithAlice Scenario.noFault)))
  = Ok tt.
Proof.
  apply (UpdateUser_pool_rotates [] [] Scenario.noDeadline Scenario.rotateAlice
           (mkChangePassword "new")
           (Scenario.onPool (Scenario.nodeWithAlice Scenario.noFault))
           (Scenario.nodeWithAlice Scenario.noFault) Scenario.alice).
  - reflexivity.
  - right. reflexivity.
  - reflexivity.
  - reflexivity.
  - reflexivity.
  - vm_compute. reflexivity.
Defined.

End Further.

(** ** [strings.TrimSpace], and [removeEmpty] applied twice *)

Section TrimFacts.

Import GoStrings Plugin.

Lemma append_nil_r (s : string) : s +:+ "" = s.
Proof.
  induction s as [|c s IH]; [reflexivity|].
  change (String c (s +:+ "") = String c s). now f_equal.
Qed.

Lemma append_assoc (a b c : string) : (a +:+ b) +:+ c = a +:+ (b +:+ c).
Proof.
  induction a as [|x a IH]; [reflexivity|].
  change (String x ((a +:+ b) +:+ c) = String x (a +:+ (b +:+ c))). now f_equal.
Qed.

Lemma rev_string_acc (s : string) : forall acc,
  rev_string acc s = reverse_string s +:+ acc.
Proof.
  unfold reverse_string. induction s as [|c s IH]; intros acc; simpl;
    [reflexivity|].
  rewrite (IH (String c acc)), (IH (String c "")).
  now rewrite append_assoc.
Qed.

Lemma reverse_string_cons (c : ascii) (s : string) :
  reverse_string (String c s) = reverse_string s +:+ String c "".
Proof. unfold reverse_string at 1. simpl. apply rev_string_acc. Qed.

Lemma reverse_string_app (a b : string) :
  reverse_string (a +:+ b) = reverse_string b +:+ reverse_string a.
Proof.
  induction a as [|c a IH].
  - change (reverse_string "") with "". now rewrite append_nil_r.
  - change (String c a +:+ b) with (String c (a +:+ b)).
    now rewrite !reverse_string_cons, IH, append_assoc.
Qed.

Lemma reverse_string_involutive (s : string) :
  reverse_string (reverse_string s) = s.
Proof.
  induction s as [|c s IH]; [reflexivity|].
  now rewrite reverse_string_cons, reverse_string_app, IH.
Qed.

Lemma stripPrefix_Some (p : string) : forall s rest,
  stripPrefix p s = Some rest -> s = p +:+ rest.
Proof.
  induction p as [|a p IH]; intros s rest; simpl.
  - now intros [= ->].
  - destruct s as [|b s]; [discriminate|].
    destruct (Ascii.eqb_spec a b) as [->|]; [|discriminate].
    intros H. now rewrite (IH _ _ H).
Qed.

Lemma stripPrefix_app (p : string) : forall s t rest,
  stripPrefix p s = Some rest -> stripPrefix p (s +:+ t) = Some (rest +:+ t).
Proof.
  induction p as [|a p IH]; intros s t rest; simpl.
  - now intros [= ->].
  - destruct s as [|b s]; [discriminate|]. simpl.
    destruct (Ascii.eqb a b); [apply IH|discriminate].
Qed.

(** A string with no leading space rune has none when it is cut
    short. *)
Lemma stripSpace_prefix (runes : list string) (s t : string) :
  stripSpace runes (s +:+ t) = None -> stripSpace runes s = None.
Proof.
  induction runes as [|r runes IH]; simpl; [reflexivity|].
  destruct (stripPrefix r s) as [rest|] eqn:E.
  - now rewrite (stripPrefix_app _ _ t _ E).
  - destruct (stripPrefix r (s +:+ t)); [discriminate|exact IH].
Qed.

Lemma stripSpace_shorter (runes : list string) (s rest : string) :
  Forall (fun r => r <> EmptyString) runes ->
  stripSpace runes s = Some rest ->
  (String.length rest < String.length s)%nat /\ exists p, s = p +:+ rest.
Proof.
  induction 1 as [|r runes Hr _ IH]; simpl; [discriminate|].
  destruct (stripPrefix r s) as [rest'|] eqn:E; [|exact IH].
  intros [= ->]. apply stripPrefix_Some in E as ->.
  rewrite length_append. split; [|now exists r].
  destruct r; [contradiction|simpl; lia].
Qed.

Lemma stripSpace_empty (runes : list string) :
  Forall (fun r => r <> EmptyString) runes -> stripSpace runes "" = None.
Proof.
  induction 1 as [|r runes Hr _ IH]; [reflexivity|].
  destruct r; [contradiction|exact IH].
Qed.

Lemma trimLeftN_id (n : nat) (runes : list string) (s : string) :
  stripSpace runes s = None -> trimLeftN n runes s = s.
Proof. intros H. destruct n; simpl; [reflexivity|now rewrite H]. Qed.

(** What is left after trimming has no leading space rune, and is the
    end of the string trimmed. *)
Lemma trimLeftN_trimmed (runes : list string) :
  Forall (fun r => r <> EmptyString) runes ->
  forall n s, (String.length s <= n)%nat ->
    stripSpace runes (trimLeftN n runes s) = None
    /\ exists p, s = p +:+ trimLeftN n runes s.
Proof.
  intros Hr. induction n as [|n IH]; intros s Hn.
  - destruct s; [|simpl in Hn; lia]. simpl.
    split; [now apply stripSpace_empty|now exists ""].
  - simpl. destruct (stripSpace runes s) as [rest|] eqn:E.
    + destruct (stripSpace_shorter runes s rest Hr E) as [Hlt [p ->]].
      destruct (IH rest) as [Hnone [p' Hp']]; [lia|].
      split; [exact Hnone|]. exists (p +:+ p').
      now rewrite append_assoc, <- Hp'.
    + split; [exact E|now exists ""].
Qed.

Lemma spaceRunes_nonempty : Forall (fun r => r <> EmptyString) spaceRunes.
Proof. unfold spaceRunes. cbv [map bytes string_of_list_ascii]. repeat constructor; discriminate. Qed.

Lemma spaceRunes_reversed_nonempty :
  Forall (fun r => r <> EmptyString) (map reverse_string spaceRunes).
Proof. cbv -[not]. repeat constructor; discriminate. Qed.

Lemma TrimLeftSpace_trimmed (s : string) :
  stripSpace spaceRunes (TrimLeftSpace s) = None.
Proof.
  unfold TrimLeftSpace.
  now apply (trimLeftN_trimmed _ spaceRunes_nonempty (String.length s) s).
Qed.

(** [TrimRightSpace s] is the beginning of [s], and has no trailing
    space rune. *)
Lemma TrimRightSpace_trimmed (s : string) :
  stripSpace (map reverse_string spaceRunes) (reverse_string (TrimRightSpace s))
  = None
  /\ exists t, s = TrimRightSpace s +:+ t.
Proof.
  unfold TrimRightSpace. cbv zeta. rewrite reverse_string_involutive.
  destruct (trimLeftN_trimmed _ spaceRunes_reversed_nonempty
              (String.length (reverse_string s)) (reverse_string s) (le_n _))
    as [Hnone [p Hp]].
  split; [exact Hnone|]. exists (reverse_string p).
  rewrite <- reverse_string_app, <- Hp. now rewrite reverse_string_involutive.
Qed.

Lemma TrimSpace_fixed (s : string) :
  stripSpace spaceRunes s = None ->
  stripSpace (map reverse_string spaceRunes) (reverse_string s) = None ->
  TrimSpace s = s.
Proof.
  intros Hl Hr. unfold TrimSpace, TrimLeftSpace. rewrite (trimLeftN_id _ _ _ Hl).
  unfold TrimRightSpace. cbv zeta. rewrite (trimLeftN_id _ _ _ Hr).
  apply reverse_string_involutive.
Qed.

(** Trimming what is trimmed changes nothing. *)
Lemma TrimSpace_idempotent (s : string) : TrimSpace (TrimSpace s) = TrimSpace s.
Proof.
  unfold TrimSpace at 2 3.
  destruct (TrimRightSpace_trimmed (TrimLeftSpace s)) as [Hr [t Ht]].
  apply TrimSpace_fixed; [|exact Hr].
  apply (stripSpace_prefix _ _ t). rewrite <- Ht. apply TrimLeftSpace_trimmed.
Qed.

(** X5: [removeEmpty] applied to its own result changes nothing, and
    every string it returns is non-empty and is its own trimming: it
    has neither leading nor trailing white space. *)
Theorem removeEmpty_idempotent strs :
  removeEmpty (removeEmpty strs) = removeEmpty strs
  /\ Forall (fun s => s <> EmptyString /\ TrimSpace s = s) (removeEmpty strs).
Proof.
  induction strs as [|s strs [IH1 IH2]]; [now split|].
  rewrite removeEmpty_cons.
  destruct (String.eqb_spec (TrimSpace s) EmptyString) as [He|Hne];
    [now split|].
  split.
  - rewrite removeEmpty_cons, TrimSpace_idempotent.
    destruct (String.eqb_spec (TrimSpace s) EmptyString); [contradiction|].
    now rewrite IH1.
  - constructor; [|exact IH2]. split; [exact Hne|apply TrimSpace_idempotent].
Qed.

End TrimFacts.

(** ** Rule statements that are JSON arrays of plain strings *)

Section JsonFacts.

Import GoStrings GoJSON RedisServer Dbplugin Plugin Conditions Inputs.

Lemma append_cons (c : ascii) (s t : string) :
  String c s +:+ t = String c (s +:+ t).
Proof. reflexivity. Qed.

Lemma plainByte_inv (c : ascii) :
  plainByte c = true ->
  isQuote c = false /\ isByte c "\" = false /\ (byte_of c <? 32)%N = false.
Proof.
  destruct c as [[] [] [] [] [] [] [] []]; intros H; try discriminate H;
    repeat split; reflexivity.
Qed.

Lemma scanBytes_app (a b : string) : forall s,
  scanBytes s (a +:+ b) = scanBytes (scanBytes s a) b.
Proof.
  induction a as [|c a IH]; intros s; [reflexivity|].
  rewrite append_cons. cbn [scanBytes]. apply IH.
Qed.

(** Inside a string literal, plain bytes leave the scanner where it
    is. *)
Lemma scanBytes_plain stk et e (s : string) :
  plainText s = true ->
  scanBytes (mkScanner stateInString stk et e) s
  = mkScanner stateInString stk et e.
Proof.
  induction s as [|c s IH]; [reflexivity|].
  cbn [plainText]. intros [Hc Hs]%andb_prop.
  destruct (plainByte_inv c Hc) as (Hq & Hb & Hlt).
  cbn [scanBytes]. unfold stepByte. cbn [step]. rewrite Hq, Hb, Hlt.
  now apply IH.
Qed.

(** A quoted plain string, where a value may begin, is one value. *)
Lemma scanBytes_jsonString stk et e (orEmpty : bool) (r : string) :
  plainText r = true ->
  scanBytes (mkScanner (if orEmpty then stateBeginValueOrEmpty else stateBeginValue)
               stk et e) (jsonString r)
  = mkScanner stateEndValue stk et e.
Proof.
  intros Hr. unfold jsonString, q. rewrite append_cons. cbn [scanBytes].
  replace (stepByte _ dquote) with (mkScanner stateInString stk et e)
    by (now destruct orEmpty).
  change ("" +:+ r +:+ String dquote "") with (r +:+ String dquote "").
  rewrite scanBytes_app, (scanBytes_plain _ _ _ _ Hr). reflexivity.
Qed.

Lemma Join_cons2 (a b : string) (l : list string) (sep : string) :
  Join (a :: b :: l) sep = a +:+ sep +:+ Join (b :: l) sep.
Proof. reflexivity. Qed.

Lemma isSpace_separators (c : ascii) :
  isSpace c = true -> isByte c "," = false /\ isByte c "]" = false.
Proof.
  destruct c as [[] [] [] [] [] [] [] []]; intros H; try discriminate H;
    split; reflexivity.
Qed.

(** White space where a value may begin, or after a value of an array,
    leaves the scanner where it is. *)
Lemma scanBytes_blank_begin stk et e (orEmpty : bool) (s : string) :
  jsonBlank s = true ->
  scanBytes (mkScanner (if orEmpty then stateBeginValueOrEmpty else stateBeginValue)
               stk et e) s
  = mkScanner (if orEmpty then stateBeginValueOrEmpty else stateBeginValue)
      stk et e.
Proof.
  induction s as [|c s IH]; [reflexivity|].
  cbn [jsonBlank]. intros [Hc Hs]%andb_prop. cbn [scanBytes].
  replace (stepByte _ c)
    with (mkScanner (if orEmpty then stateBeginValueOrEmpty else stateBeginValue)
            stk et e); [now apply IH|].
  destruct orEmpty; unfold stepByte, doBeginValue; cbn [step]; now rewrite Hc.
Qed.

Lemma scanBytes_blank_end ps stk et e (s : string) :
  jsonBlank s = true ->
  scanBytes (mkScanner stateEndValue (ps :: stk) et e) s
  = mkScanner stateEndValue (ps :: stk) et e.
Proof.
  induction s as [|c s IH]; [reflexivity|].
  cbn [jsonBlank]. intros [Hc Hs]%andb_prop. cbn [scanBytes].
  replace (stepByte _ c) with (mkScanner stateEndValue (ps :: stk) et e);
    [now apply IH|].
  unfold stepByte, doEndValue; cbn [step parseStack]. now rewrite Hc.
Qed.

(** An element, with the white space around it, is one value of the
    array. *)
Lemma scanBytes_element stk et e (orEmpty : bool) (el : element) :
  wellFormed el ->
  scanBytes (mkScanner (if orEmpty then stateBeginValueOrEmpty else stateBeginValue)
               (parseArrayValue :: stk) et e) (elementText el)
  = mkScanner stateEndValue (parseArrayValue :: stk) et e.
Proof.
  intros (Hb & Hr & Ha). unfold elementText.
  rewrite scanBytes_app, (scanBytes_blank_begin _ _ _ _ _ Hb).
  rewrite scanBytes_app, (scanBytes_jsonString _ _ _ _ _ Hr).
  now apply scanBytes_blank_end.
Qed.

(** The elements of an array, separated by commas, leave the scanner
    after a value of the array. *)
Lemma scanBytes_elems stk et e (elems : list element) : forall (orEmpty : bool) el,
  Forall wellFormed (el :: elems) ->
  scanBytes (mkScanner (if orEmpty then stateBeginValueOrEmpty else stateBeginValue)
               (parseArrayValue :: stk) et e)
    (Join (map elementText (el :: elems)) ",")
  = mkScanner stateEndValue (parseArrayValue :: stk) et e.
Proof.
  induction elems as [|el' elems IH]; intros orEmpty el Hall.
  - apply scanBytes_element. now inversion Hall.
  - cbn [map]. rewrite Join_cons2, scanBytes_app.
    rewrite scanBytes_element by (now inversion Hall).
    rewrite scanBytes_app.
    change (scanBytes (mkScanner stateEndValue (parseArrayValue :: stk) et e) ",")
      with (mkScanner stateBeginValue (parseArrayValue :: stk) et e).
    apply (IH false el'). now inversion Hall.
Qed.

Lemma checkValid_jsonArrayText (gap : string) (elems : list element) :
  jsonBlank gap = true -> Forall wellFormed elems ->
  checkValid (jsonArrayText gap elems) = None.
Proof.
  intros Hgap Hall. unfold checkValid, jsonArrayText.
  rewrite append_cons. cbn [scanBytes].
  change (stepByte reset "[")
    with (mkScanner stateBeginValueOrEmpty [parseArrayValue] false None).
  change ("" +:+ ?x) with x. rewrite scanBytes_app.
  destruct elems as [|el elems].
  - now rewrite (scanBytes_blank_begin [parseArrayValue] false None true gap Hgap).
  - now rewrite (scanBytes_elems [] false None elems true el Hall).
Qed.

Lemma decodeBytes_app (a b : string) : forall st,
  decodeBytes st (a +:+ b) = decodeBytes (decodeBytes st a) b.
Proof.
  induction a as [|c a IH]; intros st; [reflexivity|].
  rewrite append_cons. cbn [decodeBytes]. apply IH.
Qed.

(** Inside a string element, plain bytes are collected as they come. *)
Lemma decodeBytes_plain toks (s : string) :
  plainText s = true ->
  forall raw, decodeBytes (dString raw false, toks) s
              = (dString (rev_string raw s) false, toks).
Proof.
  induction s as [|c s IH]; [reflexivity|].
  cbn [plainText]. intros [Hc Hs]%andb_prop raw.
  destruct (plainByte_inv c Hc) as (Hq & Hb & _).
  cbn [decodeBytes decodeByte rev_string]. rewrite Hq, Hb. now apply IH.
Qed.

Lemma unquote_plain (s : string) : plainText s = true -> unquote s = s.
Proof.
  induction s as [|c s IH]; [reflexivity|].
  cbn [plainText]. intros [Hc Hs]%andb_prop.
  destruct (plainByte_inv c Hc) as (_ & Hb & _).
  cbn [unquote]. rewrite Hb. now rewrite IH.
Qed.

Lemma decodeBytes_jsonString toks (r : string) :
  plainText r = true ->
  decodeBytes (dElem, toks) (jsonString r) = (dAfter, r :: toks).
Proof.
  intros Hr. unfold jsonString, q. rewrite append_cons. cbn [decodeBytes].
  change (decodeByte (dElem, toks) dquote) with (dString EmptyString false, toks).
  change ("" +:+ r +:+ String dquote "") with (r +:+ String dquote "").
  rewrite decodeBytes_app, (decodeBytes_plain _ _ Hr).
  cbn [decodeBytes decodeByte].
  change (isQuote dquote) with true. cbv iota.
  change (rev_string "" r) with (reverse_string r).
  now rewrite reverse_string_involutive, (unquote_plain _ Hr).
Qed.

(** White space before an element, and after one, is skipped. *)
Lemma decodeBytes_blank_elem toks (s : string) :
  jsonBlank s = true -> decodeBytes (dElem, toks) s = (dElem, toks).
Proof.
  induction s as [|c s IH]; [reflexivity|].
  cbn [jsonBlank]. intros [Hc Hs]%andb_prop.
  cbn [decodeBytes decodeByte]. rewrite Hc. now apply IH.
Qed.

Lemma decodeBytes_blank_after toks (s : string) :
  jsonBlank s = true -> decodeBytes (dAfter, toks) s = (dAfter, toks).
Proof.
  induction s as [|c s IH]; [reflexivity|].
  cbn [jsonBlank]. intros [Hc Hs]%andb_prop.
  destruct (isSpace_separators c Hc) as [Hcomma Hclose].
  cbn [decodeBytes decodeByte]. unfold afterElem. rewrite Hcomma, Hclose.
  now apply IH.
Qed.

Lemma decodeBytes_element toks (el : element) :
  wellFormed el ->
  decodeBytes (dElem, toks) (elementText el) = (dAfter, rule el :: toks).
Proof.
  intros (Hb & Hr & Ha). unfold elementText.
  rewrite decodeBytes_app, (decodeBytes_blank_elem _ _ Hb).
  rewrite decodeBytes_app, (decodeBytes_jsonString _ _ Hr).
  now apply decodeBytes_blank_after.
Qed.

Lemma decodeBytes_elems (elems : list element) : forall toks el,
  Forall wellFormed (el :: elems) ->
  decodeBytes (dElem, toks) (Join (map elementText (el :: elems)) ",")
  = (dAfter, rev (map rule (el :: elems)) ++ toks).
Proof.
  induction elems as [|el' elems IH]; intros toks el Hall.
  - apply decodeBytes_element. now inversion Hall.
  - cbn [map]. rewrite Join_cons2, decodeBytes_app.
    rewrite decodeBytes_element by (now inversion Hall).
    rewrite decodeBytes_app.
    change (decodeBytes (dAfter, rule el :: toks) ",") with (dElem, rule el :: toks).
    change (elementText el' :: map elementText elems)
      with (map elementText (el' :: elems)).
    rewrite (IH (rule el :: toks) el') by (now inversion Hall).
    cbn [rev map]. now rewrite <- !app_assoc.
Qed.

(** The text of an array of plain strings, in any spelling, decodes to
    the strings. *)
Lemma Unmarshal_jsonArrayText (gap : string) (elems : list element) :
  jsonBlank gap = true -> Forall wellFormed elems ->
  Unmarshal (jsonArrayText gap elems) = Ok (map rule elems).
Proof.
  intros Hgap Hall. unfold Unmarshal.
  rewrite (checkValid_jsonArrayText _ _ Hgap Hall).
  unfold jsonArrayText. rewrite append_cons. cbn [decodeBytes].
  change (decodeByte (dTop, []) "[") with (dElem, @nil string).
  change ("" +:+ ?x) with x. rewrite decodeBytes_app.
  destruct elems as [|el elems].
  - now rewrite (decodeBytes_blank_elem _ _ Hgap).
  - rewrite (decodeBytes_elems elems [] el Hall).
    change (decodeBytes (dAfter, rev (map rule (el :: elems)) ++ []) "]")
      with (dEnd, rev (map rule (el :: elems)) ++ []).
    now rewrite app_nil_r, rev_involutive.
Qed.

Lemma newUserArgs_jsonArrayText username req gap elems others :
  removeEmpty (Commands (NewUserRequest.Statements req))
  = jsonArrayText gap elems :: others ->
  jsonBlank gap = true -> Forall wellFormed elems ->
  newUserArgs username req
  = Ok (tail (createCmd username (NewUserRequest.Password req) (map rule elems))).
Proof.
  intros Hfirst Hgap Hall. unfold newUserArgs.
  rewrite Hfirst. cbn [length Nat.eqb].
  now rewrite (Unmarshal_jsonArrayText _ _ Hgap Hall).
Qed.

End JsonFacts.

(** ** The rules of a statement, sent as they are *)

Section Rules.

Import GoStrings GoJSON GoTime RedisServer Dbplugin Plugin Conditions Inputs.

(** X6: when the first statement [removeEmpty] leaves (the first
    statement that is not blank, trimmed) is a JSON array of string
    literals of plain text, in any spelling (with any JSON white space
    around the elements and commas, or none), the command [NewUser]
    sends is [ACL SETUSER <username> ON ><password>] followed by the
    strings, in their order; the statements after it are not read, and
    an empty array gives the command with no rule, not the default
    rule.  On a single node the node receives that command and the
    call returns the username unless the node fails the command, whose
    error is returned as it is; on a cluster whose members answer it,
    every member enumerated receives it and the call returns the
    username. *)
Theorem NewUser_sends_rules userUUID now ctx req w username gap elems others :
  removeEmpty (Commands (NewUserRequest.Statements req))
  = jsonArrayText gap elems :: others ->
  jsonBlank gap = true -> Forall wellFormed elems ->
  generates userUUID now req username -> connects w ->
  (forall order n, store w = Pool n ->
     store (fst (NewUser userUUID now order ctx req w))
     = Pool (fst (exec n (createCmd username (NewUserRequest.Password req)
                            (map rule elems))))
     /\ received (fst (exec n (createCmd username (NewUserRequest.Password req)
                                (map rule elems))))
        = received n ++ [createCmd username (NewUserRequest.Password req)
                           (map rule elems)]
     /\ snd (NewUser userUUID now order ctx req w)
        = match replyError
                  (snd (exec n (createCmd username (NewUserRequest.Password req)
                                  (map rule elems))))
          with
          | Some e => Err e
          | None => Ok username
          end)
  /\
  (forall order topo, store w = Cluster topo -> NoDup order ->
     (forall a, a ∈ order ->
        exists m, topo !! a = Some m
                  /\ answers (createCmd username (NewUserRequest.Password req)
                                (map rule elems)) m) ->
     exists topo',
       store (fst (NewUser userUUID now order ctx req w)) = Cluster topo'
       /\ sentTo (createCmd username (NewUserRequest.Password req) (map rule elems))
            order topo topo'
       /\ snd (NewUser userUUID now order ctx req w) = Ok username).
Proof.
  intros Hfirst Hgap Hwf Hgen Hc.
  pose proof (newUserArgs_jsonArrayText username req gap elems others
                Hfirst Hgap Hwf) as Hargs.
  split.
  - intros order n Hs.
    destruct (NewUser_generated _ _ order ctx _ _ _ Hgen Hc) as (-> & _ & ->).
    destruct (newUser_Pool order ctx _ _ _ _ _ Hargs Hs) as [-> ->].
    split; [reflexivity|]. split; [apply exec_received|].
    unfold createCmd. cbn [tail app]. now destruct (replyError _).
  - intros order topo Hs Hnd Hall.
    destruct (NewUser_generated _ _ order ctx _ _ _ Hgen Hc) as (-> & _ & ->).
    destruct (newUser_Cluster_all order ctx _ _ _ _ _ Hargs Hs Hnd Hall)
      as (topo' & Hst & Hsent & ->).
    now exists topo'.
Qed.

(** Two rules with no white space between them, after a blank
    statement and before a statement that is not read, on a single
    node. *)
Lemma NewUser_sends_rules_witness :
  snd (NewUser (Ok Scenario.uuid) Scenario.unixNow [] Scenario.noDeadline
         (Scenario.request "token" "my-role"
            ["  ";
             " " +:+ jsonArrayText "" [mkElement "" "~app:*" "";
                                       mkElement "" "+@admin" " "] +:+ nl;
             "+@all"] "pw")
         (Scenario.onPool Scenario.emptyNode))
  = Ok "V_TOKEN_MY-ROLE_ABCDEFGHIJKLMNOPQRST_1612345678"
  /\ received
       (fst (exec Scenario.emptyNode
               (createCmd "V_TOKEN_MY-ROLE_ABCDEFGHIJKLMNOPQRST_1612345678" "pw"
                  ["~app:*"; "+@admin"])))
     = [["ACL"; "SETUSER"; "V_TOKEN_MY-ROLE_ABCDEFGHIJKLMNOPQRST_1612345678";
         "ON"; ">pw"; "~app:*"; "+@admin"]].
Proof.
  destruct (NewUser_sends_rules (Ok Scenario.uuid) Scenario.unixNow
              Scenario.noDeadline
              (Scenario.request "token" "my-role"
                 ["  ";
                  " " +:+ jsonArrayText "" [mkElement "" "~app:*" "";
                                            mkElement "" "+@admin" " "] +:+ nl;
                  "+@all"] "pw")
              (Scenario.onPool Scenario.emptyNode)
              "V_TOKEN_MY-ROLE_ABCDEFGHIJKLMNOPQRST_1612345678"
              "" [mkElement "" "~app:*" ""; mkElement "" "+@admin" " "] ["+@all"])
    as (Hpool & _).
  - vm_compute. reflexivity.
  - reflexivity.
  - repeat constructor.
  - eexists. split; vm_compute; reflexivity.
  - right. reflexivity.
  - destruct (Hpool [] Scenario.emptyNode eq_refl) as (_ & Hrecv & Hres).
    split; [rewrite Hres; reflexivity|exact Hrecv].
Defined.

Lemma decodeBytes_mismatch v t toks (s : string) :
  decodeBytes (dMismatch v t, toks) s = (dMismatch v t, toks).
Proof. induction s as [|c s IH]; [reflexivity|exact IH]. Qed.

(** A rule given as a JSON string, not as an array, is well-formed
    JSON of the wrong type. *)
Lemma Unmarshal_jsonString (r : string) :
  plainText r = true ->
  Unmarshal (jsonString r)
  = Err "json: cannot unmarshal string into Go value of type []string".
Proof.
  intros Hr. unfold Unmarshal, checkValid.
  change reset with (mkScanner stateBeginValue [] false None).
  rewrite (scanBytes_jsonString [] false None false r Hr).
  change (err (eof (mkScanner stateEndValue [] false None))) with (@None string).
  unfold jsonString, q. rewrite append_cons. cbn [decodeBytes].
  change (decodeByte (dTop, []) dquote)
    with (dMismatch "string" "[]string", @nil string).
  now rewrite decodeBytes_mismatch.
Qed.

Lemma TrimSpace_jsonString (r : string) :
  TrimSpace (jsonString r) = jsonString r.
Proof.
  apply TrimSpace_fixed; [reflexivity|].
  unfold jsonString. rewrite <- append_assoc, reverse_string_app.
  reflexivity.
Qed.

(** X7: when the first statement of the request is a rule written as a
    JSON string, with no brackets around it, [NewUser] fails with the
    type error of the decoder, wrapped as a rule error, and sends
    nothing: the store and standard output are as before. *)
Theorem NewUser_bare_rule_rejected userUUID now order ctx req w username r more :
  Commands (NewUserRequest.Statements req) = jsonString r :: more ->
  plainText r = true ->
  generates userUUID now req username -> connects w ->
  snd (NewUser userUUID now order ctx req w)
  = Err ("error unmarshalling REDIS rules in the creation statement JSON: "
         +:+ "json: cannot unmarshal string into Go value of type []string")
  /\ store (fst (NewUser userUUID now order ctx req w)) = store w
  /\ stdout (fst (NewUser userUUID now order ctx req w)) = stdout w.
Proof.
  intros Hcmds Hr Hgen Hc.
  destruct (NewUser_generated _ _ order ctx _ _ _ Hgen Hc) as (-> & -> & ->).
  assert (Hargs : newUserArgs username req
                  = Err ("error unmarshalling REDIS rules in the creation statement JSON: "
                         +:+ "json: cannot unmarshal string into Go value of type []string")).
  { unfold newUserArgs. rewrite Hcmds, removeEmpty_cons, TrimSpace_jsonString.
    change (String.eqb (jsonString r) EmptyString) with false. cbv iota.
    cbn [length Nat.eqb]. now rewrite (Unmarshal_jsonString r Hr). }
  unfold newUser. now rewrite Hargs.
Qed.

(** The rule [+@admin], quoted and not in brackets. *)
Lemma NewUser_bare_rule_rejected_witness :
  snd (NewUser (Ok Scenario.uuid) Scenario.unixNow [] Scenario.noDeadline
         (Scenario.request "token" "my-role" [jsonString "+@admin"] "pw")
         (Scenario.onPool Scenario.emptyNode))
  = Err ("error unmarshalling REDIS rules in the creation statement JSON: "
         +:+ "json: cannot unmarshal string into Go value of type []string")
  /\ store (fst (NewUser (Ok Scenario.uuid) Scenario.unixNow [] Scenario.noDeadline
                   (Scenario.request "token" "my-role" [jsonString "+@admin"] "pw")
                   (Scenario.onPool Scenario.emptyNode)))
     = Pool Scenario.emptyNode.
Proof.
  destruct (NewUser_bare_rule_rejected (Ok Scenario.uuid) Scenario.unixNow []
              Scenario.noDeadline
              (Scenario.request "token" "my-role" [jsonString "+@admin"] "pw")
              (Scenario.onPool Scenario.emptyNode)
              "V_TOKEN_MY-ROLE_ABCDEFGHIJKLMNOPQRST_1612345678" "+@admin" [])
    as (Hres & Hstore & _).
  - reflexivity.
  - reflexivity.
  - eexists. split; vm_compute; reflexivity.
  - right. reflexivity.
  - split; [exact Hres|exact Hstore].
Defined.

End Rules.

(** ** Panics *)

Section LoopSafety.

Import RedisServer Plugin Conditions.

Context {V : Type}.
Variable args : list string.
Variable rest : string -> V -> reply -> V * outcome unit.

(** A step of a cluster loop leaves every member with the client it
    had, or with none as before. *)
Lemma onNode_clients a topo v b :
  clientNil <$> (fst (fst (onNode args rest a (topo, v)))) !! b
  = clientNil <$> topo !! b.
Proof.
  unfold onNode, nodeDo, Client, setNode.
  destruct (topo !! a) as [m|] eqn:Hm; [|reflexivity].
  destruct (clientNil m) eqn:Hc; [reflexivity|].
  destruct (exec (mnode m) args) as [n' r].
  destruct (rest a v r) as [v' res]. cbn [fst].
  destruct (decide (b = a)) as [->|Hne].
  - rewrite lookup_insert_eq, Hm. cbn. now rewrite Hc.
  - now rewrite lookup_insert_ne by congruence.
Qed.

Lemma forRange_clients order : forall topo v b,
  clientNil <$> (fst (fst (forRange (onNode args rest) order (topo, v)))) !! b
  = clientNil <$> topo !! b.
Proof.
  induction order as [|a order IH]; intros topo v b; [reflexivity|].
  rewrite forRange_cons. pose proof (onNode_clients a topo v b) as Hstep.
  destruct (onNode args rest a (topo, v)) as [[topo1 v1] [[]|e|m]];
    cbn [fst] in *; try exact Hstep.
  now rewrite IH.
Qed.

Hypothesis rest_returns : forall a v r msg, snd (rest a v r) <> Panic msg.

(** A loop over members that all give a client does not panic. *)
Lemma forRange_no_panic order : forall topo v,
  (forall a, a ∈ order -> exists m, topo !! a = Some m /\ clientNil m = false) ->
  forall msg, snd (forRange (onNode args rest) order (topo, v)) <> Panic msg.
Proof.
  induction order as [|a order IH]; intros topo v Hall msg; [discriminate|].
  destruct (Hall a) as (m & Hm & Hc); [apply elem_of_cons; now left|].
  rewrite forRange_cons, (onNode_client args rest _ _ _ _ Hm Hc).
  pose proof (rest_returns a v (replyTo args m)) as Hret.
  destruct (rest a v (replyTo args m)) as [v' [[]|e|msg']]; cbn [fst snd] in *.
  - apply IH. intros b Hb.
    destruct (Hall b) as (mb & Hmb & Hcb); [apply elem_of_cons; now right|].
    destruct (decide (b = a)) as [->|Hne].
    + rewrite lookup_insert_eq. now exists (sent args m).
    + rewrite lookup_insert_ne by congruence. now exists mb.
  - discriminate.
  - now destruct (Hret msg').
Qed.

End LoopSafety.

Section Safety.

Import GoStrings GoJSON GoTime RedisServer Dbplugin Plugin Conditions Inputs.

Lemma Unmarshal_returns data msg : Unmarshal data <> Panic msg.
Proof.
  unfold Unmarshal. destruct (checkValid data); [discriminate|].
  now destruct (decodeBytes _ data) as [[] toks].
Qed.

(** [statements[0]] is in range: the default rule was added when no
    statement was left. *)
Lemma newUserArgs_returns username req msg : newUserArgs username req <> Panic msg.
Proof.
  unfold newUserArgs.
  destruct (removeEmpty _) as [|s l]; cbn [length Nat.eqb app].
  - pose proof (Unmarshal_returns defaultRedisUserRule msg).
    now destruct (Unmarshal defaultRedisUserRule).
  - pose proof (Unmarshal_returns s msg). now destruct (Unmarshal s).
Qed.

Lemma newUserNode_returns a v r msg : snd (newUserNode a v r) <> Panic msg.
Proof. unfold newUserNode. destruct v. now destruct (replyError r). Qed.

Lemma deleteUserNode_returns a v r msg : snd (deleteUserNode a v r) <> Panic msg.
Proof. unfold deleteUserNode. now destruct (replyError r). Qed.

Lemma getUserNode_returns username a v r msg :
  snd (getUserNode username a v r) <> Panic msg.
Proof.
  unfold getUserNode. destruct v as [mnNil out].
  destruct (replyError r); [discriminate|]. now destruct (rcvMaybeNil mnNil r).
Qed.

Lemma resetPassNode_returns username a v r msg :
  snd (resetPassNode username a v r) <> Panic msg.
Proof. unfold resetPassNode. destruct v. now destruct (replyError r). Qed.

Lemma newUser_returns order ctx username req w msg :
  hasClients order w -> snd (newUser order ctx username req w) <> Panic msg.
Proof.
  unfold hasClients, newUser. intros Hcl.
  destruct (newUserArgs username req) as [aclargs|e|m] eqn:Hargs;
    [|discriminate|now destruct (newUserArgs_returns username req m)].
  destruct (store w) as [n|topo].
  - destruct (exec n _) as [n' r]. now destruct (replyError r).
  - pose proof (forRange_no_panic ("ACL" :: aclargs) newUserNode
                  newUserNode_returns order topo (EmptyString, stdout w) Hcl msg).
    now destruct (forRange _ order _) as [[topo' [v out]] r].
Qed.

Lemma deleteUser_returns order username w msg :
  hasClients order w -> snd (deleteUser order username w) <> Panic msg.
Proof.
  unfold hasClients, deleteUser. intros Hcl. destruct (store w) as [n|topo].
  - destruct (exec n _) as [n' r]. now destruct (replyError r).
  - pose proof (forRange_no_panic ["ACL"; "DELUSER"; username] deleteUserNode
                  deleteUserNode_returns order topo EmptyString Hcl msg).
    now destruct (forRange _ order _) as [[topo' v] r].
Qed.

Lemma getUser_returns order username w msg :
  hasClients order w -> snd (getUser order username w) <> Panic msg.
Proof.
  unfold hasClients, getUser. intros Hcl. destruct (store w) as [n|topo].
  - destruct (exec n _) as [n' r]. destruct (replyError r); [discriminate|].
    now destruct (rcvMaybeNil false r).
  - pose proof (forRange_no_panic ["ACL"; "GETUSER"; username]
                  (getUserNode username) (getUserNode_returns username)
                  order topo (false, stdout w) Hcl msg).
    now destruct (forRange _ order _) as [[topo' [v out]] r].
Qed.

Lemma resetPass_returns order username password w msg :
  hasClients order w -> snd (resetPass order username password w) <> Panic msg.
Proof.
  unfold hasClients, resetPass. intros Hcl. destruct (store w) as [n|topo].
  - destruct (exec n _) as [n' r]. now destruct (replyError r).
  - pose proof (forRange_no_panic (resetArgs username password)
                  (resetPassNode username) (resetPassNode_returns username)
                  order topo (EmptyString, stdout w) Hcl msg).
    now destruct (forRange _ order _) as [[topo' [v out]] r].
Qed.

(** The lookup leaves every member with the client it had. *)
Lemma getUser_hasClients order1 order username w :
  hasClients order w -> hasClients order (fst (getUser order1 username w)).
Proof.
  unfold hasClients, getUser. destruct (store w) as [n|topo].
  - destruct (exec n _) as [n' r]. destruct (replyError r); [easy|].
    now destruct (rcvMaybeNil false r).
  - intros Hcl.
    pose proof (forRange_clients ["ACL"; "GETUSER"; username]
                  (getUserNode username) order1 topo (false, stdout w)) as Hsame.
    destruct (forRange _ order1 _) as [[topo' [v out]] r]. cbn [fst store] in *.
    intros a Ha. destruct (Hcl a Ha) as (m & Hm & Hc).
    specialize (Hsame a). rewrite Hm in Hsame.
    destruct (topo' !! a) as [m'|]; [|discriminate].
    exists m'. split; [reflexivity|]. cbn in Hsame. congruence.
Qed.

Lemma rotate_returns order1 order2 username password w msg :
  hasClients order1 w -> hasClients order2 w ->
  snd (rotate order1 order2 username password w) <> Panic msg.
Proof.
  intros H1 H2. unfold rotate.
  pose proof (getUser_returns order1 username w msg H1) as Hg.
  pose proof (getUser_hasClients order1 order2 username w H2) as Hcl.
  destruct (getUser order1 username w) as [w1 [[]|e|m]]; cbn [fst snd] in *;
    [|discriminate|exact Hg].
  now apply resetPass_returns.
Qed.

Lemma getConnection_returns ctx w msg : snd (getConnection ctx w) <> Panic msg.
Proof.
  unfold getConnection, Producer.Connection.
  destruct (Producer.cached (producer w)); [discriminate|].
  now destruct (Producer.dialError (producer w)).
Qed.

Lemma getConnection_hasClients ctx order w :
  hasClients order w -> hasClients order (fst (getConnection ctx w)).
Proof.
  unfold hasClients. now rewrite (proj1 (getConnection_frame ctx w)).
Qed.

(** X8: no operation panics when every address enumerated is that of
    a member that gives a client, and so none does on a single node:
    the index into the statements of [newUser] is in range, and the
    other calls return.  (The random source of [GenerateUsername]
    returns.) *)
Theorem operations_do_not_panic userUUID now order order1 order2 ctx w msg :
  (forall m, userUUID <> Panic m) ->
  hasClients order w -> hasClients order1 w -> hasClients order2 w ->
  (forall req, snd (NewUser userUUID now order ctx req w) <> Panic msg)
  /\ (forall req, snd (DeleteUser order ctx req w) <> Panic msg)
  /\ (forall req, snd (UpdateUser order1 order2 ctx req w) <> Panic msg).
Proof.
  intros Huuid Hcl Hcl1 Hcl2.
  pose proof (getConnection_hasClients ctx order w Hcl) as Hk.
  pose proof (getConnection_hasClients ctx order1 w Hcl1) as Hk1.
  pose proof (getConnection_hasClients ctx order2 w Hcl2) as Hk2.
  assert (Hconn : forall m, snd (getConnection ctx w) <> Panic m)
    by (intros m; apply getConnection_returns).
  split; [|split]; intros req.
  - unfold NewUser, Credsutil.GenerateUsername, Credsutil.makeUsername.
    destruct userUUID as [uuid|e|m]; [|discriminate|now destruct (Huuid m)].
    cbv zeta.
    destruct (getConnection ctx w) as [w1 [db|e|m]]; cbn [fst snd] in *;
      [|discriminate|now destruct (Hconn m)].
    match goal with
    | |- context [newUser order ctx ?u req w1] =>
        pose proof (fun m => newUser_returns order ctx u req w1 m Hk) as Hn;
        destruct (newUser order ctx u req w1) as [w2 [[]|e|m]]
    end; [discriminate|discriminate|now destruct (Hn m)].
  - unfold DeleteUser.
    destruct (getConnection ctx w) as [w1 [db|e|m]]; cbn [fst snd] in *;
      [|discriminate|now destruct (Hconn m)].
    pose proof (deleteUser_returns order (DeleteUserRequest.Username req) w1 msg Hk)
      as Hd.
    now destruct (deleteUser order _ w1) as [w2 r].
  - unfold UpdateUser. destruct (UpdateUserRequest.Password req) as [change|];
      [|discriminate].
    unfold changeUserPassword.
    destruct (getConnection ctx w) as [w1 [db|e|m]]; cbn [fst snd] in *;
      [|discriminate|now destruct (Hconn m)].
    pose proof (rotate_returns order1 order2 (UpdateUserRequest.Username req)
                  (NewPassword change) w1 msg Hk1 Hk2) as Hr.
    now destruct (rotate order1 order2 _ _ w1) as [w2 r].
Qed.

End Safety.

(** Three members that give clients, the second of which rejects the
    command: [DeleteUser] returns, with an error. *)
Lemma operations_do_not_panic_witness :
  snd (Plugin.DeleteUser Scenario.order3 Scenario.noDeadline
         (Dbplugin.DeleteUserRequest.mk "ALICE")
         (Scenario.onCluster
            (Scenario.threeNodes Scenario.noFault Scenario.rejectsDeluser
               Scenario.noFault Scenario.aliceTable)))
  <> Panic Plugin.nilDereference.
Proof.
  apply (operations_do_not_panic (Ok Scenario.uuid) Scenario.unixNow
           Scenario.order3 Scenario.order3 Scenario.order3 Scenario.noDeadline
           (Scenario.onCluster
              (Scenario.threeNodes Scenario.noFault Scenario.rejectsDeluser
                 Scenario.noFault Scenario.aliceTable))
           Plugin.nilDereference).
  - discriminate.
  - exact (order3_all _ _ _ (fun m => RedisServer.clientNil m = false)
             Scenario.order3 eq_refl eq_refl eq_refl (fun a H => H)).
  - exact (order3_all _ _ _ (fun m => RedisServer.clientNil m = false)
             Scenario.order3 eq_refl eq_refl eq_refl (fun a H => H)).
  - exact (order3_all _ _ _ (fun m => RedisServer.clientNil m = false)
             Scenario.order3 eq_refl eq_refl eq_refl (fun a H => H)).
Defined.

(** ** The handle, kept or never obtained *)

Section Handle.

Import GoStrings GoTime RedisServer Dbplugin Plugin Conditions Inputs.

Lemma getConnection_closeCalls ctx w :
  Producer.closeCalls (producer (fst (getConnection ctx w)))
  = Producer.closeCalls (producer w).
Proof.
  unfold getConnection, Producer.Connection.
  destruct w as [[[] d ce n] s o l]; simpl; [reflexivity|].
  destruct d; reflexivity.
Qed.

(** [newUser] reads and writes the store and standard output only. *)
Lemma newUser_producer order ctx username req w :
  producer (fst (newUser order ctx username req w)) = producer w
  /\ errorLog (fst (newUser order ctx username req w)) = errorLog w.
Proof.
  destruct w as [p s o l].
  now rewrite (newUser_frame order ctx username req p s o l p l).
Qed.

(** The producer [NewUser] leaves is the one [getConnection] left. *)
Lemma NewUser_producer userUUID now order ctx req w :
  producer (fst (NewUser userUUID now order ctx req w)) = producer w
  \/ producer (fst (NewUser userUUID now order ctx req w))
     = producer (fst (getConnection ctx w)).
Proof.
  unfold NewUser. destruct (Credsutil.GenerateUsername _ _ _) as [name|e|m];
    [|now left..].
  right. destruct (getConnection ctx w) as [w1 [db|e|m]]; try reflexivity.
  pose proof (newUser_producer order ctx (ToUpper name) req w1) as [Hp _].
  now destruct (newUser order ctx (ToUpper name) req w1) as [w2 [[]|e|m]].
Qed.

(** With the username generated and a handle obtained, [NewUser]
    leaves the handle cached. *)
Lemma NewUser_cached userUUID now order ctx req w :
  (exists name,
     Credsutil.GenerateUsername
       [Credsutil.DisplayName
          (DisplayName (NewUserRequest.UsernameConfig req)) maxKeyLength;
        Credsutil.RoleName
          (RoleName (NewUserRequest.UsernameConfig req)) maxKeyLength]
       userUUID now = Ok name) ->
  connects w ->
  Producer.cached (producer (fst (NewUser userUUID now order ctx req w))) = true
  /\ Producer.dialError (producer (fst (NewUser userUUID now order ctx req w)))
     = Producer.dialError (producer w).
Proof.
  intros [name Hgen] Hc. unfold NewUser. rewrite Hgen.
  pose proof (getConnection_dialError ctx w) as Hd.
  destruct (getConnection_connects ctx w Hc) as (p & Hg & Hp & _).
  rewrite Hg in Hd |- *. cbn [fst] in Hd.
  pose proof (newUser_producer order ctx (ToUpper name) req (setProducer w p))
    as [Hp' _].
  destruct (newUser order ctx (ToUpper name) req (setProducer w p))
    as [w2 [[]|e|m]]; cbn [fst] in *; rewrite Hp'; now split.
Qed.

(** X9: [NewUser] never closes the connection: whatever the request and
    the store answer, [close] is not called and nothing is logged, and
    when the username was generated and a handle obtained, the handle
    stays cached for the next call.  ([DeleteUser] and [UpdateUser]
    close it on every return.) *)
Theorem NewUser_leaves_handle_open userUUID now order ctx req w :
  Producer.closeCalls (producer (fst (NewUser userUUID now order ctx req w)))
  = Producer.closeCalls (producer w)
  /\ errorLog (fst (NewUser userUUID now order ctx req w)) = errorLog w
  /\ (forall uuid, userUUID = Ok uuid -> connects w ->
      Producer.cached (producer (fst (NewUser userUUID now order ctx req w))) = true).
Proof.
  split; [|split].
  - destruct (NewUser_producer userUUID now order ctx req w) as [-> | ->];
      [reflexivity|apply getConnection_closeCalls].
  - unfold NewUser. destruct (Credsutil.GenerateUsername _ _ _) as [name|e|m];
      try reflexivity.
    pose proof (getConnection_frame ctx w) as (_ & _ & Hl).
    destruct (getConnection ctx w) as [w1 [db|e|m]]; try exact Hl.
    pose proof (newUser_producer order ctx (ToUpper name) req w1) as [_ Hl'].
    destruct (newUser order ctx (ToUpper name) req w1) as [w2 [[]|e|m]];
      cbn [fst] in *; congruence.
  - intros uuid -> Hc.
    apply (NewUser_cached (Ok uuid) now order ctx req w); [|exact Hc].
    eexists. reflexivity.
Qed.

(** A request on a single node, with no handle cached before. *)
Lemma NewUser_leaves_handle_open_witness :
  Producer.cached
    (producer
       (fst (NewUser (Ok Scenario.uuid) Scenario.unixNow [] Scenario.noDeadline
               (Scenario.request "token" "my-role" [] "pw")
               (Scenario.onPool Scenario.emptyNode)))) = true.
Proof.
  apply (proj2 (proj2
           (NewUser_leaves_handle_open (Ok Scenario.uuid) Scenario.unixNow []
              Scenario.noDeadline (Scenario.request "token" "my-role" [] "pw")
              (Scenario.onPool Scenario.emptyNode))) Scenario.uuid).
  - reflexivity.
  - right. reflexivity.
Defined.

(** X10: when no handle is cached and none can be established, each
    operation returns the error of the connection and does nothing
    else: no command is sent, [close] is not called, nothing is printed
    or logged.  [NewUser] and [DeleteUser] wrap the error, each in its
    own words; [UpdateUser] returns it as it is. *)
Theorem no_connection_no_effect userUUID now order order1 order2 ctx w e :
  Producer.cached (producer w) = false ->
  Producer.dialError (producer w) = Some e ->
  (forall req uuid, userUUID = Ok uuid ->
     NewUser userUUID now order ctx req w
     = (w, Err ("failed to get connection: " +:+ e)))
  /\ (forall req,
        DeleteUser order ctx req w = (w, Err ("failed to make connection: " +:+ e)))
  /\ (forall req change, UpdateUserRequest.Password req = Some change ->
        UpdateUser order1 order2 ctx req w = (w, Err e)).
Proof.
  intros Hc Hd. pose proof (getConnection_fails ctx w e Hc Hd) as Hg.
  split; [|split].
  - intros req uuid ->. unfold NewUser, Credsutil.GenerateUsername,
      Credsutil.makeUsername. cbv zeta. now rewrite Hg.
  - intros req. unfold DeleteUser. now rewrite Hg.
  - intros req change Hpw. unfold UpdateUser, changeUserPassword.
    now rewrite Hpw, Hg.
Qed.

(** The node cannot be reached. *)
Lemma no_connection_no_effect_witness :
  DeleteUser [] Scenario.noDeadline (DeleteUserRequest.mk "ALICE")
    (mkWorld (Producer.mkState false (Some "dial tcp: connection refused") None 0)
       (Pool (Scenario.nodeWithAlice Scenario.noFault)) [] [])
  = (mkWorld (Producer.mkState false (Some "dial tcp: connection refused") None 0)
       (Pool (Scenario.nodeWithAlice Scenario.noFault)) [] [],
     Err "failed to make connection: dial tcp: connection refused").
Proof.
  apply (no_connection_no_effect (Ok Scenario.uuid) Scenario.unixNow [] [] []
           Scenario.noDeadline
           (mkWorld (Producer.mkState false (Some "dial tcp: connection refused") None 0)
              (Pool (Scenario.nodeWithAlice Scenario.noFault)) [] [])
           "dial tcp: connection refused").
  - reflexivity.
  - reflexivity.
Defined.

End Handle.

(** ** Statements after the first *)

Section LaterStatements.

Import GoStrings GoTime RedisServer Dbplugin Plugin Conditions Inputs.

(** X11: [NewUser] reads the first statement left by [removeEmpty] and
    no other: two requests that agree on it (and on the names and the
    password) are served alike, whatever their other statements. *)
Theorem NewUser_first_statement_only userUUID now order ctx req req' w :
  NewUserRequest.UsernameConfig req = NewUserRequest.UsernameConfig req' ->
  NewUserRequest.Password req = NewUserRequest.Password req' ->
  head (removeEmpty (Commands (NewUserRequest.Statements req)))
  = head (removeEmpty (Commands (NewUserRequest.Statements req'))) ->
  NewUser userUUID now order ctx req w = NewUser userUUID now order ctx req' w.
Proof.
  intros Hcfg Hpw Hhead.
  assert (Hargs : forall u, newUserArgs u req = newUserArgs u req').
  { intros u. unfold newUserArgs. rewrite Hpw.
    destruct (removeEmpty (Commands (NewUserRequest.Statements req))) as [|s l];
      destruct (removeEmpty (Commands (NewUserRequest.Statements req'))) as [|s' l'];
      try discriminate Hhead; [reflexivity|].
    injection Hhead as ->. reflexivity. }
  assert (Hnew : forall u w1, newUser order ctx u req w1 = newUser order ctx u req' w1).
  { intros u w1. unfold newUser. now rewrite Hargs. }
  unfold NewUser. rewrite Hcfg.
  destruct (Credsutil.GenerateUsername _ _ _) as [name|e0|m]; try reflexivity.
  destruct (getConnection ctx w) as [w1 [db|e0|m]]; try reflexivity.
  now rewrite Hnew.
Qed.

(** A second statement, which would not decode, changes nothing. *)
Lemma NewUser_first_statement_only_witness :
  NewUser (Ok Scenario.uuid) Scenario.unixNow [] Scenario.noDeadline
    (Scenario.request "token" "my-role" [jsonArray ["+@admin"]; "+@all"] "pw")
    (Scenario.onPool Scenario.emptyNode)
  = NewUser (Ok Scenario.uuid) Scenario.unixNow [] Scenario.noDeadline
      (Scenario.request "token" "my-role" [" "; jsonArray ["+@admin"]] "pw")
      (Scenario.onPool Scenario.emptyNode).
Proof.
  apply (NewUser_first_statement_only (Ok Scenario.uuid) Scenario.unixNow []
           Scenario.noDeadline
           (Scenario.request "token" "my-role" [jsonArray ["+@admin"]; "+@all"] "pw")
           (Scenario.request "token" "my-role" [" "; jsonArray ["+@admin"]] "pw")).
  - reflexivity.
  - reflexivity.
  - vm_compute. reflexivity.
Defined.

End LaterStatements.

(** ** [DeleteUser] *)

Section Deleting.

Import GoStrings GoTime RedisServer Dbplugin Plugin Conditions Inputs.

(** A node that does not fail [ACL DELUSER] answers with a count and
    has no such user afterwards, whether it had one or not. *)
Lemma exec_deluser n username :
  fault n (deleteCmd username) = None ->
  replyError (snd (exec n (deleteCmd username))) = None
  /\ users (fst (exec n (deleteCmd username))) = delete username (users n).
Proof.
  intros Hf. unfold exec. rewrite Hf. unfold deleteCmd. cbn [answer].
  destruct (users n !! username) eqn:Hu; cbn [fst snd users replyError];
    split; try reflexivity.
  symmetry. now apply delete_id.
Qed.

(** [DeleteUser] on a single node, with a handle obtained. *)
Lemma DeleteUser_Pool order ctx req w n :
  connects w -> store w = Pool n ->
  store (fst (DeleteUser order ctx req w))
  = Pool (fst (exec n (deleteCmd (DeleteUserRequest.Username req))))
  /\ stdout (fst (DeleteUser order ctx req w)) = stdout w
  /\ snd (DeleteUser order ctx req w)
     = match replyError (snd (exec n (deleteCmd (DeleteUserRequest.Username req)))) with
       | Some e => Err ("response from pool DeleteUser: , error: " +:+ e)
       | None => Ok tt
       end.
Proof.
  intros Hc Hs.
  destruct (DeleteUser_connected order ctx req w Hc) as (p & _ & _ & _ & ->).
  cbn [fst snd]. destruct (deferredClose_frame
    (mkWorld p (store (fst (deleteUser order (DeleteUserRequest.Username req) w)))
       (stdout (fst (deleteUser order (DeleteUserRequest.Username req) w)))
       (errorLog w))) as [-> ->]. cbn [store stdout].
  set (u := DeleteUserRequest.Username req).
  assert (Hrun : deleteUser order u w
                 = (setStore w (Pool (fst (exec n (deleteCmd u)))),
                    match replyError (snd (exec n (deleteCmd u))) with
                    | Some e => Err ("response from pool DeleteUser: , error: " +:+ e)
                    | None => Ok tt
                    end)).
  { unfold deleteUser, deleteCmd. rewrite Hs.
    destruct (exec n _) as [n' r]. cbn [fst snd].
    destruct r; reflexivity. }
  rewrite Hrun. now cbn [fst snd store stdout setStore].
Qed.

(** X12: [DeleteUser] on a single node, with a handle obtained, sends
    the one command [ACL DELUSER <username>] and prints nothing.  It
    succeeds whenever the node answers without an error, whatever the
    answer: deleting a user the node does not have succeeds too, and
    either way the node has no such user afterwards.  When the command
    fails, the error is wrapped with an empty response. *)
Theorem DeleteUser_single_node order ctx req w n :
  connects w -> store w = Pool n ->
  store (fst (DeleteUser order ctx req w))
  = Pool (fst (exec n (deleteCmd (DeleteUserRequest.Username req))))
  /\ received (fst (exec n (deleteCmd (DeleteUserRequest.Username req))))
     = received n ++ [deleteCmd (DeleteUserRequest.Username req)]
  /\ stdout (fst (DeleteUser order ctx req w)) = stdout w
  /\ snd (DeleteUser order ctx req w)
     = match replyError (snd (exec n (deleteCmd (DeleteUserRequest.Username req)))) with
       | Some e => Err ("response from pool DeleteUser: , error: " +:+ e)
       | None => Ok tt
       end
  /\ (fault n (deleteCmd (DeleteUserRequest.Username req)) = None ->
      snd (DeleteUser order ctx req w) = Ok tt
      /\ users (fst (exec n (deleteCmd (DeleteUserRequest.Username req))))
         = delete (DeleteUserRequest.Username req) (users n)).
Proof.
  intros Hc Hs.
  destruct (DeleteUser_Pool order ctx req w n Hc Hs) as (-> & -> & ->).
  split; [reflexivity|]. split; [apply exec_received|].
  split; [reflexivity|]. split; [reflexivity|].
  intros Hf. destruct (exec_deluser n _ Hf) as [-> Hu]. now split.
Qed.

(** ALICE is deleted, and deleting her again succeeds. *)
Lemma DeleteUser_single_node_witness :
  snd (DeleteUser [] Scenario.noDeadline (DeleteUserRequest.mk "ALICE")
         (Scenario.onPool Scenario.emptyNode)) = Ok tt.
Proof.
  apply (DeleteUser_single_node [] Scenario.noDeadline
           (DeleteUserRequest.mk "ALICE") (Scenario.onPool Scenario.emptyNode)
           Scenario.emptyNode).
  - right. reflexivity.
  - reflexivity.
  - reflexivity.
Defined.

(** The loop of [DeleteUser], when every node enumerated answers. *)
Lemma deleteUser_Cluster_all order username w topo :
  store w = Cluster topo -> NoDup order ->
  (forall a, a ∈ order ->
     exists m, topo !! a = Some m /\ answers (deleteCmd username) m) ->
  exists topo',
    deleteUser order username w = (setStore w (Cluster topo'), Ok tt)
    /\ sentTo (deleteCmd username) order topo topo'.
Proof.
  intros Hs Hnd Hall. unfold deleteUser. rewrite Hs.
  destruct (forRange_accepted (deleteCmd username) deleteUserNode
              (fun r => replyError r = None) (fun _ => True) deleteUserNode_accept
              order topo EmptyString Hnd I)
    as (topo' & v' & Hrun & _ & Hsent).
  { intros a Ha. destruct (Hall a Ha) as (m & Hm & Hc & Hr). now exists m. }
  exists topo'. unfold deleteCmd in Hrun. now rewrite Hrun.
Qed.

(** X13: [DeleteUser] on a cluster whose members all answer the
    command succeeds: every member enumerated has received
    [ACL DELUSER <username>] once and has no such user afterwards, and
    the members not enumerated are as before. *)
Theorem DeleteUser_cluster_all order ctx req w topo :
  connects w -> store w = Cluster topo -> NoDup order ->
  (forall a, a ∈ order ->
     exists m, topo !! a = Some m
               /\ answers (deleteCmd (DeleteUserRequest.Username req)) m) ->
  snd (DeleteUser order ctx req w) = Ok tt
  /\ exists topo',
       store (fst (DeleteUser order ctx req w)) = Cluster topo'
       /\ sentTo (deleteCmd (DeleteUserRequest.Username req)) order topo topo'
       /\ forall a, a ∈ order ->
            exists m', topo' !! a = Some m'
                       /\ users (mnode m') !! DeleteUserRequest.Username req = None.
Proof.
  intros Hc Hs Hnd Hall.
  destruct (DeleteUser_connected order ctx req w Hc) as (p & _ & _ & _ & ->).
  destruct (deleteUser_Cluster_all order (DeleteUserRequest.Username req) w topo
              Hs Hnd Hall) as (topo' & -> & Hsent).
  cbn [fst snd]. rewrite (proj1 (deferredClose_frame _)). cbn [store setStore].
  split; [reflexivity|]. exists topo'. split; [reflexivity|].
  split; [exact Hsent|]. intros a Ha.
  destruct (Hall a Ha) as (m & Hm & _ & Hr).
  rewrite (Hsent a), Hm. destruct (decide (a ∈ order)); [|contradiction].
  eexists. split; [reflexivity|]. unfold sent; cbn [mnode].
  unfold replyTo in Hr. apply answered_no_fault in Hr.
  rewrite (proj2 (exec_deluser _ _ Hr)). apply lookup_delete_eq.
Qed.

(** ALICE is deleted from three members. *)
Lemma DeleteUser_cluster_all_witness :
  snd (DeleteUser Scenario.order3 Scenario.noDeadline
         (DeleteUserRequest.mk "ALICE")
         (Scenario.onCluster
            (Scenario.threeNodes Scenario.noFault Scenario.noFault
               Scenario.noFault Scenario.aliceTable))) = Ok tt.
Proof.
  apply (DeleteUser_cluster_all Scenario.order3 Scenario.noDeadline
           (DeleteUserRequest.mk "ALICE")
           (Scenario.onCluster
              (Scenario.threeNodes Scenario.noFault Scenario.noFault
                 Scenario.noFault Scenario.aliceTable))
           (Scenario.threeNodes Scenario.noFault Scenario.noFault
              Scenario.noFault Scenario.aliceTable)).
  - right. reflexivity.
  - reflexivity.
  - exact order3_NoDup.
  - apply order3_all; try (split; vm_compute; reflexivity). auto.
Defined.

(** X14: when every member of a cluster answers the command,
    [DeleteUser] does the same whatever the order in which Go
    enumerates the topology: the result and the state left are the
    same for any two enumerations.  (When a member fails, the order
    decides which members were reached.) *)
Theorem DeleteUser_any_order order order' ctx req w topo :
  connects w -> store w = Cluster topo ->
  enumerates order topo -> enumerates order' topo ->
  (forall a m, topo !! a = Some m ->
     answers (deleteCmd (DeleteUserRequest.Username req)) m) ->
  DeleteUser order ctx req w = DeleteUser order' ctx req w.
Proof.
  intros Hc Hs [Hnd Hdom] [Hnd' Hdom'] Hall.
  set (u := DeleteUserRequest.Username req) in *.
  assert (Hans : forall l : list string, (forall a, a ∈ l <-> is_Some (topo !! a)) ->
            forall a, a ∈ l -> exists m, topo !! a = Some m /\ answers (deleteCmd u) m).
  { intros l Hl a Ha. apply Hl in Ha as [m Hm]. exists m. split; [exact Hm|].
    now apply (Hall a). }
  destruct (getConnection_connects ctx w Hc) as (p & Hg & _).
  unfold DeleteUser. rewrite Hg. fold u.
  destruct (deleteUser_Cluster_all order u (setProducer w p) topo Hs Hnd
              (Hans order Hdom)) as (topo1 & -> & Hsent1).
  destruct (deleteUser_Cluster_all order' u (setProducer w p) topo Hs Hnd'
              (Hans order' Hdom')) as (topo2 & -> & Hsent2).
  replace topo2 with topo1; [reflexivity|].
  apply map_eq. intros a. rewrite (Hsent1 a), (Hsent2 a).
  destruct (decide (a ∈ order)) as [Ha|Ha];
    destruct (decide (a ∈ order')) as [Ha'|Ha']; try reflexivity.
  - apply Hdom in Ha. now apply Hdom' in Ha.
  - apply Hdom' in Ha'. now apply Hdom in Ha'.
Qed.

Lemma enumerates_Permutation (order order' : list string) topo :
  order ≡ₚ order' -> enumerates order topo -> enumerates order' topo.
Proof.
  intros Hp [Hnd Hdom]. split; [now rewrite <- Hp|].
  intros a. now rewrite <- Hp.
Qed.

(** Three members, enumerated forwards and backwards. *)
Lemma DeleteUser_any_order_witness :
  DeleteUser Scenario.order3 Scenario.noDeadline (DeleteUserRequest.mk "ALICE")
    (Scenario.onCluster
       (Scenario.threeNodes Scenario.noFault Scenario.noFault
          Scenario.noFault Scenario.aliceTable))
  = DeleteUser [Scenario.addrC; Scenario.addrB; Scenario.addrA]
      Scenario.noDeadline (DeleteUserRequest.mk "ALICE")
      (Scenario.onCluster
         (Scenario.threeNodes Scenario.noFault Scenario.noFault
            Scenario.noFault Scenario.aliceTable)).
Proof.
  apply (DeleteUser_any_order Scenario.order3
           [Scenario.addrC; Scenario.addrB; Scenario.addrA]
           Scenario.noDeadline (DeleteUserRequest.mk "ALICE")
           (Scenario.onCluster
              (Scenario.threeNodes Scenario.noFault Scenario.noFault
                 Scenario.noFault Scenario.aliceTable))
           (Scenario.threeNodes Scenario.noFault Scenario.noFault
              Scenario.noFault Scenario.aliceTable)).
  - right. reflexivity.
  - reflexivity.
  - apply order3_enumerates.
  - apply (enumerates_Permutation Scenario.order3); [|apply order3_enumerates].
    symmetry. apply (reverse_Permutation Scenario.order3).
  - apply order3_members; split; vm_compute; reflexivity.
Defined.

End Deleting.

(** ** [UpdateUser]: failures on a single node, and what a rotation
    leaves on a cluster *)

Section Rotating.

Import GoStrings GoTime RedisServer Dbplugin Plugin Conditions Inputs.

Lemma exec_failure n args f :
  fault n args = Some f ->
  exec n args = (mkNode (users n) (fault n) (received n ++ [args]), failureReply f).
Proof. intros Hf. unfold exec. now rewrite Hf. Qed.

Lemma replyError_failure f : replyError (failureReply f) = Some (failureText f).
Proof. now destruct f. Qed.

Lemma printRedisError_failure out f :
  printRedisError out (failureReply f) = out ++ redisErrorLine f.
Proof. destruct f; simpl; [reflexivity|now rewrite app_nil_r]. Qed.

(** With the handle obtained, what [UpdateUser] prints is what the two
    switches print. *)
Lemma UpdateUser_stdout o1 o2 ctx req change w :
  UpdateUserRequest.Password req = Some change -> connects w ->
  stdout (fst (UpdateUser o1 o2 ctx req w))
  = stdout (fst (rotate o1 o2 (UpdateUserRequest.Username req) (NewPassword change) w)).
Proof.
  intros Hpw Hc. unfold UpdateUser. rewrite Hpw.
  destruct (changeUserPassword_connected o1 o2 ctx (UpdateUserRequest.Username req)
              (NewPassword change) w Hc) as (p & _ & _ & _ & ->).
  cbn [fst]. now rewrite (proj2 (deferredClose_frame _)).
Qed.

(** The lookup on a single node that fails it. *)
Lemma getUser_Pool_fails order username w n f :
  store w = Pool n -> fault n (lookupCmd username) = Some f ->
  getUser order username w
  = (mkWorld (producer w)
       (Pool (mkNode (users n) (fault n) (received n ++ [lookupCmd username])))
       (stdout w ++ redisErrorLine f) (errorLog w),
     Err ("reset of passwords for user " +:+ username
          +:+ " failed in changeUserPassword: " +:+ failureText f)).
Proof.
  intros Hs Hf. unfold getUser. rewrite Hs.
  change ["ACL"; "GETUSER"; username] with (lookupCmd username).
  rewrite (exec_failure _ _ _ Hf), replyError_failure, printRedisError_failure.
  reflexivity.
Qed.

(** The lookup on a single node that has the user. *)
Lemma getUser_Pool_found order username w n :
  store w = Pool n -> fault n (lookupCmd username) = None ->
  is_Some (users n !! username) ->
  getUser order username w
  = (mkWorld (producer w)
       (Pool (mkNode (users n) (fault n) (received n ++ [lookupCmd username])))
       (stdout w) (errorLog w),
     Ok tt).
Proof.
  intros Hs Hf [entry Hu]. unfold getUser. rewrite Hs.
  change ["ACL"; "GETUSER"; username] with (lookupCmd username).
  unfold exec. rewrite Hf. unfold lookupCmd. cbn [answer]. now rewrite Hu.
Qed.

(** The reset on a single node that fails it. *)
Lemma resetPass_Pool_fails order username password w n f :
  store w = Pool n -> fault n (resetArgs username password) = Some f ->
  resetPass order username password w
  = (mkWorld (producer w)
       (Pool (mkNode (users n) (fault n)
                (received n ++ [resetArgs username password])))
       (stdout w ++ ["Response in changeUserPassword2: " +:+ nl]) (errorLog w),
     Err ("pool reset of password for user " +:+ username
          +:+ " failed, REDIS response , error, " +:+ failureText f)).
Proof.
  intros Hs Hf. unfold resetPass. rewrite Hs.
  rewrite (exec_failure _ _ _ Hf), replyError_failure.
  now destruct f.
Qed.

(** X15: [UpdateUser] with a new password on a single node, with a
    handle obtained, when a command fails.
    - The lookup fails: the error is wrapped as a failed reset, an
      error reply is also printed (a transport error is not), and no
      reset is sent.
    - The lookup finds the user and the reset fails: the error is
      wrapped with an empty response and the response line is printed.
    Either way the ACL table of the node is as before. *)
Theorem UpdateUser_single_node_failures order1 order2 ctx req change w n f :
  UpdateUserRequest.Password req = Some change -> connects w ->
  store w = Pool n ->
  (fault n (lookupCmd (UpdateUserRequest.Username req)) = Some f ->
   snd (UpdateUser order1 order2 ctx req w)
   = Err ("reset of passwords for user " +:+ UpdateUserRequest.Username req
          +:+ " failed in changeUserPassword: " +:+ failureText f)
   /\ store (fst (UpdateUser order1 order2 ctx req w))
      = Pool (mkNode (users n) (fault n)
                (received n ++ [lookupCmd (UpdateUserRequest.Username req)]))
   /\ stdout (fst (UpdateUser order1 order2 ctx req w))
      = stdout w ++ redisErrorLine f)
  /\
  (fault n (lookupCmd (UpdateUserRequest.Username req)) = None ->
   is_Some (users n !! UpdateUserRequest.Username req) ->
   fault n (resetArgs (UpdateUserRequest.Username req) (NewPassword change)) = Some f ->
   snd (UpdateUser order1 order2 ctx req w)
   = Err ("pool reset of password for user " +:+ UpdateUserRequest.Username req
          +:+ " failed, REDIS response , error, " +:+ failureText f)
   /\ store (fst (UpdateUser order1 order2 ctx req w))
      = Pool (mkNode (users n) (fault n)
                (received n ++ [lookupCmd (UpdateUserRequest.Username req);
                                resetArgs (UpdateUserRequest.Username req)
                                  (NewPassword change)]))
   /\ stdout (fst (UpdateUser order1 order2 ctx req w))
      = stdout w ++ ["Response in changeUserPassword2: " +:+ nl]).
Proof.
  intros Hpw Hc Hs.
  destruct (UpdateUser_rotate order1 order2 ctx req change w Hpw Hc) as [-> ->].
  rewrite (UpdateUser_stdout order1 order2 ctx req change w Hpw Hc).
  set (u := UpdateUserRequest.Username req).
  set (pw := NewPassword change).
  split.
  - intros Hf. unfold rotate.
    rewrite (getUser_Pool_fails order1 u w n f Hs Hf). now cbn [fst snd store stdout].
  - intros Hf Hu Hfr. unfold rotate.
    rewrite (getUser_Pool_found order1 u w n Hs Hf Hu).
    rewrite (resetPass_Pool_fails order2 u pw
               (mkWorld (producer w)
                  (Pool (mkNode (users n) (fault n) (received n ++ [lookupCmd u])))
                  (stdout w) (errorLog w))
               (mkNode (users n) (fault n) (received n ++ [lookupCmd u])) f
               eq_refl Hfr).
    cbn [fst snd store stdout received users fault].
    now rewrite <- app_assoc.
Qed.

(** ALICE on a node that rejects [ACL SETUSER]. *)
Lemma UpdateUser_single_node_failures_witness :
  snd (UpdateUser [] [] Scenario.noDeadline Scenario.rotateAlice
         (Scenario.onPool (Scenario.nodeWithAlice Scenario.rejectsSetuser)))
  = Err "pool reset of password for user ALICE failed, REDIS response , error, ERR syntax"
  /\ stdout (fst (UpdateUser [] [] Scenario.noDeadline Scenario.rotateAlice
                    (Scenario.onPool (Scenario.nodeWithAlice Scenario.rejectsSetuser))))
     = ["Response in changeUserPassword2: " +:+ nl].
Proof.
  destruct (UpdateUser_single_node_failures [] [] Scenario.noDeadline
              Scenario.rotateAlice (mkChangePassword "new")
              (Scenario.onPool (Scenario.nodeWithAlice Scenario.rejectsSetuser))
              (Scenario.nodeWithAlice Scenario.rejectsSetuser)
              (ErrorReply "ERR syntax") eq_refl (or_intror eq_refl) eq_refl)
    as [_ Hreset].
  destruct Hreset as (Hres & _ & Hout).
  - reflexivity.
  - eexists. vm_compute. reflexivity.
  - reflexivity.
  - split; [exact Hres|exact Hout].
Defined.

(** X16: after [UpdateUser] with a new password has succeeded on a
    cluster (every member enumerated has the user and answers the
    reset), every member enumerated by the reset loop holds the user
    with the new password as its only password. *)
Theorem UpdateUser_cluster_new_password order1 order2 ctx req change w topo :
  UpdateUserRequest.Password req = Some change -> connects w ->
  store w = Cluster topo -> NoDup order1 -> NoDup order2 ->
  (forall a, a ∈ order1 ->
     exists m, topo !! a = Some m /\ finds (UpdateUserRequest.Username req) m) ->
  (forall a, a ∈ order2 ->
     exists m, topo !! a = Some m
               /\ answers (resetArgs (UpdateUserRequest.Username req)
                             (NewPassword change)) m) ->
  snd (UpdateUser order1 order2 ctx req w) = Ok tt
  /\ exists topo',
       store (fst (UpdateUser order1 order2 ctx req w)) = Cluster topo'
       /\ forall a, a ∈ order2 ->
            exists m' entry,
              topo' !! a = Some m'
              /\ users (mnode m') !! UpdateUserRequest.Username req = Some entry
              /\ passwords entry = [NewPassword change].
Proof.
  intros Hpw Hc Hs Hnd1 Hnd2 Hfind Hans.
  destruct (UpdateUser_rotate order1 order2 ctx req change w Hpw Hc) as [-> ->].
  set (u := UpdateUserRequest.Username req) in *.
  set (pw := NewPassword change) in *.
  destruct (rotate_Cluster_found order1 order2 u pw w topo Hs Hnd1 Hfind)
    as (topo1 & out1 & -> & Hsent1).
  pose proof (answers_after_lookups u order1 topo topo1 _ order2 Hsent1 Hans)
    as Hans1.
  destruct (resetPass_Cluster_all order2 u pw
              (mkWorld (producer w) (Cluster topo1) out1 (errorLog w))
              topo1 eq_refl Hnd2 Hans1) as (topo' & out' & -> & Hsent2).
  cbn [fst snd store]. split; [reflexivity|]. exists topo'.
  split; [reflexivity|]. intros a Ha.
  destruct (Hans1 a Ha) as (m1 & Hm1 & Hreset).
  destruct (sent_reset_password u pw m1 Hreset) as (entry & Hentry & Hpws).
  exists (sent (resetArgs u pw) m1), entry.
  rewrite (Hsent2 a), Hm1. destruct (decide (a ∈ order2)); [|contradiction].
  now repeat split.
Qed.

(** ALICE gets the password [new] on three members. *)
Lemma UpdateUser_cluster_new_password_witness :
  snd (UpdateUser Scenario.order3 Scenario.order3 Scenario.noDeadline
         Scenario.rotateAlice
         (Scenario.onCluster
            (Scenario.threeNodes Scenario.noFault Scenario.noFault
               Scenario.noFault Scenario.aliceTable))) = Ok tt.
Proof.
  apply (UpdateUser_cluster_new_password Scenario.order3 Scenario.order3
           Scenario.noDeadline Scenario.rotateAlice (mkChangePassword "new")
           (Scenario.onCluster
              (Scenario.threeNodes Scenario.noFault Scenario.noFault
                 Scenario.noFault Scenario.aliceTable))
           (Scenario.threeNodes Scenario.noFault Scenario.noFault
              Scenario.noFault Scenario.aliceTable)).
  - reflexivity.
  - right. reflexivity.
  - reflexivity.
  - exact order3_NoDup.
  - exact order3_NoDup.
  - apply order3_all;
      [split; [split; vm_compute; reflexivity | vm_compute; discriminate] ..
      | auto].
  - apply order3_all; try (split; vm_compute; reflexivity). auto.
Defined.

End Rotating.

(** ** A user created, rotated and deleted *)

Section Lifecycle.

Import GoStrings GoTime RedisServer Dbplugin Plugin Conditions Inputs.

Lemma UpdateUser_dialError o1 o2 ctx req w :
  Producer.dialError (producer (fst (UpdateUser o1 o2 ctx req w)))
  = Producer.dialError (producer w).
Proof.
  unfold UpdateUser. destruct (UpdateUserRequest.Password req) as [change|];
    [|reflexivity].
  unfold changeUserPassword. pose proof (getConnection_dialError ctx w) as Hd.
  destruct (getConnection ctx w) as [[p1 s1 out1 l1] [db|e|m]];
    cbn [fst snd producer] in *; try exact Hd.
  rewrite (rotate_frame o1 o2 _ _ p1 s1 out1 l1 p1 l1).
  unfold deferredClose, Producer.close. cbn [producer setProducer].
  destruct (Producer.cached p1), (Producer.closeError p1); exact Hd.
Qed.

(** The command of [newUser] is an [ACL SETUSER] on the username. *)
Lemma newUserArgs_shape username req aclargs :
  newUserArgs username req = Ok aclargs ->
  exists rules,
    aclargs = ["SETUSER"; username; "ON"; ">" +:+ NewUserRequest.Password req]
              ++ rules.
Proof.
  unfold newUserArgs.
  destruct (if (length (removeEmpty _) =? 0)%nat then _ else _) as [|s l];
    [discriminate|].
  destruct (GoJSON.Unmarshal s) as [rules|e|m]; try discriminate.
  intros [= <-]. now exists rules.
Qed.

(** A node that does not fail [ACL SETUSER] applies it. *)
Lemma exec_setuser n username ops :
  fault n ("ACL" :: "SETUSER" :: username :: ops) = None ->
  replyError (snd (exec n ("ACL" :: "SETUSER" :: username :: ops))) = None
  /\ users (fst (exec n ("ACL" :: "SETUSER" :: username :: ops)))
     = setuser (users n) username ops.
Proof. intros Hf. unfold exec. rewrite Hf. now split. Qed.

(** The reset on a single node that answers it. *)
Lemma resetPass_Pool order username password w n :
  store w = Pool n -> fault n (resetArgs username password) = None ->
  store (fst (resetPass order username password w))
  = Pool (fst (exec n (resetArgs username password)))
  /\ snd (resetPass order username password w) = Ok tt.
Proof.
  intros Hs Hf. unfold resetPass. rewrite Hs.
  destruct (exec_setuser n username ["RESETPASS"; ">" +:+ password] Hf) as [Hr _].
  unfold resetArgs in *. destruct (exec n _) as [n' r]. cbn [fst snd] in *.
  now rewrite Hr.
Qed.

(** X17: on a single node that answers every command and has no user
    of the generated name, a user created by [NewUser] is found and
    rotated by [UpdateUser] and removed by [DeleteUser]: the three
    calls succeed, the node receives the four commands in order, and
    its ACL table ends as it was before the creation.  (Connections
    can be established: [UpdateUser] closes the handle [NewUser] left,
    and [DeleteUser] dials again.) *)
Theorem user_lifecycle userUUID now order order1 order2 order' ctx req w n
    username aclargs password :
  generates userUUID now req username ->
  Producer.dialError (producer w) = None -> store w = Pool n ->
  newUserArgs username req = Ok aclargs ->
  (forall args, fault n args = None) ->
  users n !! username = None ->
  let rotation :=
    UpdateUserRequest.mk username (Some (mkChangePassword password)) None in
  let w1 := fst (NewUser userUUID now order ctx req w) in
  let w2 := fst (UpdateUser order1 order2 ctx rotation w1) in
  let w3 := fst (DeleteUser order' ctx (DeleteUserRequest.mk username) w2) in
  snd (NewUser userUUID now order ctx req w) = Ok username
  /\ snd (UpdateUser order1 order2 ctx rotation w1) = Ok tt
  /\ snd (DeleteUser order' ctx (DeleteUserRequest.mk username) w2) = Ok tt
  /\ exists n3,
       store w3 = Pool n3
       /\ users n3 = users n
       /\ received n3
          = received n ++ ["ACL" :: aclargs; lookupCmd username;
                           resetArgs username password; deleteCmd username].
Proof.
  intros Hgen Hdial Hs Hargs Hfault Hnone rotation w1 w2 w3.
  assert (Hc : connects w) by (right; exact Hdial).
  destruct (newUserArgs_shape _ _ _ Hargs) as [rules Hshape].
  (* the creation *)
  destruct (NewUser_generated _ _ order ctx _ _ _ Hgen Hc) as (Hs1 & _ & Hr1).
  destruct (newUser_Pool order ctx _ _ _ _ _ Hargs Hs) as [Hs1' Hr1'].
  rewrite Hs1' in Hs1. rewrite Hr1' in Hr1. clear Hs1' Hr1'.
  set (n1 := fst (exec n ("ACL" :: aclargs))) in *.
  assert (Hcreate : replyError (snd (exec n ("ACL" :: aclargs))) = None
                    /\ is_Some (users n1 !! username)
                    /\ delete username (users n1) = users n).
  { subst n1. rewrite Hshape. cbn [app].
    destruct (exec_setuser n username
                ("ON" :: (">" +:+ NewUserRequest.Password req) :: rules)
                (Hfault _)) as [-> ->].
    unfold setuser. rewrite lookup_insert_eq, delete_insert_eq.
    split; [reflexivity|]. split; [eauto|now apply delete_id]. }
  destruct Hcreate as (Hok1 & Hhas1 & Hdel1). rewrite Hok1 in Hr1.
  assert (Hf1 : fault n1 = fault n) by apply exec_fault.
  assert (Hrc1 : received n1 = received n ++ ["ACL" :: aclargs])
    by apply exec_received.
  destruct (NewUser_cached userUUID now order ctx req w) as [Hcached1 Hdial1];
    [destruct Hgen as (name & Hname & _); now exists name|exact Hc|].
  fold w1 in Hs1, Hcached1, Hdial1.
  (* the rotation *)
  assert (Hc1 : connects w1) by (left; exact Hcached1).
  destruct (UpdateUser_rotate order1 order2 ctx rotation (mkChangePassword password)
              w1 eq_refl Hc1) as [Hs2 Hr2].
  cbn [UpdateUserRequest.Username rotation NewPassword] in Hs2, Hr2.
  unfold rotate in Hs2, Hr2.
  assert (Hfl : fault n1 (lookupCmd username) = None)
    by (rewrite Hf1; apply Hfault).
  rewrite (getUser_Pool_found order1 username w1 n1 Hs1 Hfl Hhas1) in Hs2, Hr2.
  set (n1' := mkNode (users n1) (fault n1) (received n1 ++ [lookupCmd username]))
    in *.
  destruct (resetPass_Pool order2 username password
              (mkWorld (producer w1) (Pool n1') (stdout w1) (errorLog w1)) n1'
              eq_refl) as [Hs2' Hr2']; [cbn [fault n1']; rewrite Hf1; apply Hfault|].
  rewrite Hs2' in Hs2. rewrite Hr2' in Hr2. clear Hs2' Hr2'.
  set (n2 := fst (exec n1' (resetArgs username password))) in *.
  fold w2 in Hs2.
  assert (Hu2 : delete username (users n2) = users n).
  { subst n2. unfold resetArgs.
    rewrite (proj2 (exec_setuser n1' username ["RESETPASS"; ">" +:+ password]
                      ltac:(cbn [fault n1']; rewrite Hf1; apply Hfault))).
    unfold setuser. now rewrite delete_insert_eq. }
  assert (Hf2 : fault n2 = fault n)
    by (subst n2; now rewrite exec_fault).
  assert (Hrc2 : received n2
                 = received n ++ ["ACL" :: aclargs; lookupCmd username;
                                  resetArgs username password]).
  { subst n2. rewrite exec_received. cbn [received n1']. rewrite Hrc1.
    now rewrite <- !app_assoc. }
  (* the deletion *)
  assert (Hc2 : connects w2).
  { right. unfold w2. rewrite UpdateUser_dialError, Hdial1. exact Hdial. }
  destruct (DeleteUser_Pool order' ctx (DeleteUserRequest.mk username) w2 n2 Hc2 Hs2)
    as (Hs3 & _ & Hr3).
  cbn [DeleteUserRequest.Username] in Hs3, Hr3.
  destruct (exec_deluser n2 username) as [Hok3 Hu3];
    [rewrite Hf2; apply Hfault|].
  rewrite Hok3 in Hr3. fold w3 in Hs3.
  split; [exact Hr1|]. split; [exact Hr2|]. split; [exact Hr3|].
  eexists. split; [exact Hs3|]. split; [now rewrite Hu3|].
  rewrite exec_received, Hrc2. now rewrite <- !app_assoc.
Qed.

(** A user created with the default rule on a node with an empty ACL
    table, then rotated, then deleted. *)
Lemma user_lifecycle_witness :
  snd (UpdateUser [] [] Scenario.noDeadline
         (UpdateUserRequest.mk "V_TOKEN_MY-ROLE_ABCDEFGHIJKLMNOPQRST_1612345678"
            (Some (mkChangePassword "new")) None)
         (fst (NewUser (Ok Scenario.uuid) Scenario.unixNow [] Scenario.noDeadline
                 (Scenario.request "token" "my-role" [] "pw")
                 (Scenario.onPool Scenario.emptyNode))))
  = Ok tt.
Proof.
  destruct (user_lifecycle (Ok Scenario.uuid) Scenario.unixNow [] [] [] []
              Scenario.noDeadline (Scenario.request "token" "my-role" [] "pw")
              (Scenario.onPool Scenario.emptyNode) Scenario.emptyNode
              "V_TOKEN_MY-ROLE_ABCDEFGHIJKLMNOPQRST_1612345678"
              ["SETUSER"; "V_TOKEN_MY-ROLE_ABCDEFGHIJKLMNOPQRST_1612345678";
               "ON"; ">pw"; "~*"; "+@read"]
              "new") as (_ & Hrot & _).
  - eexists. split; vm_compute; reflexivity.
  - reflexivity.
  - reflexivity.
  - vm_compute. reflexivity.
  - reflexivity.
  - reflexivity.
  - exact Hrot.
Defined.

End Lifecycle.

(** ** The timeout, at its edges *)

Section Timeouts.

Import GoTime Plugin.

Lemma Sub_range (t u : Time) : minDuration <= Sub t u <= maxDuration.
Proof.
  unfold Sub.
  destruct (Z.ltb_spec (t - u) minDuration); [unfold minDuration, maxDuration; lia|].
  destruct (Z.ltb_spec maxDuration (t - u)); [unfold minDuration, maxDuration; lia|].
  lia.
Qed.

Lemma Sub_sign (t u : Time) :
  (t <= u -> Sub t u <= 0) /\ (u < t -> 0 < Sub t u).
Proof.
  unfold Sub.
  destruct (Z.ltb_spec (t - u) minDuration) as [Hlo|Hlo];
    [unfold minDuration in *; lia|].
  destruct (Z.ltb_spec maxDuration (t - u)) as [Hhi|Hhi];
    [unfold maxDuration in *; lia|]. lia.
Qed.

(** X18: the timeout [computeTimeout] returns always fits a
    [Duration] (a difference too large is replaced by the nearest
    bound), and is not clamped at zero: a deadline that has passed, or
    is the clock reading, gives a timeout that is negative or zero; a
    deadline still to come gives a positive one. *)
Theorem computeTimeout_edges (now : Time) (ctx : Context) :
  minDuration <= computeTimeout now ctx <= maxDuration
  /\ (forall deadline, Deadline ctx = Some deadline -> deadline <= now ->
        computeTimeout now ctx <= 0)
  /\ (forall deadline, Deadline ctx = Some deadline -> now < deadline ->
        0 < computeTimeout now ctx).
Proof.
  unfold computeTimeout, Until. split; [|split].
  - destruct (Deadline ctx) as [d|]; [apply Sub_range|].
    unfold defaultTimeout, Millisecond, Microsecond, Nanosecond,
      minDuration, maxDuration. lia.
  - intros d -> Hd. now apply Sub_sign.
  - intros d -> Hd. now apply Sub_sign.
Qed.

(** A deadline one second in the past. *)
Lemma computeTimeout_edges_witness :
  computeTimeout (5 * Second) (mkContext (Some (4 * Second))) <= 0.
Proof.
  apply (proj1 (proj2 (computeTimeout_edges (5 * Second)
                         (mkContext (Some (4 * Second))))) (4 * Second)).
  - reflexivity.
  - vm_compute. discriminate.
Defined.

End Timeouts.

(** ** A cluster loop that fails part way *)

Section PartialFailure.

Import GoStrings GoTime RedisServer Dbplugin Plugin Conditions Inputs.

Lemma sent_failure args m f :
  fault (mnode m) args = Some f -> users (mnode (sent args m)) = users (mnode m).
Proof. intros Hf. unfold sent. cbn [mnode]. now rewrite (exec_failure _ _ _ Hf). Qed.

Lemma failure_failsWith args m f :
  clientNil m = false -> fault (mnode m) args = Some f ->
  failsWith args m (failureText f).
Proof.
  intros Hc Hf. split; [exact Hc|]. unfold replyTo.
  rewrite (exec_failure _ _ _ Hf). apply replyError_failure.
Qed.

(** The members a stopped loop reached before the failure were sent
    the command. *)
Lemma sentTo_visited args pre k topo topo' a m :
  sentTo args (pre ++ [k]) topo topo' -> a ∈ pre -> topo !! a = Some m ->
  topo' !! a = Some (sent args m).
Proof.
  intros Hsent Ha Hm. rewrite (Hsent a), Hm.
  destruct (decide (a ∈ pre ++ [k])) as [_|Hn]; [reflexivity|].
  exfalso. apply Hn, elem_of_app. now left.
Qed.

(** The member that failed the command and the members not reached
    have the ACL tables they had. *)
Lemma sentTo_failed_at args pre k topo topo' mk f :
  sentTo args (pre ++ [k]) topo topo' -> topo !! k = Some mk ->
  fault (mnode mk) args = Some f ->
  forall a m, a ∉ pre -> topo !! a = Some m ->
    exists m', topo' !! a = Some m' /\ users (mnode m') = users (mnode m).
Proof.
  intros Hsent Hmk Hf a m Ha Hm. rewrite (Hsent a), Hm.
  destruct (decide (a ∈ pre ++ [k])) as [Hin|_].
  - apply elem_of_app in Hin as [Hin|Hin%list_elem_of_singleton];
      [contradiction|subst a].
    assert (m = mk) as -> by congruence.
    exists (sent args mk). split; [reflexivity|now apply (sent_failure _ _ f)].
  - now exists m.
Qed.

(** After lookups, a member has the table and the faults it had. *)
Lemma sentTo_lookup_member username visited topo topo1 a m :
  sentTo (lookupCmd username) visited topo topo1 -> topo !! a = Some m ->
  exists m1, topo1 !! a = Some m1
             /\ users (mnode m1) = users (mnode m)
             /\ fault (mnode m1) = fault (mnode m).
Proof.
  intros Hsent Hm. rewrite (Hsent a), Hm.
  destruct (decide (a ∈ visited)); simpl.
  - exists (sent (lookupCmd username) m). split; [reflexivity|].
    split; [apply sent_lookup_users|apply exec_fault].
  - now exists m.
Qed.

(** X19: nothing is undone when a cluster loop fails on member [k]
    (which gives a client and fails the command).
    - [NewUser]: the error of [k] is returned as it is; the members
      enumerated before [k] have the new user, [k] and the other
      members have the ACL tables they had.
    - [DeleteUser]: the members before [k] have lost the user, the
      others have the tables they had.
    - [UpdateUser], failing in the reset: the members before [k] hold
      the user with the new password only, the others have the tables
      they had, with the old passwords. *)
Theorem cluster_failure_is_not_undone ctx w topo pre k post mk f :
  connects w -> store w = Cluster topo ->
  NoDup (pre ++ k :: post) -> topo !! k = Some mk -> clientNil mk = false ->
  (forall userUUID now req username aclargs,
     generates userUUID now req username ->
     newUserArgs username req = Ok aclargs ->
     (forall a, a ∈ pre ->
        exists m, topo !! a = Some m /\ answers ("ACL" :: aclargs) m) ->
     fault (mnode mk) ("ACL" :: aclargs) = Some f ->
     snd (NewUser userUUID now (pre ++ k :: post) ctx req w) = Err (failureText f)
     /\ exists topo',
          store (fst (NewUser userUUID now (pre ++ k :: post) ctx req w))
          = Cluster topo'
          /\ (forall a, a ∈ pre ->
                exists m', topo' !! a = Some m'
                           /\ is_Some (users (mnode m') !! username))
          /\ (forall a m, a ∉ pre -> topo !! a = Some m ->
                exists m', topo' !! a = Some m'
                           /\ users (mnode m') = users (mnode m)))
  /\
  (forall req,
     (forall a, a ∈ pre ->
        exists m, topo !! a = Some m
                  /\ answers (deleteCmd (DeleteUserRequest.Username req)) m) ->
     fault (mnode mk) (deleteCmd (DeleteUserRequest.Username req)) = Some f ->
     isErr (snd (DeleteUser (pre ++ k :: post) ctx req w)) = true
     /\ exists topo',
          store (fst (DeleteUser (pre ++ k :: post) ctx req w)) = Cluster topo'
          /\ (forall a, a ∈ pre ->
                exists m', topo' !! a = Some m'
                           /\ users (mnode m') !! DeleteUserRequest.Username req = None)
          /\ (forall a m, a ∉ pre -> topo !! a = Some m ->
                exists m', topo' !! a = Some m'
                           /\ users (mnode m') = users (mnode m)))
  /\
  (forall order1 req change,
     UpdateUserRequest.Password req = Some change ->
     NoDup order1 ->
     (forall a, a ∈ order1 ->
        exists m, topo !! a = Some m /\ finds (UpdateUserRequest.Username req) m) ->
     (forall a, a ∈ pre ->
        exists m, topo !! a = Some m
                  /\ answers (resetArgs (UpdateUserRequest.Username req)
                                (NewPassword change)) m) ->
     fault (mnode mk) (resetArgs (UpdateUserRequest.Username req) (NewPassword change))
     = Some f ->
     isErr (snd (UpdateUser order1 (pre ++ k :: post) ctx req w)) = true
     /\ exists topo',
          store (fst (UpdateUser order1 (pre ++ k :: post) ctx req w)) = Cluster topo'
          /\ (forall a, a ∈ pre ->
                exists m' entry,
                  topo' !! a = Some m'
                  /\ users (mnode m') !! UpdateUserRequest.Username req = Some entry
                  /\ passwords entry = [NewPassword change])
          /\ (forall a m, a ∉ pre -> topo !! a = Some m ->
                exists m', topo' !! a = Some m'
                           /\ users (mnode m') = users (mnode m))).
Proof.
  intros Hc Hs Hnd Hmk Hck. split; [|split].
  - intros userUUID now req username aclargs Hgen Hargs Hans Hf.
    destruct (NewUser_generated _ _ (pre ++ k :: post) ctx _ _ _ Hgen Hc)
      as (-> & _ & ->).
    destruct (newUser_Cluster_fails pre k post ctx username req w topo aclargs mk
                (failureText f) Hargs Hs Hnd Hans Hmk
                (failure_failsWith _ _ _ Hck Hf)) as (topo' & -> & -> & Hsent).
    split; [reflexivity|]. exists topo'. split; [reflexivity|]. split.
    + intros a Ha. destruct (Hans a Ha) as (m & Hm & _ & Hr).
      exists (sent ("ACL" :: aclargs) m).
      split; [now apply (sentTo_visited _ pre k topo)|].
      unfold replyTo in Hr. apply answered_no_fault in Hr.
      destruct (newUserArgs_shape _ _ _ Hargs) as [rules Hshape].
      rewrite Hshape in Hr |- *. unfold sent. cbn [mnode app].
      rewrite (proj2 (exec_setuser (mnode m) username
                        ("ON" :: (">" +:+ NewUserRequest.Password req) :: rules) Hr)).
      unfold setuser. rewrite lookup_insert_eq. eauto.
    + now apply (sentTo_failed_at ("ACL" :: aclargs) pre k topo topo' mk f).
  - intros req Hans Hf. set (u := DeleteUserRequest.Username req) in *.
    destruct (DeleteUser_connected (pre ++ k :: post) ctx req w Hc)
      as (p & _ & _ & _ & ->). fold u.
    destruct (deleteUser_Cluster_fails pre k post u w topo mk (failureText f)
                Hs Hnd Hans Hmk (failure_failsWith _ _ _ Hck Hf))
      as (topo' & response & -> & Hsent).
    cbn [fst snd]. rewrite (proj1 (deferredClose_frame _)). cbn [store setStore].
    split; [reflexivity|]. exists topo'. split; [reflexivity|]. split.
    + intros a Ha. destruct (Hans a Ha) as (m & Hm & _ & Hr).
      exists (sent (deleteCmd u) m).
      split; [now apply (sentTo_visited _ pre k topo)|].
      unfold replyTo in Hr. apply answered_no_fault in Hr.
      unfold sent. cbn [mnode]. rewrite (proj2 (exec_deluser _ _ Hr)).
      apply lookup_delete_eq.
    + now apply (sentTo_failed_at (deleteCmd u) pre k topo topo' mk f).
  - intros order1 req change Hpw Hnd1 Hfind Hans Hf.
    set (u := UpdateUserRequest.Username req) in *.
    set (pw := NewPassword change) in *.
    destruct (rotation_reset_fails order1 ctx req change w topo pre k post mk
                (failureText f) Hpw Hc Hs Hnd1 Hfind Hnd Hans Hmk
                (failure_failsWith _ _ _ Hck Hf))
      as (response & topo1 & topo' & -> & -> & Hsent1 & Hsent2).
    fold u pw in Hsent1, Hsent2.
    split; [reflexivity|]. exists topo'. split; [reflexivity|]. split.
    + intros a Ha.
      destruct (answers_after_lookups u order1 topo topo1 _ pre Hsent1 Hans a Ha)
        as (m1 & Hm1 & Hreset).
      destruct (sent_reset_password u pw m1 Hreset) as (entry & Hentry & Hpws).
      exists (sent (resetArgs u pw) m1), entry.
      split; [now apply (sentTo_visited _ pre k topo1)|now split].
    + intros a m Ha Hm.
      destruct (sentTo_lookup_member u order1 topo topo1 k mk Hsent1 Hmk)
        as (mk1 & Hmk1 & _ & Hfk).
      destruct (sentTo_lookup_member u order1 topo topo1 a m Hsent1 Hm)
        as (m1 & Hm1 & Hu1 & _).
      destruct (sentTo_failed_at _ pre k topo1 topo' mk1 f Hsent2 Hmk1
                  ltac:(now rewrite Hfk) a m1 Ha Hm1) as (m' & Hm' & Hu').
      exists m'. split; [exact Hm'|congruence].
Qed.

End PartialFailure.

(** ALICE on three members, the second of which rejects the reset: the
    first has the new password, the third the old one. *)
Lemma cluster_failure_is_not_undone_witness :
  exists topo',
    Plugin.store
      (fst (Plugin.UpdateUser Scenario.order3
              ([Scenario.addrA] ++ Scenario.addrB :: [Scenario.addrC])
              Scenario.noDeadline Scenario.rotateAlice
              (Scenario.onCluster
                 (Scenario.threeNodes Scenario.noFault Scenario.rejectsSetuser
                    Scenario.noFault Scenario.aliceTable))))
    = RedisServer.Cluster topo'
    /\ (forall a, a ∈ [Scenario.addrA] ->
          exists m' entry,
            topo' !! a = Some m'
            /\ RedisServer.users (RedisServer.mnode m') !! "ALICE" = Some entry
            /\ RedisServer.passwords entry = ["new"])
    /\ (forall a m, a ∉ [Scenario.addrA] ->
          Scenario.threeNodes Scenario.noFault Scenario.rejectsSetuser
            Scenario.noFault Scenario.aliceTable !! a = Some m ->
          exists m', topo' !! a = Some m'
                     /\ RedisServer.users (RedisServer.mnode m')
                        = RedisServer.users (RedisServer.mnode m)).
Proof.
  destruct (cluster_failure_is_not_undone Scenario.noDeadline
              (Scenario.onCluster
                 (Scenario.threeNodes Scenario.noFault Scenario.rejectsSetuser
                    Scenario.noFault Scenario.aliceTable))
              (Scenario.threeNodes Scenario.noFault Scenario.rejectsSetuser
                 Scenario.noFault Scenario.aliceTable)
              [Scenario.addrA] Scenario.addrB [Scenario.addrC]
              (Scenario.reachable
                 (RedisServer.mkNode Scenario.aliceTable Scenario.rejectsSetuser []))
              (RedisServer.ErrorReply "ERR syntax"))
    as (_ & _ & Hrot).
  - right. reflexivity.
  - reflexivity.
  - exact order3_NoDup.
  - exact (proj1 (proj2 (order3_lookup _ _ _))).
  - reflexivity.
  - destruct (Hrot Scenario.order3 Scenario.rotateAlice
                (Dbplugin.mkChangePassword "new")) as (_ & Hstate).
    + reflexivity.
    + exact order3_NoDup.
    + apply order3_all;
        [split; [split; vm_compute; reflexivity | vm_compute; discriminate] ..
        | auto].
    + intros a ->%list_elem_of_singleton. eexists.
      split; [exact (proj1 (order3_lookup _ _ _))|].
      split; vm_compute; reflexivity.
    + reflexivity.
    + exact Hstate.
Defined.

(** ** The response quoted in the error of a cluster loop *)

Section QuotedResponse.

Import GoStrings GoTime RedisServer Dbplugin Plugin Conditions Inputs.

Lemma rcvString_answered v r :
  replyError r = None -> rcvString v r = rcvString EmptyString r.
Proof. now destruct r. Qed.

Lemma rcvString_failure v f : rcvString v (failureReply f) = v.
Proof. now destruct f. Qed.

(** What a node that does not fail [ACL DELUSER] answers. *)
Lemma exec_deluser_reply n username :
  fault n (deleteCmd username) = None ->
  snd (exec n (deleteCmd username))
  = ReplyInt (match users n !! username with Some _ => 1 | None => 0 end).
Proof.
  intros Hf. unfold exec. rewrite Hf. unfold deleteCmd. cbn [answer].
  now destruct (users n !! username).
Qed.

(** The loop of [DeleteUser] that fails on [k], right after [j]. *)
Lemma deleteUser_Cluster_after pre j k post username w topo mj mk f :
  store w = Cluster topo -> NoDup ((pre ++ [j]) ++ k :: post) ->
  (forall a, a ∈ pre ->
     exists m, topo !! a = Some m /\ answers (deleteCmd username) m) ->
  topo !! j = Some mj -> answers (deleteCmd username) mj ->
  topo !! k = Some mk -> clientNil mk = false ->
  fault (mnode mk) (deleteCmd username) = Some f ->
  snd (deleteUser ((pre ++ [j]) ++ k :: post) username w)
  = Err ("response from cluster node " +:+ k +:+ " for DeleteUser: "
         +:+ rcvString EmptyString (replyTo (deleteCmd username) mj)
         +:+ ", error: " +:+ failureText f).
Proof.
  intros Hs Hnd Hall Hmj [Hcj Hrj] Hmk Hck Hf.
  apply NoDup_app in Hnd as (Hnd1 & Hdisj & _).
  apply NoDup_app in Hnd1 as (Hndpre & Hjpre & _).
  assert (Hj : j ∉ pre).
  { intros Hin. apply (Hjpre j Hin). now apply list_elem_of_singleton. }
  assert (Hk : k ∉ pre ++ [j]).
  { intros Hin. apply (Hdisj k Hin), elem_of_cons. now left. }
  assert (Hkj : k <> j).
  { intros ->. apply Hk, elem_of_app. right. now apply list_elem_of_singleton. }
  assert (Hkpre : k ∉ pre).
  { intros Hin. apply Hk, elem_of_app. now left. }
  unfold deleteUser. rewrite Hs.
  change ["ACL"; "DELUSER"; username] with (deleteCmd username).
  destruct (forRange_accepted (deleteCmd username) deleteUserNode
              (fun r => replyError r = None) (fun _ => True) deleteUserNode_accept
              pre topo EmptyString Hndpre I)
    as (topo0 & v0 & Hrun & _ & Hsent).
  { intros a Ha. destruct (Hall a Ha) as (m & Hm & Hc & Hr). now exists m. }
  assert (Hmj0 : topo0 !! j = Some mj).
  { rewrite (Hsent j). now destruct (decide (j ∈ pre)). }
  assert (Hmk0 : topo0 !! k = Some mk).
  { rewrite (Hsent k). now destruct (decide (k ∈ pre)). }
  assert (Hstepj : deleteUserNode j v0 (replyTo (deleteCmd username) mj)
                   = (rcvString EmptyString (replyTo (deleteCmd username) mj), Ok tt)).
  { unfold deleteUserNode. rewrite Hrj. now rewrite (rcvString_answered v0 _ Hrj). }
  assert (Hstepk : forall v,
            deleteUserNode k v (replyTo (deleteCmd username) mk)
            = (v, Err ("response from cluster node " +:+ k +:+ " for DeleteUser: "
                       +:+ v +:+ ", error: " +:+ failureText f))).
  { intros v. unfold deleteUserNode, replyTo. rewrite (exec_failure _ _ _ Hf).
    cbn [snd]. now rewrite replyError_failure, rcvString_failure. }
  rewrite !forRange_app, Hrun, !forRange_cons.
  rewrite (onNode_client _ _ _ _ _ _ Hmj0 Hcj), Hstepj. cbn [fst snd forRange].
  rewrite (onNode_client _ _ _ _ k mk); [|now rewrite lookup_insert_ne|exact Hck].
  now rewrite Hstepk.
Qed.

(** X20: the response quoted in the error of [DeleteUser] on a
    cluster is not that of the member that failed: [response] is
    declared outside the loop and a failed command leaves it as it
    was, so the error names member [k] and quotes the answer of the
    member enumerated just before it, [1] when that member had the
    user and [0] when it had not. *)
Theorem DeleteUser_error_quotes_previous_member
    ctx w topo pre j k post req mj mk f :
  connects w -> store w = Cluster topo ->
  NoDup ((pre ++ [j]) ++ k :: post) ->
  (forall a, a ∈ pre ->
     exists m, topo !! a = Some m
               /\ answers (deleteCmd (DeleteUserRequest.Username req)) m) ->
  topo !! j = Some mj -> clientNil mj = false ->
  fault (mnode mj) (deleteCmd (DeleteUserRequest.Username req)) = None ->
  topo !! k = Some mk -> clientNil mk = false ->
  fault (mnode mk) (deleteCmd (DeleteUserRequest.Username req)) = Some f ->
  snd (DeleteUser ((pre ++ [j]) ++ k :: post) ctx req w)
  = Err ("response from cluster node " +:+ k +:+ " for DeleteUser: "
         +:+ match users (mnode mj) !! DeleteUserRequest.Username req with
             | Some _ => "1"
             | None => "0"
             end
         +:+ ", error: " +:+ failureText f).
Proof.
  intros Hc Hs Hnd Hall Hmj Hcj Hfj Hmk Hck Hf.
  destruct (DeleteUser_connected ((pre ++ [j]) ++ k :: post) ctx req w Hc)
    as (p & _ & _ & _ & ->). cbn [snd].
  set (u := DeleteUserRequest.Username req) in *.
  assert (Hans : answers (deleteCmd u) mj).
  { split; [exact Hcj|]. unfold replyTo. now rewrite (exec_deluser_reply _ _ Hfj). }
  rewrite (deleteUser_Cluster_after pre j k post u w topo mj mk f
             Hs Hnd Hall Hmj Hans Hmk Hck Hf).
  unfold replyTo. rewrite (exec_deluser_reply _ _ Hfj).
  now destruct (users (mnode mj) !! u).
Qed.

End QuotedResponse.

(** ALICE on three members, the second of which rejects the command:
    the error names the second member and quotes the answer of the
    first. *)
Lemma DeleteUser_error_quotes_previous_member_witness :
  snd (Plugin.DeleteUser (([] ++ [Scenario.addrA]) ++ Scenario.addrB :: [Scenario.addrC])
         Scenario.noDeadline (Dbplugin.DeleteUserRequest.mk "ALICE")
         (Scenario.onCluster
            (Scenario.threeNodes Scenario.noFault Scenario.rejectsDeluser
               Scenario.noFault Scenario.aliceTable)))
  = Err ("response from cluster node " +:+ Scenario.addrB
         +:+ " for DeleteUser: 1, error: ERR denied").
Proof.
  apply (DeleteUser_error_quotes_previous_member Scenario.noDeadline
           (Scenario.onCluster
              (Scenario.threeNodes Scenario.noFault Scenario.rejectsDeluser
                 Scenario.noFault Scenario.aliceTable))
           (Scenario.threeNodes Scenario.noFault Scenario.rejectsDeluser
              Scenario.noFault Scenario.aliceTable)
           [] Scenario.addrA Scenario.addrB [Scenario.addrC]
           (Dbplugin.DeleteUserRequest.mk "ALICE")
           (Scenario.reachable
              (RedisServer.mkNode Scenario.aliceTable Scenario.noFault []))
           (Scenario.reachable
              (RedisServer.mkNode Scenario.aliceTable Scenario.rejectsDeluser []))
           (RedisServer.ErrorReply "ERR denied")).
  - right. reflexivity.
  - reflexivity.
  - exact order3_NoDup.
  - intros a Ha. now apply elem_of_nil in Ha.
  - exact (proj1 (order3_lookup _ _ _)).
  - reflexivity.
  - reflexivity.
  - exact (proj1 (proj2 (order3_lookup _ _ _))).
  - reflexivity.
  - reflexivity.
Defined.
